(** * Telemetry pipeline: Gateway and Enricher

    A shallow embedding of the TypeScript services of the patient-monitoring
    platform that the pipeline specification talks about:

    - the Enricher ([services/telemetry-enrichment]): its Registry client
      with [callWithRetry], [EnrichmentService.enrichTelemetry] and the
      [eachMessage] callback of its Kafka consumer;
    - the Gateway ([services/telemetry-gateway]): [RegistryService.verifyDevice],
      [TelemetryService], [KafkaService.produceRawTelemetry] and the HTTP and
      gRPC controllers.

    Asynchronous code is written in a state-and-exception monad over an
    explicit world: the world records every RPC issued, every sleep, every
    event handed to a producer and every log line, and the peers (Registry,
    broker, uuid source, clock) are oracles indexed by logical time. *)

From Stdlib Require Import ZArith List String Ascii Bool Lia QArith_base DecimalString.
Import ListNotations.
Local Open Scope string_scope.
Local Open Scope Z_scope.

(** ** JavaScript values as the services use them *)

Module Js.

(** A thrown JavaScript error: its [message], and the [code] a gRPC
    [ServiceError] carries. *)
Record Error := mkError { message : string; code : option Z }.

(** [new Error(msg)] *)
Definition newError (msg : string) : Error := mkError msg None.

(** Truthiness of a string: only the empty string is falsy. *)
Definition truthy (s : string) : bool := negb (s =? "")%string.

(** Truthiness of [string | undefined]. *)
Definition truthy_opt (o : option string) : bool :=
  match o with
  | Some s => truthy s
  | None => false
  end.

(** [o || d] on [string | undefined] with a string default. *)
Definition or_default (o : option string) (d : string) : string :=
  match o with
  | Some s => if truthy s then s else d
  | None => d
  end.

(** [a || b] on [string | undefined]. *)
Definition or_opt (a b : option string) : option string :=
  if truthy_opt a then a else b.

(** [hay.includes(needle)] *)
Fixpoint includes (needle hay : string) : bool :=
  match hay with
  | EmptyString => prefix needle EmptyString
  | String _ rest => prefix needle hay || includes needle rest
  end.

(** [c.toLowerCase()] on the ASCII range, which metric names live in. *)
Definition lower_ascii (c : ascii) : ascii :=
  let n := nat_of_ascii c in
  if (Nat.leb 65 n && Nat.leb n 90)%bool then ascii_of_nat (n + 32) else c.

Fixpoint toLowerCase (s : string) : string :=
  match s with
  | EmptyString => EmptyString
  | String c rest => String (lower_ascii c) (toLowerCase rest)
  end.

(** The values a field decoded from the wire can hold where the code compares
    it with a literal: protobuf.js hands an enum over as its name when the
    definition is loaded with [enums: String], and as its number otherwise. *)
Inductive Value : Type :=
| VString (s : string)
| VNumber (n : Z).

(** [a === b]: values of different types are never strictly equal. *)
Definition strict_eq (a b : Value) : bool :=
  match a, b with
  | VString s, VString t => (s =? t)%string
  | VNumber m, VNumber n => m =? n
  | _, _ => false
  end.

(** Decimal rendering of an integer inside a template literal. *)
Definition show (z : Z) : string := NilZero.string_of_int (Z.to_int z).

End Js.

(** ** Promises as computations over a world

    [M W A] is an [async] function body: it reads and updates the world [W]
    and either resolves with an [A] or rejects with an error. *)

Module Async.

Inductive Res (A : Type) : Type :=
| Ok (a : A)
| Throw (e : Js.Error).
Arguments Ok {A} a.
Arguments Throw {A} e.

Definition M (W A : Type) : Type := W -> Res A * W.

Section Ops.
Context {W : Type}.

Definition ret {A} (a : A) : M W A := fun w => (Ok a, w).

Definition throw {A} (e : Js.Error) : M W A := fun w => (Throw e, w).

Definition bind {A B} (c : M W A) (k : A -> M W B) : M W B :=
  fun w =>
    match c w with
    | (Ok a, w') => k a w'
    | (Throw e, w') => (Throw e, w')
    end.

(** [try { c } catch (error) { h error }] *)
Definition try_catch {A} (c : M W A) (h : Js.Error -> M W A) : M W A :=
  fun w =>
    match c w with
    | (Ok a, w') => (Ok a, w')
    | (Throw e, w') => h e w'
    end.

(** A world update that cannot fail (a log line, a timer). *)
Definition effect (f : W -> W) : M W unit := fun w => (Ok tt, f w).

Definition resolved {A} (r : Res A) : bool :=
  match r with
  | Ok _ => true
  | Throw _ => false
  end.

End Ops.

End Async.

Import Async.

Declare Scope async_scope.
Delimit Scope async_scope with async.
Notation "x <- c ;; k" := (bind c (fun x => k))
  (at level 61, c at next level, right associativity) : async_scope.
Notation "c ;;; k" := (bind c (fun _ => k))
  (at level 61, right associativity) : async_scope.

Inductive Level : Type := LDebug | LLog | LWarn | LError.

Notation "' pat <- c ;; k" := (bind c (fun pat => k))
  (at level 61, pat pattern, c at next level, right associativity) : async_scope.

(** [any]-typed payloads ([vitals], threshold ranges) are carried as JSON
    values; no service below looks inside them. *)
Unset Elimination Schemes.
Inductive Json : Type :=
| JNull
| JBool (b : bool)
| JNumber (q : Q)
| JString (s : string)
| JArray (items : list Json)
| JObject (fields : list (string * Json)).
Set Elimination Schemes.

(** What the callback of a unary gRPC call receives: an error, or a response
    message with its [status] field and its payload (which may be unset).

    Both Registry clients load [registry.proto] with
    [{ keepCase: true, longs: String, enums: String, defaults: true,
       oneofs: true }], so the [status] of a response reaches the callback as
    the name of the enum value (['STATUS_SUCCESS'], ['STATUS_NOT_FOUND'],
    ['STATUS_INVALID_REQUEST'], ['STATUS_INTERNAL_ERROR']), a string. *)
Module Grpc.

Inductive Reply (A : Type) : Type :=
| Failed (error : Js.Error)
| Response (status : string) (payload : option A).
Arguments Failed {A} error.
Arguments Response {A} status payload.

(** [grpc.status.NOT_FOUND] *)
Definition NOT_FOUND : Z := 5.

(** [error.code === grpc.status.NOT_FOUND] *)
Definition is_not_found (error : Js.Error) : bool :=
  match Js.code error with
  | Some c => c =? NOT_FOUND
  | None => false
  end.

End Grpc.

(** [o?.f] *)
Definition opt_field {A B : Type} (o : option A) (f : A -> option B) : option B :=
  match o with
  | Some a => f a
  | None => None
  end.

(** ** Messages of [registry.proto] as a client sees them *)

Module Proto.

Module Device.
Record t : Type := mk {
  device_id : option string;
  device_type : option string;
  patient_id : option string;
  (** an enum: its name, as the loader is configured *)
  status : option string;
  metadata : option (list (string * string));
  registered_at : option string;
  updated_at : option string
}.
End Device.

Module Patient.
Record t : Type := mk {
  patient_id : option string;
  age : option Z;
  (** an enum: its name, as the loader is configured *)
  gender : option string;
  medical_conditions : option (list string);
  medications : option (list string);
  allergies : option (list string);
  metadata : option (list (string * string));
  registered_at : option string;
  updated_at : option string
}.
End Patient.

Module ThresholdProfile.
Record t : Type := mk {
  profile_id : option string;
  patient_id : option string;
  device_id : option string;
  heart_rate : option Json;
  blood_pressure : option Json;
  temperature : option Json;
  oxygen_saturation : option Json;
  respiratory_rate : option Json;
  created_at : option string;
  updated_at : option string
}.
End ThresholdProfile.

End Proto.

(** ** The Enricher ([services/telemetry-enrichment]) *)

Module Enrichment.

(** *** [config.service.ts] *)

Module ConfigService.
Record t : Type := mk {
  kafkaConsumerGroup : string;
  kafkaTopicNormalized : string;
  kafkaTopicEnriched : string;
  registryEnabled : bool;
  registryTimeoutMs : Z;
  registryMaxRetries : Z;
  registryRetryDelayMs : Z
}.

(** What the getters return when no environment variable is set. *)
Definition defaults : t :=
  mk "telemetry-enrichment-group" "telemetry.normalized" "telemetry.enriched"
     true 5000 3 1000.
End ConfigService.

(** *** The interfaces of [registry.service.ts] *)

Module Device.
Record t : Type := mk {
  device_id : string;
  device_type : option string;
  patient_id : option string;
  status : option string;
  metadata : list (string * string);
  registered_at : option string;
  updated_at : option string
}.
End Device.

Module Patient.
Record t : Type := mk {
  patient_id : string;
  age : option Z;
  gender : option string;
  medical_conditions : list string;
  medications : list string;
  allergies : list string;
  metadata : list (string * string);
  registered_at : option string;
  updated_at : option string
}.
End Patient.

Module ThresholdProfile.
Record t : Type := mk {
  profile_id : option string;
  patient_id : option string;
  device_id : option string;
  heart_rate : option Json;
  blood_pressure : option Json;
  temperature : option Json;
  oxygen_saturation : option Json;
  respiratory_rate : option Json;
  created_at : option string;
  updated_at : option string
}.
End ThresholdProfile.

(** *** The events of [enrichment.service.ts] *)

Module NormalizedTelemetryEvent.
(** [trace_id] is not declared by the interface; the service reads it
    through [(normalizedEvent as any).trace_id]. *)
Record t : Type := mk {
  event_id : string;
  trace_id : option string;
  event_type : string;
  version : option string;
  timestamp : string;
  source_event_id : option string;
  device_id : string;
  patient_id : option string;
  vitals : Json;
  validation_status : option string;
  normalization_metadata : option Json
}.
End NormalizedTelemetryEvent.

Module PatientProfile.
Record t : Type := mk { age : option Z; sex : option string }.
End PatientProfile.

Module Thresholds.
Record t : Type := mk {
  heart_rate : option Json;
  blood_pressure : option Json;
  temperature : option Json;
  oxygen_saturation : option Json;
  respiratory_rate : option Json
}.
End Thresholds.

Module EnrichmentMetadata.
Record t : Type := mk { enriched_at : string; enrichment_sources : list string }.
End EnrichmentMetadata.

Module EnrichedTelemetryEvent.
(** An optional field is [None] when the object literal leaves the key out. *)
Record t : Type := mk {
  event_id : string;
  trace_id : string;
  event_type : string;
  version : string;
  timestamp : string;
  source_event_id : string;
  device_id : string;
  patient_id : option string;
  orphan : option bool;
  patientProfile : option PatientProfile.t;
  thresholds : option Thresholds.t;
  vitals : Json;
  enrichment_metadata : EnrichmentMetadata.t
}.
End EnrichedTelemetryEvent.

(** A message of the consumed topic, as kafkajs hands it to [eachMessage]. *)
Module KafkaMessage.
Record t : Type := mk { value : option string; offset : Z }.
End KafkaMessage.

(** *** The world of the service *)

Inductive Rpc : Type :=
| CallGetDevice (device_id : string) (timeout_ms : Z)
| CallGetPatient (patient_id : string) (timeout_ms : Z)
| CallGetThresholdProfile (patient_id : string) (device_id : option string)
    (timeout_ms : Z).

Record World : Type := mkWorld {
  (** [isConnected && registryClient] of the Registry client *)
  registry_connected : bool;
  (** the RPCs issued so far, oldest first *)
  rpcs : list Rpc;
  (** the delays of the [setTimeout]s awaited so far *)
  timers : list Z;
  (** how many uuids and clock readings have been drawn *)
  uuids_drawn : nat;
  clock_reads : nat;
  (** the events handed to the producer, and those the broker acknowledged *)
  sent : list EnrichedTelemetryEvent.t;
  published : list EnrichedTelemetryEvent.t;
  (** the offsets of the input topic the consumer has resolved *)
  committed : list Z;
  logs : list (Level * string)
}.

(** The peers of the service, as oracles. The [nat] is logical time (for the
    Registry the number of RPCs issued before this one, for the broker the
    number of events handed over before this one), so that a peer may answer
    the same request differently on a retry. *)
Record Env : Type := mkEnv {
  config : ConfigService.t;
  GetDevice : string -> nat -> Grpc.Reply Proto.Device.t;
  GetPatient : string -> nat -> Grpc.Reply Proto.Patient.t;
  GetThresholdProfile :
    string -> option string -> nat -> Grpc.Reply Proto.ThresholdProfile.t;
  uuid : nat -> string;
  clock : nat -> string;
  (** the outcome of [KafkaProducerService.produceEnrichedTelemetry]:
      [None] when the send is acknowledged, the error it rejects with
      otherwise *)
  producer : EnrichedTelemetryEvent.t -> nat -> option Js.Error;
  (** [JSON.parse] on the bytes of a message; [inr] is the [SyntaxError] *)
  JSON_parse : string -> NormalizedTelemetryEvent.t + Js.Error
}.

Definition initial : World := mkWorld true [] [] 0 0 [] [] [] [].

Definition add_rpc (r : Rpc) (w : World) : World :=
  mkWorld (registry_connected w) (rpcs w ++ [r]) (timers w) (uuids_drawn w)
    (clock_reads w) (sent w) (published w) (committed w) (logs w).

Definition add_timer (ms : Z) (w : World) : World :=
  mkWorld (registry_connected w) (rpcs w) (timers w ++ [ms]) (uuids_drawn w)
    (clock_reads w) (sent w) (published w) (committed w) (logs w).

Definition add_uuid (w : World) : World :=
  mkWorld (registry_connected w) (rpcs w) (timers w) (S (uuids_drawn w))
    (clock_reads w) (sent w) (published w) (committed w) (logs w).

Definition add_clock_read (w : World) : World :=
  mkWorld (registry_connected w) (rpcs w) (timers w) (uuids_drawn w)
    (S (clock_reads w)) (sent w) (published w) (committed w) (logs w).

Definition add_sent (e : EnrichedTelemetryEvent.t) (w : World) : World :=
  mkWorld (registry_connected w) (rpcs w) (timers w) (uuids_drawn w)
    (clock_reads w) (sent w ++ [e]) (published w) (committed w) (logs w).

Definition add_published (e : EnrichedTelemetryEvent.t) (w : World) : World :=
  mkWorld (registry_connected w) (rpcs w) (timers w) (uuids_drawn w)
    (clock_reads w) (sent w) (published w ++ [e]) (committed w) (logs w).

Definition add_committed (o : Z) (w : World) : World :=
  mkWorld (registry_connected w) (rpcs w) (timers w) (uuids_drawn w)
    (clock_reads w) (sent w) (published w) (committed w ++ [o]) (logs w).

Definition add_log (l : Level * string) (w : World) : World :=
  mkWorld (registry_connected w) (rpcs w) (timers w) (uuids_drawn w)
    (clock_reads w) (sent w) (published w) (committed w) (logs w ++ [l]).

Section Service.
Variable env : Env.

Definition log (level : Level) (msg : string) : M World unit :=
  effect (add_log (level, msg)).

(** [await new Promise((resolve) => setTimeout(resolve, delay))] *)
Definition sleep (delay : Z) : M World unit := effect (add_timer delay).

(** [uuidv4()] *)
Definition uuidv4 : M World string :=
  fun w => (Ok (uuid env (uuids_drawn w)), add_uuid w).

(** [new Date().toISOString()] *)
Definition now : M World string :=
  fun w => (Ok (clock env (clock_reads w)), add_clock_read w).

Definition is_connected : M World bool :=
  fun w => (Ok (registry_connected w), w).

(** One unary call on the Registry client: the request goes out with its
    deadline ([registryTimeoutMs] from now) and the callback receives what
    the peer, or the deadline, makes of it. *)
Definition unary {A : Type} (call : Rpc) (peer : nat -> Grpc.Reply A)
  : M World (Grpc.Reply A) :=
  fun w => (Ok (peer (List.length (rpcs w))), add_rpc call w).

(** *** [RegistryService] *)

(** The body of the [for] loop of [callWithRetry], from attempt number
    [attempt] with [iterations] turns left. *)
Fixpoint callWithRetry_from {A : Type} (iterations : nat) (attempt : Z)
  (lastError : option Js.Error) (operation : M World A)
  (operationName : string) : M World A :=
  let maxRetries := ConfigService.registryMaxRetries (config env) in
  match iterations with
  | O =>
      (log LError
         (operationName ++ " failed after " ++ Js.show maxRetries ++ " attempts") ;;;
       throw
         match lastError with
         | Some e => e
         | None => Js.newError (operationName ++ " failed")
         end)%async
  | S rest =>
      try_catch operation
        (fun error =>
           (log LWarn
              (operationName ++ " failed (attempt " ++ Js.show attempt ++ "/"
               ++ Js.show maxRetries ++ ")") ;;;
            (if attempt <? maxRetries
             then sleep (ConfigService.registryRetryDelayMs (config env) * attempt)
             else ret tt) ;;;
            callWithRetry_from rest (attempt + 1) (Some error) operation
              operationName)%async)
  end.

(** [for (let attempt = 1; attempt <= maxRetries; attempt++)] makes
    [maxRetries] turns, none when [maxRetries] is not positive. *)
Definition callWithRetry {A : Type} (operation : M World A)
  (operationName : string) : M World A :=
  callWithRetry_from
    (Z.to_nat (ConfigService.registryMaxRetries (config env))) 1 None
    operation operationName.

(** The three lookups share the handling of the callback's arguments: a gRPC
    error with code NOT_FOUND resolves with [null] and any other error
    rejects; a response is tested with [response.status === 1] and
    [response.status === 2] and rejects with its status in the message when
    neither holds. *)
Definition settle {A B : Type} (notFound : string) (build : option A -> B)
  (reply : Grpc.Reply A) : M World (option B) :=
  match reply with
  | Grpc.Failed error =>
      if Grpc.is_not_found error
      then (log LDebug notFound ;;; ret None)%async
      else throw error
  | Grpc.Response status payload =>
      if Js.strict_eq (Js.VString status) (Js.VNumber 1) (* STATUS_SUCCESS *)
      then ret (Some (build payload))
      else if Js.strict_eq (Js.VString status) (Js.VNumber 2) (* STATUS_NOT_FOUND *)
      then ret None
      else throw (Js.newError ("Registry returned status: " ++ status))
  end.

Definition or_nil {A : Type} (o : option (list A)) : list A :=
  match o with
  | Some l => l
  | None => []
  end.

(** The two guards every lookup starts with, and the retried call: a
    disabled Registry and a client that is not connected both resolve with
    [null] without a call. *)
Definition guarded {A : Type} (operation : M World (option A))
  (operationName : string) (what : string) : M World (option A) :=
  if negb (ConfigService.registryEnabled (config env))
  then (log LDebug ("Registry is disabled, returning null for " ++ what) ;;;
        ret None)%async
  else
    (connected <- is_connected ;;
     if negb connected
     then log LWarn "Registry client not connected" ;;; ret None
     else callWithRetry operation operationName)%async.

Definition getDevice (deviceId : string) : M World (option Device.t) :=
  guarded
    (reply <- unary
                (CallGetDevice deviceId
                   (ConfigService.registryTimeoutMs (config env)))
                (GetDevice env deviceId) ;;
     settle ("Device " ++ deviceId ++ " not found in registry")
       (fun device =>
          Device.mk
            (Js.or_default (opt_field device Proto.Device.device_id) deviceId)
            (opt_field device Proto.Device.device_type)
            (opt_field device Proto.Device.patient_id)
            (opt_field device Proto.Device.status)
            (or_nil (opt_field device Proto.Device.metadata))
            (opt_field device Proto.Device.registered_at)
            (opt_field device Proto.Device.updated_at))
       reply)%async
    "GetDevice" "device lookup".

Definition getPatient (patientId : string) : M World (option Patient.t) :=
  guarded
    (reply <- unary
                (CallGetPatient patientId
                   (ConfigService.registryTimeoutMs (config env)))
                (GetPatient env patientId) ;;
     settle ("Patient " ++ patientId ++ " not found in registry")
       (fun patient =>
          Patient.mk
            (Js.or_default (opt_field patient Proto.Patient.patient_id) patientId)
            (opt_field patient Proto.Patient.age)
            (opt_field patient Proto.Patient.gender)
            (or_nil (opt_field patient Proto.Patient.medical_conditions))
            (or_nil (opt_field patient Proto.Patient.medications))
            (or_nil (opt_field patient Proto.Patient.allergies))
            (or_nil (opt_field patient Proto.Patient.metadata))
            (opt_field patient Proto.Patient.registered_at)
            (opt_field patient Proto.Patient.updated_at))
       reply)%async
    "GetPatient" "patient lookup".

Definition getThresholdProfile (patientId : string) (deviceId : option string)
  : M World (option ThresholdProfile.t) :=
  (** [if (deviceId) request.device_id = deviceId] *)
  let request_device := if Js.truthy_opt deviceId then deviceId else None in
  guarded
    (reply <- unary
                (CallGetThresholdProfile patientId request_device
                   (ConfigService.registryTimeoutMs (config env)))
                (GetThresholdProfile env patientId request_device) ;;
     settle ("Threshold profile not found for patient " ++ patientId)
       (fun profile =>
          ThresholdProfile.mk
            (opt_field profile Proto.ThresholdProfile.profile_id)
            (opt_field profile Proto.ThresholdProfile.patient_id)
            (opt_field profile Proto.ThresholdProfile.device_id)
            (opt_field profile Proto.ThresholdProfile.heart_rate)
            (opt_field profile Proto.ThresholdProfile.blood_pressure)
            (opt_field profile Proto.ThresholdProfile.temperature)
            (opt_field profile Proto.ThresholdProfile.oxygen_saturation)
            (opt_field profile Proto.ThresholdProfile.respiratory_rate)
            (opt_field profile Proto.ThresholdProfile.created_at)
            (opt_field profile Proto.ThresholdProfile.updated_at))
       reply)%async
    "GetThresholdProfile" "threshold profile lookup".

(** *** [KafkaProducerService]

    [kafka-producer.service.ts] is not among the sources; what
    [produceEnrichedTelemetry] does with the event is the oracle [producer]:
    it resolves when the broker acknowledged the event and rejects otherwise. *)
Definition produceEnrichedTelemetry (event : EnrichedTelemetryEvent.t)
  : M World unit :=
  fun w =>
    match producer env event (List.length (sent w)) with
    | None => (Ok tt, add_published event (add_sent event w))
    | Some error => (Throw error, add_sent event w)
    end.

(** *** [EnrichmentService] *)

(** [switch (gender)] compares with [===]. *)
Definition mapGenderToString (gender : option string) : option string :=
  match gender with
  | None => None
  | Some g =>
      Some (if Js.strict_eq (Js.VString g) (Js.VNumber 1) then "male"
            else if Js.strict_eq (Js.VString g) (Js.VNumber 2) then "female"
            else if Js.strict_eq (Js.VString g) (Js.VNumber 3) then "other"
            else "unknown")
  end.

(** The locals [patientProfile], [thresholds] and [enrichmentSources]. *)
Definition Locals : Type :=
  option PatientProfile.t * option Thresholds.t * list string.

Definition no_locals : Locals := (None, None, []).

(** The [try] block of step 2. Its single [catch] keeps whatever the locals
    held when the lookup threw: nothing when [getPatient] threw, the patient
    part when [getThresholdProfile] threw. *)
Definition lookups (patientId deviceId : string) : M World Locals :=
  let recover (kept : Locals) :=
    fun _ : Js.Error =>
      (log LError "Error fetching patient info or thresholds" ;;; ret kept)%async in
  try_catch
    (patient <- getPatient patientId ;;
     kept <- match patient with
             | Some p =>
                 log LDebug "Retrieved patient profile" ;;;
                 ret (Some (PatientProfile.mk (Patient.age p)
                              (mapGenderToString (Patient.gender p))),
                      None, ["patient_registry"])
             | None => ret no_locals
             end ;;
     try_catch
       (thresholdProfile <- getThresholdProfile patientId (Some deviceId) ;;
        match thresholdProfile with
        | Some tp =>
            log LDebug "Retrieved threshold profile" ;;;
            ret (fst (fst kept),
                 Some (Thresholds.mk
                         (ThresholdProfile.heart_rate tp)
                         (ThresholdProfile.blood_pressure tp)
                         (ThresholdProfile.temperature tp)
                         (ThresholdProfile.oxygen_saturation tp)
                         (ThresholdProfile.respiratory_rate tp)),
                 (snd kept ++ ["threshold_registry"])%list)
        | None => ret kept
        end)
       (recover kept))%async
    (recover no_locals).

(** [device && device.patient_id]: the patient the Registry links the
    device to, if it knows the device and the link is set. *)
Definition linked (device : option Device.t) : option string :=
  match device with
  | Some d => if Js.truthy_opt (Device.patient_id d) then Device.patient_id d else None
  | None => None
  end.

(** Step 1, after [getDevice] has answered: the patient id the event goes
    on with, and whether it is an orphan. *)
Definition resolve (device : option Device.t) (patientId : option string)
  : M World (option string * bool) :=
  match linked device with
  | Some p =>
      (log LDebug "Mapped device to patient" ;;; ret (Some p, false))%async
  | None =>
      (* Device not found or not linked to patient *)
      if negb (Js.truthy_opt patientId)
      then (log LWarn "Device not linked to patient, marking as orphan" ;;;
            ret (patientId, true))%async
      else ret (patientId, false)
  end.

(** Step 2: the lookups are made only with a patient id and for an event
    that is not an orphan. *)
Definition step2 (patientId : option string) (orphan : bool) (deviceId : string)
  : M World Locals :=
  match patientId with
  | Some p =>
      if (Js.truthy p && negb orphan)%bool then lookups p deviceId
      else ret no_locals
  | None => ret no_locals
  end.

(** Step 3: the object literal [enrichedEvent], its fields evaluated in the
    order they are written. *)
Definition build (normalizedEvent : NormalizedTelemetryEvent.t)
  (patientId : option string) (orphan : bool) (locals : Locals)
  : M World EnrichedTelemetryEvent.t :=
  let '(patientProfile, thresholds, enrichmentSources) := locals in
  ((* Extract trace_id from source event, or generate new one if missing *)
   traceId <-
     match NormalizedTelemetryEvent.trace_id normalizedEvent with
     | Some t =>
         if Js.truthy t then ret t
         else u <- uuidv4 ;; ret ("trace_" ++ u)
     | None => u <- uuidv4 ;; ret ("trace_" ++ u)
     end ;;
   event_id <- uuidv4 ;;
   timestamp <- now ;;
   enriched_at <- now ;;
   ret (EnrichedTelemetryEvent.mk
          event_id
          traceId
          "telemetry.enriched"
          (Js.or_default (NormalizedTelemetryEvent.version normalizedEvent) "1.0.0")
          timestamp
          (NormalizedTelemetryEvent.event_id normalizedEvent)
          (NormalizedTelemetryEvent.device_id normalizedEvent)
          (if Js.truthy_opt patientId then patientId else None)
          (if orphan then Some true else None)
          patientProfile
          thresholds
          (NormalizedTelemetryEvent.vitals normalizedEvent)
          (EnrichmentMetadata.mk enriched_at
             match enrichmentSources with
             | [] => ["none"]
             | _ :: _ => enrichmentSources
             end)))%async.

Definition enrichTelemetry (normalizedEvent : NormalizedTelemetryEvent.t)
  : M World unit :=
  try_catch
    (log LDebug "Enriching telemetry event" ;;;
     let deviceId := NormalizedTelemetryEvent.device_id normalizedEvent in
     (* Step 1: Get device to map deviceId -> patientId *)
     device <- getDevice deviceId ;;
     ' (patientId, orphan) <-
       resolve device (NormalizedTelemetryEvent.patient_id normalizedEvent) ;;
     (* Step 2: Get patient info and thresholds (if patientId is available) *)
     locals <- step2 patientId orphan deviceId ;;
     (* Step 3: Build enriched event *)
     enrichedEvent <- build normalizedEvent patientId orphan locals ;;
     (* Step 4: Produce enriched event *)
     produceEnrichedTelemetry enrichedEvent ;;;
     log LLog "Successfully enriched and produced telemetry event")%async
    (fun error =>
       (log LError "Error enriching telemetry" ;;; throw error)%async).

(** *** [KafkaConsumerService]

    The [eachMessage] callback handed to [consumer.run], with the handler
    [setMessageHandler] installed. The consumer of the incident service
    ([services/incident-service]) runs the same callback on the alerts
    topic. *)
Definition eachMessage
  (messageHandler : option (NormalizedTelemetryEvent.t -> M World unit))
  (message : KafkaMessage.t) : M World unit :=
  try_catch
    match KafkaMessage.value message with
    | None => log LWarn "Received message with no value"
    | Some bytes =>
        match JSON_parse env bytes with
        | inr syntaxError => throw syntaxError
        | inl event =>
            (log LDebug "Received normalized telemetry event" ;;;
             match messageHandler with
             | Some handler => handler event
             | None => ret tt
             end)%async
        end
    end
    (fun error =>
       (* Don't throw - allow consumer to continue processing other messages *)
       log LError "Error processing message").

(** [AppModule.onModuleInit] installs [enrichTelemetry] as the handler. *)
Definition messageHandler : option (NormalizedTelemetryEvent.t -> M World unit) :=
  Some enrichTelemetry.

(** How kafkajs drives the callback. [consumer.run] is given [eachMessage]
    and nothing else, so offsets are committed automatically: the offset of
    a message is resolved once the promise of its [eachMessage] resolves,
    and when that promise rejects the offset stays unresolved, the rest of
    the batch is abandoned and the message is fetched again. *)
Definition deliver (message : KafkaMessage.t) : M World unit :=
  (eachMessage messageHandler message ;;;
   effect (add_committed (KafkaMessage.offset message)))%async.

Fixpoint run (batch : list KafkaMessage.t) : M World unit :=
  match batch with
  | [] => ret tt
  | message :: rest => (deliver message ;;; run rest)%async
  end.

End Service.

End Enrichment.

(** ** The Gateway ([services/telemetry-gateway]) *)

Module Gateway.

(** *** [config.service.ts] *)

Module ConfigService.
Record t : Type := mk {
  kafkaBrokers : list string;
  kafkaClientId : string;
  kafkaTopicRaw : string;
  registryGrpcUrl : string;
  registryEnabled : bool
}.

(** What the getters return when no environment variable is set:
    verification is on only for [REGISTRY_ENABLED] = ['true'] or ['1']. *)
Definition defaults : t :=
  mk ["localhost:29092"] "telemetry-gateway" "telemetry.raw" "localhost:50051"
     false.
End ConfigService.

(** *** The kafkajs configuration built by the [KafkaService] constructor *)

Module RetryOptions.
Record t : Type := mk {
  retries : Z;
  initialRetryTime : Z;
  multiplier : Z;
  maxRetryTime : Z
}.
End RetryOptions.

Module KafkaConfig.
Record t : Type := mk {
  clientId : string;
  brokers : list string;
  retry : RetryOptions.t
}.
End KafkaConfig.

Module ProducerConfig.
Record t : Type := mk {
  maxInFlightRequests : Z;
  idempotent : bool;
  transactionTimeout : Z
}.
End ProducerConfig.

Definition kafkaConfig (configService : ConfigService.t) : KafkaConfig.t :=
  KafkaConfig.mk
    (ConfigService.kafkaClientId configService)
    (ConfigService.kafkaBrokers configService)
    (RetryOptions.mk 8 100 2 30000).


(** *** [telemetry.dto.ts] *)

Module MetricsDto.
Record t : Type := mk { hr : option Q; spo2 : option Q; temp : option Q }.
End MetricsDto.

Module MetaDto.
Record t : Type := mk { battery : option Q; firmware : option string }.
End MetaDto.

Module TelemetryDto.
Record t : Type := mk {
  deviceId : string;
  timestamp : string;
  metrics : MetricsDto.t;
  meta : option MetaDto.t
}.
End TelemetryDto.

(** *** The raw event *)

Module Measurement.
Record t : Type := mk { metric : string; value : Q; unit : string }.
End Measurement.

Module Metadata.
Record t : Type := mk {
  battery_level : option Q;
  firmware_version : option string
}.
End Metadata.

Module RawEvent.
Record t : Type := mk {
  event_id : string;
  trace_id : string;
  event_type : string;
  version : string;
  timestamp : string;
  device_id : string;
  measurements : list Measurement.t;
  metadata : option Metadata.t
}.
End RawEvent.

(** *** What the two controllers answer *)

Module HttpResponse.
(** The status line and the JSON body: [eventId] is there on success only. *)
Record t : Type := mk {
  statusCode : Z;
  success : bool;
  eventId : option string;
  message : string
}.
End HttpResponse.

Module SendMeasurementsResponse.
Record t : Type := mk {
  version : string;
  status : Z;
  message : string;
  event_id : string;
  timestamp : string
}.
End SendMeasurementsResponse.

(** The request of [TelemetryGateway.SendMeasurements]. *)
Module GrpcMeasurement.
Record t : Type := mk { metric : option string; value : Q }.
End GrpcMeasurement.

Module DeviceMetadata.
Record t : Type := mk {
  battery : option string;
  battery_level : option string;
  firmware : option string;
  firmware_version : option string
}.
End DeviceMetadata.

Module SendMeasurementsRequest.
Record t : Type := mk {
  device_id : string;
  timestamp : option string;
  measurements : option (list GrpcMeasurement.t);
  device_metadata : option DeviceMetadata.t
}.
End SendMeasurementsRequest.

(** *** The world of the service *)

Record World : Type := mkWorld {
  (** [isConnected && registryClient] of the Registry client *)
  registry_connected : bool;
  (** [isConnected] of the Kafka producer *)
  kafka_connected : bool;
  (** the devices looked up in the Registry so far, oldest first *)
  lookups : list string;
  (** the delays of the [setTimeout]s awaited so far *)
  timers : list Z;
  uuids_drawn : nat;
  clock_reads : nat;
  (** every [producer.send] called, and those the broker acknowledged *)
  sends : list RawEvent.t;
  published : list RawEvent.t;
  logs : list (Level * string)
}.

(** The peers of the service, as oracles indexed by logical time (the number
    of lookups, respectively of sends, made before). *)
Record Env : Type := mkEnv {
  config : ConfigService.t;
  GetDevice : string -> nat -> Grpc.Reply Proto.Device.t;
  (** the outcome of [producer.send], after whatever retries the kafkajs
      client makes under [kafkaConfig]: [None] when acknowledged *)
  producer_send : RawEvent.t -> nat -> option Js.Error;
  uuid : nat -> string;
  clock : nat -> string;
  parseFloat : option string -> Q
}.

Definition initial : World := mkWorld true true [] [] 0 0 [] [] [].

Definition add_lookup (d : string) (w : World) : World :=
  mkWorld (registry_connected w) (kafka_connected w) (lookups w ++ [d])
    (timers w) (uuids_drawn w) (clock_reads w) (sends w) (published w) (logs w).

Definition add_timer (ms : Z) (w : World) : World :=
  mkWorld (registry_connected w) (kafka_connected w) (lookups w)
    (timers w ++ [ms]) (uuids_drawn w) (clock_reads w) (sends w) (published w)
    (logs w).

Definition add_uuid (w : World) : World :=
  mkWorld (registry_connected w) (kafka_connected w) (lookups w) (timers w)
    (S (uuids_drawn w)) (clock_reads w) (sends w) (published w) (logs w).

Definition add_clock_read (w : World) : World :=
  mkWorld (registry_connected w) (kafka_connected w) (lookups w) (timers w)
    (uuids_drawn w) (S (clock_reads w)) (sends w) (published w) (logs w).

Definition add_send (e : RawEvent.t) (w : World) : World :=
  mkWorld (registry_connected w) (kafka_connected w) (lookups w) (timers w)
    (uuids_drawn w) (clock_reads w) (sends w ++ [e]) (published w) (logs w).

Definition add_published (e : RawEvent.t) (w : World) : World :=
  mkWorld (registry_connected w) (kafka_connected w) (lookups w) (timers w)
    (uuids_drawn w) (clock_reads w) (sends w) (published w ++ [e]) (logs w).

Definition add_log (l : Level * string) (w : World) : World :=
  mkWorld (registry_connected w) (kafka_connected w) (lookups w) (timers w)
    (uuids_drawn w) (clock_reads w) (sends w) (published w) (logs w ++ [l]).

Section Service.
Variable env : Env.

Definition log (level : Level) (msg : string) : M World unit :=
  effect (add_log (level, msg)).

Definition sleep (delay : Z) : M World unit := effect (add_timer delay).

Definition uuidv4 : M World string :=
  fun w => (Ok (uuid env (uuids_drawn w)), add_uuid w).

Definition now : M World string :=
  fun w => (Ok (clock env (clock_reads w)), add_clock_read w).

(** *** [RegistryService.verifyDevice]

    The promise only ever resolves: with [true] on a gRPC error (deadline of
    five seconds included) and when [response.status === 1] holds, with
    [false] on any other response. *)
Definition verifyDevice (deviceId : string) : M World bool :=
  if negb (ConfigService.registryEnabled (config env))
  then (log LDebug "Registry validation is disabled, skipping device verification" ;;;
        ret true)%async
  else
    fun w =>
      if negb (registry_connected w)
      then (log LWarn "Registry client not connected, skipping device verification" ;;;
            ret true)%async w
      else
        match GetDevice env deviceId (List.length (lookups w)) with
        | Grpc.Failed error =>
            (log LWarn ("Device verification failed for " ++ deviceId) ;;;
             (* If registry is unavailable, allow the request through *)
             ret true)%async (add_lookup deviceId w)
        | Grpc.Response status _ =>
            if Js.strict_eq (Js.VString status) (Js.VNumber 1) (* STATUS_SUCCESS *)
            then (log LDebug ("Device " ++ deviceId ++ " verified successfully") ;;;
                  ret true)%async (add_lookup deviceId w)
            else (log LWarn ("Device " ++ deviceId ++ " not found in registry") ;;;
                  ret false)%async (add_lookup deviceId w)
        end.

(** *** [KafkaService.produceRawTelemetry] *)

Definition maxRetries : Z := 3.

(** [Math.min(1000 * Math.pow(2, attempt - 1), 5000)] *)
Definition delay (attempt : Z) : Z := Z.min (1000 * 2 ^ (attempt - 1)) 5000.

(** [await this.producer.send(...)] *)
Definition send (event : RawEvent.t) : M World unit :=
  fun w =>
    match producer_send env event (List.length (sends w)) with
    | None => (Ok tt, add_published event (add_send event w))
    | Some error => (Throw error, add_send event w)
    end.

(** The [for] loop from attempt number [attempt], [iterations] turns left. *)
Fixpoint produce_from (iterations : nat) (attempt : Z)
  (lastError : option Js.Error) (event : RawEvent.t) : M World unit :=
  match iterations with
  | O =>
      (log LError ("Failed to produce event after " ++ Js.show maxRetries ++ " attempts") ;;;
       throw
         match lastError with
         | Some e => e
         | None => Js.newError "Failed to produce event to Kafka"
         end)%async
  | S rest =>
      try_catch
        (send event ;;;
         log LDebug
           ("Successfully produced event to " ++ ConfigService.kafkaTopicRaw (config env)))%async
        (fun error =>
           (log LWarn
              ("Failed to produce event (attempt " ++ Js.show attempt ++ "/"
               ++ Js.show maxRetries ++ ")") ;;;
            (if attempt <? maxRetries then sleep (delay attempt) else ret tt) ;;;
            produce_from rest (attempt + 1) (Some error) event)%async)
  end.

Definition produceRawTelemetry (event : RawEvent.t) : M World unit :=
  fun w =>
    if negb (kafka_connected w)
    then (Throw (Js.newError "Kafka producer is not connected"), w)
    else produce_from (Z.to_nat maxRetries) 1 None event w.

(** *** [TelemetryService] *)

Definition measurement_of (metric unit : string) (v : option Q)
  : list Measurement.t :=
  match v with
  | Some value => [Measurement.mk metric value unit]
  | None => []
  end.

Definition transformToKafkaEvent (dto : TelemetryDto.t) : M World RawEvent.t :=
  (u1 <- uuidv4 ;;
   let eventId := "evt_" ++ u1 in
   u2 <- uuidv4 ;;
   let traceId := "trace_" ++ u2 in
   timestamp <- (if Js.truthy (TelemetryDto.timestamp dto)
                 then ret (TelemetryDto.timestamp dto)
                 else now) ;;
   (* Transform metrics to measurements array *)
   let measurements :=
     (measurement_of "heart_rate" "bpm" (MetricsDto.hr (TelemetryDto.metrics dto))
      ++ measurement_of "oxygen_saturation" "percent"
           (MetricsDto.spo2 (TelemetryDto.metrics dto))
      ++ measurement_of "temperature" "fahrenheit"
           (MetricsDto.temp (TelemetryDto.metrics dto)))%list in
   match measurements with
   | [] => throw (Js.newError "At least one metric must be provided")
   | _ :: _ =>
       (* Build metadata object *)
       let battery_level := opt_field (TelemetryDto.meta dto) MetaDto.battery in
       let firmware := opt_field (TelemetryDto.meta dto) MetaDto.firmware in
       let firmware_version := if Js.truthy_opt firmware then firmware else None in
       let metadata :=
         match battery_level, firmware_version with
         | None, None => None
         | _, _ => Some (Metadata.mk battery_level firmware_version)
         end in
       ret (RawEvent.mk eventId traceId "telemetry.raw" "1.0.0" timestamp
              (TelemetryDto.deviceId dto) measurements metadata)
   end)%async.

Definition notFoundMessage (deviceId : string) : string :=
  "Device " ++ deviceId ++ " not found in registry".

(** What [processTelemetry] does with a request that passed the device
    check: transform, publish, log, and resolve with
    [{ eventId, success: true }] (the embedding returns the [eventId]). *)
Definition accept (dto : TelemetryDto.t) : M World string :=
  ((* Transform DTO to Kafka event format *)
   event <- transformToKafkaEvent dto ;;
   (* Produce to Kafka *)
   produceRawTelemetry event ;;;
   log LLog "Telemetry processed successfully" ;;;
   ret (RawEvent.event_id event))%async.

Definition processTelemetry (dto : TelemetryDto.t) : M World string :=
  ((* Verify device exists (if registry is enabled) *)
   deviceVerified <- verifyDevice (TelemetryDto.deviceId dto) ;;
   if negb deviceVerified
   then throw (Js.newError (notFoundMessage (TelemetryDto.deviceId dto)))
   else accept dto)%async.

(** *** [TelemetryController] (HTTP)

    [HttpCode(HttpStatus.OK)] answers 200 with the returned body; the
    [BadRequestException] thrown from the [catch] is answered by the
    framework as 400 with the body it was built from. *)
Definition receiveTelemetry (dto : TelemetryDto.t) : M World HttpResponse.t :=
  try_catch
    (eventId <- processTelemetry dto ;;
     ret (HttpResponse.mk 200 true (Some eventId)
            "Telemetry received and processed"))%async
    (fun error => ret (HttpResponse.mk 400 false None (Js.message error))).

(** *** [TelemetryGrpcController] *)

Definition set_metric (metrics : MetricsDto.t) (measurement : GrpcMeasurement.t)
  : MetricsDto.t :=
  match option_map Js.toLowerCase (GrpcMeasurement.metric measurement) with
  | Some metricName =>
      if ((metricName =? "heart_rate") || (metricName =? "hr"))%string
      then MetricsDto.mk (Some (GrpcMeasurement.value measurement))
             (MetricsDto.spo2 metrics) (MetricsDto.temp metrics)
      else if ((metricName =? "oxygen_saturation") || (metricName =? "spo2"))%string
      then MetricsDto.mk (MetricsDto.hr metrics)
             (Some (GrpcMeasurement.value measurement)) (MetricsDto.temp metrics)
      else if ((metricName =? "temperature") || (metricName =? "temp"))%string
      then MetricsDto.mk (MetricsDto.hr metrics) (MetricsDto.spo2 metrics)
             (Some (GrpcMeasurement.value measurement))
      else metrics
  | None => metrics
  end.

Definition is_some {A : Type} (o : option A) : bool :=
  match o with
  | Some _ => true
  | None => false
  end.

Definition transformGrpcToDto (data : SendMeasurementsRequest.t)
  : M World TelemetryDto.t :=
  (* Transform gRPC measurements array to metrics object *)
  let metrics :=
    match SendMeasurementsRequest.measurements data with
    | Some measurements =>
        fold_left set_metric measurements (MetricsDto.mk None None None)
    | None => MetricsDto.mk None None None
    end in
  (* Extract metadata *)
  let meta :=
    match SendMeasurementsRequest.device_metadata data with
    | Some md =>
        let battery :=
          if (is_some (DeviceMetadata.battery md)
              || is_some (DeviceMetadata.battery_level md))%bool
          then Some (parseFloat env
                       (Js.or_opt (DeviceMetadata.battery md)
                          (DeviceMetadata.battery_level md)))
          else None in
        let firmware :=
          if (Js.truthy_opt (DeviceMetadata.firmware md)
              || Js.truthy_opt (DeviceMetadata.firmware_version md))%bool
          then Js.or_opt (DeviceMetadata.firmware md)
                 (DeviceMetadata.firmware_version md)
          else None in
        match battery, firmware with
        | None, None => None
        | _, _ => Some (MetaDto.mk battery firmware)
        end
    | None => None
    end in
  (timestamp <- (if Js.truthy_opt (SendMeasurementsRequest.timestamp data)
                 then ret (Js.or_default (SendMeasurementsRequest.timestamp data) "")
                 else now) ;;
   ret (TelemetryDto.mk (SendMeasurementsRequest.device_id data) timestamp
          metrics meta))%async.

Definition STATUS_SUCCESS : Z := 1.
Definition STATUS_VALIDATION_ERROR : Z := 2.
Definition STATUS_DEVICE_NOT_FOUND : Z := 3.
Definition STATUS_INTERNAL_ERROR : Z := 4.

(** Determine status based on error *)
Definition status_of (error : Js.Error) : Z :=
  if Js.includes "not found" (Js.message error) then STATUS_DEVICE_NOT_FOUND
  else if Js.includes "validation" (Js.message error) then STATUS_VALIDATION_ERROR
  else STATUS_INTERNAL_ERROR.

Definition sendMeasurements (data : SendMeasurementsRequest.t)
  : M World SendMeasurementsResponse.t :=
  try_catch
    ((* Transform gRPC request to DTO *)
     dto <- transformGrpcToDto data ;;
     (* Process telemetry *)
     eventId <- processTelemetry dto ;;
     timestamp <- now ;;
     ret (SendMeasurementsResponse.mk "1.0.0" STATUS_SUCCESS
            "Measurements received and processed" eventId timestamp))%async
    (fun error =>
       (log LError "Error processing gRPC request" ;;;
        timestamp <- now ;;
        ret (SendMeasurementsResponse.mk "1.0.0" (status_of error)
               (Js.message error) "" timestamp))%async).

End Service.

End Gateway.

(** ** The kafkajs client under [producer.send]

    [this.kafka.producer(producerConfig)] makes a producer that keeps the
    [retry] options of the [Kafka] client, and [producer.send] runs the
    produce request inside the retrier of the library (kafkajs,
    [src/retry/index.js]):

    [[
      const retry = (retryTime, retryCount = 0) => {
        const nextRetryTime = calculateExponentialRetryTime(retryTime)
        const shouldRetry = retryCount < retries
        fn(bail, retryCount, retryTime).then(resolve).catch(e => {
          if (shouldRetry) setTimeout(() => retry(nextRetryTime, retryCount + 1), retryTime)
          else reject(new KafkaJSNumberOfRetriesExceeded(e, { retryCount, retryTime }))
        })
      }
      start(randomFromRetryTime(factor, initialRetryTime))
    ]]

    kafkajs is a dependency of the services (imported by [KafkaService]); the
    Gateway only configures it. The retrier is written out here so that what
    [kafkaConfig] asks of it can be stated; the Gateway's own code sees one
    call of [producer.send] and its outcome. *)

Module Kafkajs.
Import Gateway.

(** What one produce request comes to: the broker acknowledges it, fails in
    a way the client may retry (a transient error), or fails for good. *)
Inductive Outcome : Type :=
| Acknowledged
| Retriable (error : Js.Error)
| Fatal (error : Js.Error).

(** The broker and the random source of the client: [request event n k] is
    what the request number [k] of the call number [n] of [producer.send]
    comes to, and [randomFromRetryTime] spreads a delay by the client's
    randomisation factor. *)
Record Broker : Type := mkBroker {
  request : RawEvent.t -> nat -> nat -> Outcome;
  randomFromRetryTime : Z -> Z
}.

(** One call of [producer.send]: the requests it made, the delays it waited
    between them, and the error it rejects with, if any. *)
Record Sent : Type := mkSent {
  requests : nat;
  waits : list Z;
  result : option Js.Error
}.

(** [new KafkaJSNumberOfRetriesExceeded(e)] keeps the message of [e]. *)
Definition KafkaJSNumberOfRetriesExceeded (e : Js.Error) : Js.Error :=
  Js.newError (Js.message e).

(** [Math.min(randomFromRetryTime(factor, retryTime) * multiplier, maxRetryTime)] *)
Definition calculateExponentialRetryTime (options : RetryOptions.t)
  (broker : Broker) (retryTime : Z) : Z :=
  Z.min (randomFromRetryTime broker retryTime * RetryOptions.multiplier options)
        (RetryOptions.maxRetryTime options).

(** [retry(retryTime, retryCount)], with [left] for [retries - retryCount]:
    [shouldRetry] holds while [left] is positive. *)
Fixpoint retry (options : RetryOptions.t) (broker : Broker) (event : RawEvent.t)
  (call : nat) (left : nat) (retryCount : nat) (retryTime : Z) : Sent :=
  match request broker event call retryCount with
  | Acknowledged => mkSent 1 [] None
  | Fatal e => mkSent 1 [] (Some e)
  | Retriable e =>
      match left with
      | O => mkSent 1 [] (Some (KafkaJSNumberOfRetriesExceeded e))
      | S rest =>
          let next :=
            retry options broker event call rest (S retryCount)
              (calculateExponentialRetryTime options broker retryTime) in
          mkSent (S (requests next)) (retryTime :: waits next) (result next)
      end
  end.

(** [producer.send] under the given retry options. *)
Definition send (options : RetryOptions.t) (broker : Broker)
  (event : RawEvent.t) (call : nat) : Sent :=
  retry options broker event call (Z.to_nat (RetryOptions.retries options)) 0
    (randomFromRetryTime broker (RetryOptions.initialRetryTime options)).


End Kafkajs.

(** * What is observed of a run *)

Module EnrichmentView.
Import Enrichment.

(** [w'] differs from [w] at most in its log lines. *)
Definition logged (w w' : World) : Prop :=
  registry_connected w' = registry_connected w /\
  rpcs w' = rpcs w /\
  timers w' = timers w /\
  uuids_drawn w' = uuids_drawn w /\
  clock_reads w' = clock_reads w /\
  sent w' = sent w /\
  published w' = published w /\
  committed w' = committed w.

(** [w'] differs from [w] at most in what a Registry lookup touches: the
    RPCs issued, the timers awaited and the log. *)
Definition looked_up (w w' : World) : Prop :=
  registry_connected w' = registry_connected w /\
  uuids_drawn w' = uuids_drawn w /\
  clock_reads w' = clock_reads w /\
  sent w' = sent w /\
  published w' = published w /\
  committed w' = committed w.

Definition lookup_only {A : Type} (c : M World A) : Prop :=
  forall w, looked_up w (snd (c w)).

(** The world in which step 1 of [enrichTelemetry] calls [getDevice]. *)
Definition entered (w : World) : World :=
  add_log (LDebug, "Enriching telemetry event") w.

(** The fields of the enriched event [e] that [build] fixes from the input
    event, the resolved patient, the locals of step 2 and the world. *)
Definition built_from (env : Env) (ev : NormalizedTelemetryEvent.t)
  (patientId : option string) (orphan : bool) (locals : Locals) (w : World)
  (e : EnrichedTelemetryEvent.t) : Prop :=
  EnrichedTelemetryEvent.source_event_id e = NormalizedTelemetryEvent.event_id ev /\
  EnrichedTelemetryEvent.device_id e = NormalizedTelemetryEvent.device_id ev /\
  EnrichedTelemetryEvent.vitals e = NormalizedTelemetryEvent.vitals ev /\
  EnrichedTelemetryEvent.trace_id e =
    (if Js.truthy_opt (NormalizedTelemetryEvent.trace_id ev)
     then Js.or_default (NormalizedTelemetryEvent.trace_id ev) ""
     else "trace_" ++ uuid env (uuids_drawn w)) /\
  EnrichedTelemetryEvent.patient_id e =
    (if Js.truthy_opt patientId then patientId else None) /\
  EnrichedTelemetryEvent.orphan e = (if orphan then Some true else None) /\
  EnrichedTelemetryEvent.patientProfile e = fst (fst locals) /\
  EnrichedTelemetryEvent.thresholds e = snd (fst locals) /\
  EnrichmentMetadata.enrichment_sources
    (EnrichedTelemetryEvent.enrichment_metadata e) =
    match snd locals with
    | [] => ["none"]
    | _ :: _ => snd locals
    end.

(** [e] is an event that steps 1 to 3 can build for the input [ev]: an
    orphan carries no locals of step 2. *)
Definition enriched_from (env : Env) (ev : NormalizedTelemetryEvent.t)
  (e : EnrichedTelemetryEvent.t) : Prop :=
  exists patientId orphan locals w,
    built_from env ev patientId orphan locals w e
    /\ (orphan = true -> locals = no_locals).

(** The events handed to the producer, and those the broker acknowledged,
    between the world [w] and the later world [w']. *)
Definition handed (w w' : World) : list EnrichedTelemetryEvent.t :=
  skipn (List.length (sent w)) (sent w').

Definition emitted (w w' : World) : list EnrichedTelemetryEvent.t :=
  skipn (List.length (published w)) (published w').

(** The input events of a batch: the messages that have a value which
    parses. *)
Definition consumed (env : Env) (batch : list KafkaMessage.t)
  (ev : NormalizedTelemetryEvent.t) : Prop :=
  exists message bytes,
    In message batch
    /\ KafkaMessage.value message = Some bytes
    /\ JSON_parse env bytes = inl ev.

End EnrichmentView.

(** * Scenarios

    Concrete peers and inputs, used to run the services on. *)

Module Scenario.
Import Enrichment.

(** The error of a call on a channel that cannot reach its peer
    ([grpc.status.UNAVAILABLE] is 14). *)
Definition unavailable : Js.Error :=
  Js.mkError "14 UNAVAILABLE: No connection established" (Some 14).

(** The error of a call that the Registry ends with [grpc.status.NOT_FOUND]. *)
Definition not_found : Js.Error :=
  Js.mkError "5 NOT_FOUND: not found" (Some 5).

Definition uuids (n : nat) : string := "u" ++ Js.show (Z.of_nat n).

Definition instants (n : nat) : string := "t" ++ Js.show (Z.of_nat n).

(** A normalized event of device D1 that carries neither [patient_id] nor
    [trace_id]. *)
Definition bare : NormalizedTelemetryEvent.t :=
  NormalizedTelemetryEvent.mk "n-1" None "telemetry.normalized" None
    "2024-01-15T10:30:00.000Z" (Some "evt_1") "D1" None
    (JObject [("heart_rate", JNumber (72 # 1))]) (Some "valid") None.

(** The same event with the trace id minted at the Gateway. *)
Definition traced : NormalizedTelemetryEvent.t :=
  NormalizedTelemetryEvent.mk "n-2" (Some "trace_abc") "telemetry.normalized"
    (Some "1.0.0") "2024-01-15T10:30:00.000Z" (Some "evt_2") "D1" None
    (JObject [("heart_rate", JNumber (72 # 1))]) (Some "valid") None.

(** An event whose [trace_id] is the empty string. *)
Definition blank_trace : NormalizedTelemetryEvent.t :=
  NormalizedTelemetryEvent.mk "n-3" (Some "") "telemetry.normalized"
    (Some "1.0.0") "2024-01-15T10:30:00.000Z" (Some "evt_3") "D1" None
    (JObject [("heart_rate", JNumber (72 # 1))]) (Some "valid") None.

(** An event that arrives with a patient id of its own. *)
Definition with_patient : NormalizedTelemetryEvent.t :=
  NormalizedTelemetryEvent.mk "n-4" (Some "trace_abc") "telemetry.normalized"
    (Some "1.0.0") "2024-01-15T10:30:00.000Z" (Some "evt_4") "D1" (Some "P9")
    (JObject [("heart_rate", JNumber (72 # 1))]) (Some "valid") None.

(** The normalized event of the lineage that starts with the raw event
    [evt_u0] of the Gateway, trace id [trace_u1]. *)
Definition normalized_reading : NormalizedTelemetryEvent.t :=
  NormalizedTelemetryEvent.mk "n-5" (Some "trace_u1") "telemetry.normalized"
    (Some "1.0.0") "2024-01-15T10:30:00.000Z" (Some "evt_u0") "D1" None
    (JObject [("heart_rate", JNumber (72 # 1))]) (Some "valid") None.

(** Messages are matched by their bytes; anything else does not parse. *)
Definition parse (bytes : string) : NormalizedTelemetryEvent.t + Js.Error :=
  if (bytes =? "bare")%string then inl bare
  else if (bytes =? "traced")%string then inl traced
  else if (bytes =? "blank_trace")%string then inl blank_trace
  else if (bytes =? "with_patient")%string then inl with_patient
  else if (bytes =? "normalized_reading")%string then inl normalized_reading
  else inr (Js.mkError "Unexpected token in JSON" None).

Definition message (bytes : string) (offset : Z) : KafkaMessage.t :=
  KafkaMessage.mk (Some bytes) offset.

(** A Registry that cannot be reached: every call fails with UNAVAILABLE. *)
Definition registry_down : Env :=
  mkEnv ConfigService.defaults
    (fun _ _ => Grpc.Failed unavailable)
    (fun _ _ => Grpc.Failed unavailable)
    (fun _ _ _ => Grpc.Failed unavailable)
    uuids instants (fun _ _ => None) parse.

(** A Registry that does not know the device: it ends every call with the
    gRPC error NOT_FOUND. *)
Definition registry_empty : Env :=
  mkEnv ConfigService.defaults
    (fun _ _ => Grpc.Failed not_found)
    (fun _ _ => Grpc.Failed not_found)
    (fun _ _ _ => Grpc.Failed not_found)
    uuids instants (fun _ _ => None) parse.

(** A Registry in which D1 is linked to patient P1, a woman of 42 with a
    heart-rate range: it answers every call with STATUS_SUCCESS and the
    record. *)
Definition registry_seeded : Env :=
  mkEnv ConfigService.defaults
    (fun _ _ =>
       Grpc.Response "STATUS_SUCCESS"
         (Some (Proto.Device.mk (Some "D1") (Some "wearable") (Some "P1")
                  (Some "DEVICE_STATUS_ACTIVE") None None None)))
    (fun _ _ =>
       Grpc.Response "STATUS_SUCCESS"
         (Some (Proto.Patient.mk (Some "P1") (Some 42) (Some "GENDER_FEMALE")
                  None None None None None None)))
    (fun _ _ _ =>
       Grpc.Response "STATUS_SUCCESS"
         (Some (Proto.ThresholdProfile.mk (Some "T1") (Some "P1") None
                  (Some (JObject [("min", JNumber (60 # 1)); ("max", JNumber (100 # 1))]))
                  None None None None None None)))
    uuids instants (fun _ _ => None) parse.


(** The Registry does not know the device, and the broker refuses every
    enriched event. *)
Definition broker_refuses : Env :=
  mkEnv ConfigService.defaults
    (fun _ _ => Grpc.Failed not_found)
    (fun _ _ => Grpc.Failed not_found)
    (fun _ _ _ => Grpc.Failed not_found)
    uuids instants
    (fun _ _ => Some (Js.mkError "Connection error: broker unavailable" None))
    parse.

(** The error every lookup rejects with under [registry_seeded]. *)
Definition success_rejected : Js.Error :=
  Js.newError "Registry returned status: STATUS_SUCCESS".

(** The event built for [bare] when the Registry does not know D1. *)
Definition orphan_of_bare : EnrichedTelemetryEvent.t :=
  EnrichedTelemetryEvent.mk "u1" "trace_u0" "telemetry.enriched" "1.0.0" "t0"
    "n-1" "D1" None (Some true) None None
    (JObject [("heart_rate", JNumber (72 # 1))])
    (EnrichmentMetadata.mk "t1" ["none"]).

End Scenario.

(** The retry schedule as the specification words it: first delay 100 ms,
    multiplier 2, cap 30 s, up to 8 attempts. *)
Module SpecSchedule.
End SpecSchedule.

(** What is observed of the kafkajs client under the Gateway. *)
Module ClientView.
Import Gateway.

(** The retry options the producer of the Gateway runs under. *)
Definition options (config : ConfigService.t) : RetryOptions.t :=
  KafkaConfig.retry (kafkaConfig config).


(** The calls of [producer.send] made between the world [w] and the later
    world [w'], by their numbers. *)
Definition calls (w w' : World) : list nat :=
  seq (List.length (sends w)) (List.length (sends w') - List.length (sends w)).




End ClientView.

Module GatewayScenario.
Import Gateway.

Definition uuids (n : nat) : string := "u" ++ Js.show (Z.of_nat n).

Definition instants (n : nat) : string := "t" ++ Js.show (Z.of_nat n).

(** The failure kafkajs reports once its own retries are used up. *)
Definition broker_unavailable : Js.Error :=
  Js.mkError "Connection error: broker unavailable" None.

(** kafkajs's error for a broker id that its metadata lacks. *)
Definition broker_not_found : Js.Error :=
  Js.mkError "Broker 1 not found in the cached metadata" None.

(** [REGISTRY_ENABLED=true]. *)
Definition verifying : ConfigService.t :=
  ConfigService.mk ["localhost:29092"] "telemetry-gateway" "telemetry.raw"
    "localhost:50051" true.

Definition no_float (_ : option string) : Q := 0 # 1.

(** The Registry answers every [GetDevice] with STATUS_INTERNAL_ERROR; the
    broker acknowledges every send. *)
Definition registry_internal_error : Env :=
  mkEnv verifying (fun _ _ => Grpc.Response "STATUS_INTERNAL_ERROR" None)
    (fun _ _ => None) uuids instants no_float.

(** The Registry knows the device and answers every [GetDevice] with
    STATUS_SUCCESS and its record; the broker acknowledges every send. *)
Definition registry_knows_device : Env :=
  mkEnv verifying
    (fun _ _ =>
       Grpc.Response "STATUS_SUCCESS"
         (Some (Proto.Device.mk (Some "D1") (Some "wearable") (Some "P1")
                  (Some "DEVICE_STATUS_ACTIVE") None None None)))
    (fun _ _ => None) uuids instants no_float.

(** The Registry cannot be reached; the broker acknowledges every send. *)
Definition registry_unreachable : Env :=
  mkEnv verifying (fun _ _ => Grpc.Failed Scenario.unavailable)
    (fun _ _ => None) uuids instants no_float.

(** Verification is off and every send fails. *)
Definition broker_down : Env :=
  mkEnv ConfigService.defaults (fun _ _ => Grpc.Failed Scenario.unavailable)
    (fun _ _ => Some broker_unavailable) uuids instants no_float.

(** Verification is off and every send fails for want of the broker. *)
Definition broker_missing : Env :=
  mkEnv ConfigService.defaults (fun _ _ => Grpc.Failed Scenario.unavailable)
    (fun _ _ => Some broker_not_found) uuids instants no_float.




(** A heart-rate reading of device D1, on either surface. *)
Definition reading : TelemetryDto.t :=
  TelemetryDto.mk "D1" "2024-01-15T10:30:00.000Z"
    (MetricsDto.mk (Some (72 # 1)) None None) None.

Definition reading_rpc : SendMeasurementsRequest.t :=
  SendMeasurementsRequest.mk "D1" (Some "2024-01-15T10:30:00.000Z")
    (Some [GrpcMeasurement.mk (Some "HR") (72 # 1)]) None.

(** The raw event built from [reading] in the initial world. *)
Definition raw_reading : RawEvent.t :=
  RawEvent.mk "evt_u0" "trace_u1" "telemetry.raw" "1.0.0"
    "2024-01-15T10:30:00.000Z" "D1"
    [Measurement.mk "heart_rate" (72 # 1) "bpm"] None.

End GatewayScenario.

(** * More of the Enricher: what a retried lookup leaves behind *)

From Stdlib Require Import DecimalZ DecimalPos.

Module RetryView.
Import Enrichment.

(** One attempt of a lookup: the call, and what its callback settles. *)
Definition attempt_of {A B : Type} (call : Rpc) (peer : nat -> Grpc.Reply A)
  (notFound : string) (build : option A -> B) : M World (option B) :=
  (reply <- unary call peer ;; settle notFound build reply)%async.

(** The replies that make an attempt reject: a gRPC error other than
    NOT_FOUND, and a response whose status is [===] neither 1 nor 2. *)
Definition rejecting {A : Type} (reply : Grpc.Reply A) : bool :=
  match reply with
  | Grpc.Failed error => negb (Grpc.is_not_found error)
  | Grpc.Response status _ =>
      negb (Js.strict_eq (Js.VString status) (Js.VNumber 1))
      && negb (Js.strict_eq (Js.VString status) (Js.VNumber 2))
  end.

(** The error such a reply rejects with. *)
Definition rejection {A : Type} (reply : Grpc.Reply A) : Js.Error :=
  match reply with
  | Grpc.Failed error => error
  | Grpc.Response status _ =>
      Js.newError ("Registry returned status: " ++ status)
  end.

(** What any other reply resolves with. *)
Definition settled {A B : Type} (build : option A -> B) (reply : Grpc.Reply A)
  : option B :=
  match reply with
  | Grpc.Failed _ => None
  | Grpc.Response status payload =>
      if Js.strict_eq (Js.VString status) (Js.VNumber 1)
      then Some (build payload)
      else None
  end.

(** The waits between attempts [from], [from + 1], ...: the configured delay
    times the number of the attempt that just failed. *)
Definition waits (env : Env) (from : Z) (count : nat) : list Z :=
  map (fun k => ConfigService.registryRetryDelayMs (config env) * (from + Z.of_nat k))
    (seq 0 count).

(** The record [getDevice] builds from the payload of a successful reply. *)
Definition device_of (deviceId : string) (device : option Proto.Device.t)
  : Device.t :=
  Device.mk
    (Js.or_default (opt_field device Proto.Device.device_id) deviceId)
    (opt_field device Proto.Device.device_type)
    (opt_field device Proto.Device.patient_id)
    (opt_field device Proto.Device.status)
    (or_nil (opt_field device Proto.Device.metadata))
    (opt_field device Proto.Device.registered_at)
    (opt_field device Proto.Device.updated_at).

Definition patient_of (patientId : string) (patient : option Proto.Patient.t)
  : Patient.t :=
  Patient.mk
    (Js.or_default (opt_field patient Proto.Patient.patient_id) patientId)
    (opt_field patient Proto.Patient.age)
    (opt_field patient Proto.Patient.gender)
    (or_nil (opt_field patient Proto.Patient.medical_conditions))
    (or_nil (opt_field patient Proto.Patient.medications))
    (or_nil (opt_field patient Proto.Patient.allergies))
    (or_nil (opt_field patient Proto.Patient.metadata))
    (opt_field patient Proto.Patient.registered_at)
    (opt_field patient Proto.Patient.updated_at).

Definition profile_of (profile : option Proto.ThresholdProfile.t)
  : ThresholdProfile.t :=
  ThresholdProfile.mk
    (opt_field profile Proto.ThresholdProfile.profile_id)
    (opt_field profile Proto.ThresholdProfile.patient_id)
    (opt_field profile Proto.ThresholdProfile.device_id)
    (opt_field profile Proto.ThresholdProfile.heart_rate)
    (opt_field profile Proto.ThresholdProfile.blood_pressure)
    (opt_field profile Proto.ThresholdProfile.temperature)
    (opt_field profile Proto.ThresholdProfile.oxygen_saturation)
    (opt_field profile Proto.ThresholdProfile.respiratory_rate)
    (opt_field profile Proto.ThresholdProfile.created_at)
    (opt_field profile Proto.ThresholdProfile.updated_at).

(** The call each lookup makes, with the configured deadline. *)
Definition device_call (env : Env) (deviceId : string) : Rpc :=
  CallGetDevice deviceId (ConfigService.registryTimeoutMs (config env)).

Definition patient_call (env : Env) (patientId : string) : Rpc :=
  CallGetPatient patientId (ConfigService.registryTimeoutMs (config env)).

Definition profile_call (env : Env) (patientId deviceId : string) : Rpc :=
  CallGetThresholdProfile patientId
    (if Js.truthy deviceId then Some deviceId else None)
    (ConfigService.registryTimeoutMs (config env)).

(** The Registry is enabled and its client connected. *)
Definition registry_on (env : Env) (w : World) : Prop :=
  ConfigService.registryEnabled (config env) = true
  /\ registry_connected w = true.

(** The locals of step 2 once [getPatient] has settled with [patient]. *)
Definition patient_part (patient : option Patient.t) : Locals :=
  match patient with
  | Some p =>
      (Some (PatientProfile.mk (Patient.age p)
               (mapGenderToString (Patient.gender p))),
       None, ["patient_registry"])
  | None => no_locals
  end.

(** The patient step 2 looks up: the one the device is linked to, else the
    one the event came with, if that is a non-empty string. *)
Definition resolved_patient (device : option Device.t)
  (ev : NormalizedTelemetryEvent.t) : option string :=
  match linked device with
  | Some p => Some p
  | None =>
      if Js.truthy_opt (NormalizedTelemetryEvent.patient_id ev)
      then NormalizedTelemetryEvent.patient_id ev
      else None
  end.

(** [enrichmentSources.length > 0 ? enrichmentSources : ['none']] *)
Definition or_none (sources : list string) : list string :=
  match sources with
  | [] => ["none"]
  | _ :: _ => sources
  end.

Definition sources (e : EnrichedTelemetryEvent.t) : list string :=
  EnrichmentMetadata.enrichment_sources
    (EnrichedTelemetryEvent.enrichment_metadata e).

Definition present {A : Type} (o : option A) : bool :=
  match o with
  | Some _ => true
  | None => false
  end.

(** The sources that name exactly the parts that are there. *)
Definition sources_of (profile : option PatientProfile.t)
  (thresholds : option Thresholds.t) : list string :=
  ((if present profile then ["patient_registry"] else [])
   ++ (if present thresholds then ["threshold_registry"] else []))%list.

Definition coherent (locals : Locals) : Prop :=
  snd locals = sources_of (fst (fst locals)) (snd (fst locals)).

End RetryView.

Module StageView.
Import Enrichment EnrichmentView.

(** The events of a batch, in the order of their messages: the messages
    that have a value which parses. *)
Definition parsed (env : Env) (batch : list KafkaMessage.t)
  : list NormalizedTelemetryEvent.t :=
  flat_map
    (fun message =>
       match KafkaMessage.value message with
       | Some bytes =>
           match JSON_parse env bytes with
           | inl ev => [ev]
           | inr _ => []
           end
       | None => []
       end)
    batch.

(** [l] is [l'] with some elements left out. *)
Inductive subsequence {A : Type} : list A -> list A -> Prop :=
| sub_nil : subsequence [] []
| sub_skip (x : A) (l l' : list A) : subsequence l l' -> subsequence l (x :: l')
| sub_take (x : A) (l l' : list A) : subsequence l l' -> subsequence (x :: l) (x :: l').

(** What an enriched event takes over from the event it was built for. *)
Definition carried_in (ev : NormalizedTelemetryEvent.t)
  : string * string * Json :=
  (NormalizedTelemetryEvent.event_id ev,
   NormalizedTelemetryEvent.device_id ev,
   NormalizedTelemetryEvent.vitals ev).

Definition carried_out (e : EnrichedTelemetryEvent.t)
  : string * string * Json :=
  (EnrichedTelemetryEvent.source_event_id e,
   EnrichedTelemetryEvent.device_id e,
   EnrichedTelemetryEvent.vitals e).

(** The events handed over between [w] and [w'] have as event ids uuids
    drawn between [w] and [w']. *)
Definition fresh_ids (env : Env) (w w' : World) : Prop :=
  (uuids_drawn w <= uuids_drawn w')%nat
  /\ Forall
       (fun e =>
          exists k,
            EnrichedTelemetryEvent.event_id e = uuid env k
            /\ (uuids_drawn w <= k < uuids_drawn w')%nat)
       (handed w w').

End StageView.

(** Registries that fail in part. *)
Module Outages.
Import Enrichment EnrichmentView Scenario.

Definition d1 : Proto.Device.t :=
  Proto.Device.mk (Some "D1") (Some "wearable") (Some "P1")
    (Some "DEVICE_STATUS_ACTIVE") None None None.

Definition p1 : Proto.Patient.t :=
  Proto.Patient.mk (Some "P1") (Some 42) (Some "GENDER_FEMALE") None None None
    None None None.

Definition t1 : Proto.ThresholdProfile.t :=
  Proto.ThresholdProfile.mk (Some "T1") (Some "P1") None
    (Some (JObject [("min", JNumber (60 # 1)); ("max", JNumber (100 # 1))]))
    None None None None None None.

(** The first call of [GetDevice] fails; the later ones end with NOT_FOUND. *)
Definition registry_flaky : Env :=
  mkEnv ConfigService.defaults
    (fun _ n =>
       if (n =? 0)%nat then Grpc.Failed unavailable
       else Grpc.Failed not_found)
    (fun _ _ => Grpc.Failed not_found)
    (fun _ _ _ => Grpc.Failed not_found)
    uuids instants (fun _ _ => None) parse.

(** The service started with [REGISTRY_MAX_RETRIES=0]. *)
Definition registry_untried : Env :=
  mkEnv
    (ConfigService.mk "telemetry-enrichment-group" "telemetry.normalized"
       "telemetry.enriched" true 5000 0 1000)
    (fun _ _ => Grpc.Response "STATUS_SUCCESS" (Some d1))
    (fun _ _ => Grpc.Response "STATUS_SUCCESS" (Some p1))
    (fun _ _ _ => Grpc.Response "STATUS_SUCCESS" (Some t1))
    uuids instants (fun _ _ => None) parse.

(** The Registry does not know the device; its patient lookups fail. *)
Definition patients_down : Env :=
  mkEnv ConfigService.defaults
    (fun _ _ => Grpc.Failed not_found)
    (fun _ _ => Grpc.Failed unavailable)
    (fun _ _ _ => Grpc.Failed not_found)
    uuids instants (fun _ _ => None) parse.

(** The Registry knows neither device nor patient; its threshold lookups
    are answered with the profile. *)
Definition thresholds_answered : Env :=
  mkEnv ConfigService.defaults
    (fun _ _ => Grpc.Failed not_found)
    (fun _ _ => Grpc.Failed not_found)
    (fun _ _ _ => Grpc.Response "STATUS_SUCCESS" (Some t1))
    uuids instants (fun _ _ => None) parse.

(** The event built for [with_patient] under [thresholds_answered]. *)
Definition bare_with_patient : EnrichedTelemetryEvent.t :=
  Eval vm_compute in
    hd orphan_of_bare
      (handed initial
         (snd (run thresholds_answered [message "with_patient" 0] initial))).

End Outages.

(** * More of the Gateway: what a request leaves behind *)

Module IngestView.
Import Gateway.

(** The measurement's metric is one of [names], whatever its case. *)
Definition named (names : list string) (m : GrpcMeasurement.t) : bool :=
  match option_map Js.toLowerCase (GrpcMeasurement.metric m) with
  | Some metricName => existsb (String.eqb metricName) names
  | None => false
  end.

(** The value of the last measurement of the request that goes by one of
    [names]. *)
Definition last_named (names : list string) (ms : list GrpcMeasurement.t)
  : option Q :=
  option_map GrpcMeasurement.value (find (named names) (rev ms)).

Definition heart_rate_names : list string := ["heart_rate"; "hr"].
Definition oxygen_names : list string := ["oxygen_saturation"; "spo2"].
Definition temperature_names : list string := ["temperature"; "temp"].

Definition recognised (m : GrpcMeasurement.t) : bool :=
  named (heart_rate_names ++ oxygen_names ++ temperature_names) m.

(** [data.measurements], an absent array read as an empty one. *)
Definition requested (data : SendMeasurementsRequest.t)
  : list GrpcMeasurement.t :=
  match SendMeasurementsRequest.measurements data with
  | Some ms => ms
  | None => []
  end.

(** The Registry lookups one request makes. *)
Definition lookups_of (env : Env) (w : World) (deviceId : string)
  : list string :=
  if (ConfigService.registryEnabled (config env) && registry_connected w)%bool
  then [deviceId] else [].

(** The messages a request can be refused with before anything is sent. *)
Definition no_metric : string := "At least one metric must be provided".
Definition not_connected : string := "Kafka producer is not connected".

End IngestView.

Module IngestScenario.
Import Gateway GatewayScenario.

(** Verification is off; the broker refuses the first send and
    acknowledges the later ones. *)
Definition broker_flaky : Env :=
  mkEnv ConfigService.defaults (fun _ _ => Grpc.Failed Scenario.unavailable)
    (fun _ n => if (n =? 0)%nat then Some broker_unavailable else None)
    uuids instants no_float.

(** A Gateway whose producer is not connected. *)
Definition disconnected : World := mkWorld true false [] [] 0 0 [] [] [].

(** A request that reports a blood pressure only. *)
Definition pressure_rpc : SendMeasurementsRequest.t :=
  SendMeasurementsRequest.mk "D1" (Some "2024-01-15T10:30:00.000Z")
    (Some [GrpcMeasurement.mk (Some "blood_pressure") (120 # 1)]) None.

End IngestScenario.

(** * The alert consumer of the incident service

    [KafkaConsumerService] of [services/incident-service]: how it connects,
    retries and subscribes. The numbers of the configuration are the parsed
    environment variables, taken to be integers. The handler itself is run
    by the [eachMessage] callback, which is the one of the Enricher; here
    only whether a handler is set matters. Calls are modelled one at a
    time: the background call of [onModuleInit] is not interleaved with
    others. *)

Module AlertConsumer.

Module ConfigService.
Record t : Type := mk {
  kafkaTopicAlerts : string;
  kafkaConnectionRetryAttempts : Z;
  kafkaConnectionRetryDelay : Z
}.

(** The values used when the environment sets none. *)
Definition defaults : t := mk "alerts.raised" 10 5000.
End ConfigService.

Record World : Type := mkWorld {
  isConnected : bool;
  (** [this.messageHandler] is set *)
  handler_set : bool;
  connectionRetryAttempts : Z;
  (** how often [consumer.connect], [consumer.subscribe] and [consumer.run]
      have been called *)
  connects : nat;
  subscribes : nat;
  runs : nat;
  (** the delays of the [setTimeout]s awaited so far *)
  timers : list Z;
  logs : list (Level * string)
}.

(** The kafkajs consumer as an oracle: what its n-th [connect],
    [subscribe] and [run] do, [None] when the call resolves. *)
Record Env : Type := mkEnv {
  config : ConfigService.t;
  consumer_connect : nat -> option Js.Error;
  consumer_subscribe : nat -> option Js.Error;
  consumer_run : nat -> option Js.Error
}.

Definition initial : World := mkWorld false false 0 0 0 0 [] [].

Definition set_connected (b : bool) (w : World) : World :=
  mkWorld b (handler_set w) (connectionRetryAttempts w) (connects w)
    (subscribes w) (runs w) (timers w) (logs w).

Definition set_attempts (n : Z) (w : World) : World :=
  mkWorld (isConnected w) (handler_set w) n (connects w) (subscribes w)
    (runs w) (timers w) (logs w).

Definition add_connect (w : World) : World :=
  mkWorld (isConnected w) (handler_set w) (connectionRetryAttempts w)
    (S (connects w)) (subscribes w) (runs w) (timers w) (logs w).

Definition add_subscribe (w : World) : World :=
  mkWorld (isConnected w) (handler_set w) (connectionRetryAttempts w)
    (connects w) (S (subscribes w)) (runs w) (timers w) (logs w).

Definition add_run (w : World) : World :=
  mkWorld (isConnected w) (handler_set w) (connectionRetryAttempts w)
    (connects w) (subscribes w) (S (runs w)) (timers w) (logs w).

Definition add_timer (ms : Z) (w : World) : World :=
  mkWorld (isConnected w) (handler_set w) (connectionRetryAttempts w)
    (connects w) (subscribes w) (runs w) (timers w ++ [ms]) (logs w).

Definition add_log (l : Level * string) (w : World) : World :=
  mkWorld (isConnected w) (handler_set w) (connectionRetryAttempts w)
    (connects w) (subscribes w) (runs w) (timers w) (logs w ++ [l]).

Section Service.
Variable env : Env.

Definition log (level : Level) (msg : string) : M World unit :=
  effect (add_log (level, msg)).

Definition sleep (delay : Z) : M World unit := effect (add_timer delay).

(** A call of the kafkajs consumer: counted, then settled by the oracle. *)
Definition call (oracle : nat -> option Js.Error) (count : World -> nat)
  (record : World -> World) : M World unit :=
  fun w =>
    match oracle (count w) with
    | None => (Ok tt, record w)
    | Some error => (Throw error, record w)
    end.

Definition subscribe : M World unit :=
  fun w =>
    if negb (isConnected w) then (Ok tt, w)
    else
      try_catch
        (call (consumer_subscribe env) subscribes add_subscribe ;;;
         log LLog ("Subscribed to topic: "
                   ++ ConfigService.kafkaTopicAlerts (config env)) ;;;
         call (consumer_run env) runs add_run)%async
        (fun error =>
           (* Don't throw - allow service to continue *)
           log LError "Failed to subscribe to Kafka topic")
        w.

Definition connect : M World unit :=
  fun w =>
    if isConnected w then (Ok tt, w)
    else
      (log LLog "Connecting to Kafka..." ;;;
       call (consumer_connect env) connects add_connect ;;;
       effect (set_connected true) ;;;
       log LLog "Successfully connected to Kafka" ;;;
       (* If message handler is already set, start consuming *)
       (fun w' => if handler_set w' then subscribe w' else (Ok tt, w')))%async w.

(** The [while] loop of [connectWithRetry], [iterations] turns of it. Each
    failed turn adds one to the counter, so the loop takes at most
    [maxAttempts - connectionRetryAttempts] turns. *)
Fixpoint connect_loop (iterations : nat) : M World unit :=
  match iterations with
  | O => ret tt
  | S rest =>
      fun w =>
        if connectionRetryAttempts w
           <? ConfigService.kafkaConnectionRetryAttempts (config env)
        then
          try_catch
            (connect ;;;
             (* Reset on success *)
             effect (set_attempts 0))%async
            (fun error =>
               (effect (fun w' => set_attempts (connectionRetryAttempts w' + 1) w') ;;;
                (fun w' =>
                   log LWarn
                     ("Failed to connect to Kafka (attempt "
                      ++ Js.show (connectionRetryAttempts w') ++ "/"
                      ++ Js.show (ConfigService.kafkaConnectionRetryAttempts (config env))
                      ++ ")") w') ;;;
                (fun w' =>
                   if connectionRetryAttempts w'
                      <? ConfigService.kafkaConnectionRetryAttempts (config env)
                   then
                     (log LLog
                        ("Retrying connection in "
                         ++ Js.show (ConfigService.kafkaConnectionRetryDelay (config env))
                         ++ "ms...") ;;;
                      sleep (ConfigService.kafkaConnectionRetryDelay (config env)) ;;;
                      connect_loop rest) w'
                   else
                     (* Don't throw - allow service to start without Kafka *)
                     log LError
                       "Max retry attempts reached. Service will continue without Kafka connection."
                       w'))%async)
            w
        else (Ok tt, w)
  end.

Definition connectWithRetry : M World unit :=
  fun w =>
    connect_loop
      (Z.to_nat (ConfigService.kafkaConnectionRetryAttempts (config env)
                 - connectionRetryAttempts w))
      w.

Definition startConsuming : M World unit :=
  fun w =>
    if negb (handler_set w)
    then (Throw (Js.newError "Message handler must be set before starting consumption"), w)
    else
      ((fun w1 =>
          (* Try to connect if not already connected *)
          if negb (isConnected w1) then connectWithRetry w1 else (Ok tt, w1)) ;;;
       (fun w2 =>
          if isConnected w2 then subscribe w2
          else log LWarn
                 "Kafka not connected, consumption will start when connection is established"
                 w2))%async w.

Definition retryConnection : M World bool :=
  fun w =>
    if isConnected w then (Ok true, w)
    else
      try_catch
        (connectWithRetry ;;; (fun w' => (Ok (isConnected w'), w')))%async
        (fun error =>
           (log LError "Manual connection retry failed" ;;; ret false)%async)
        w.

End Service.

(** A broker that cannot be reached, then (from the call [up] on) one that
    can. *)
Definition refused : Js.Error :=
  Js.mkError "connect ECONNREFUSED 127.0.0.1:29092" None.

Definition broker_from (up : nat) : Env :=
  mkEnv ConfigService.defaults
    (fun n => if (n <? up)%nat then Some refused else None)
    (fun _ => None) (fun _ => None).

(** A broker that is never reached. *)
Definition no_broker : Env :=
  mkEnv ConfigService.defaults (fun _ => Some refused)
    (fun _ => None) (fun _ => None).

(** A service whose handler is set. *)
Definition ready : World := mkWorld false true 0 0 0 0 [] [].

(** A service that has used up its ten attempts. *)
Definition exhausted : World := mkWorld false true 10 10 0 0 [] [].

End AlertConsumer.

(** * The rate limiter of the notification service

    [RateLimitService]: one counter per patient and window, in Redis when
    there is a Redis client and in a [Map] of the service otherwise. Redis
    is an oracle; the [Map] is part of the world. The numbers of the
    configuration are the parsed environment variables, taken to be
    integers. *)

Module RateLimit.

Module ConfigService.
Record t : Type := mk {
  rateLimitWindowMs : Z;
  rateLimitMaxNotifications : Z
}.

(** One minute, ten notifications. *)
Definition defaults : t := mk 60000 10.
End ConfigService.

Module Entry.
Record t : Type := mk { count : Z; resetAt : Z }.
End Entry.

(** [Map<string, { count, resetAt }>]: the entries in insertion order. *)
Definition Store : Type := list (string * Entry.t).

Definition is_key (key : string) (kv : string * Entry.t) : bool :=
  (fst kv =? key)%string.

(** [store.get(key)] *)
Definition get (key : string) (store : Store) : option Entry.t :=
  option_map snd (find (is_key key) store).

(** [store.set(key, entry)]: an existing key keeps its place. *)
Definition set (key : string) (entry : Entry.t) (store : Store) : Store :=
  if existsb (is_key key) store
  then map (fun kv => if is_key key kv then (key, entry) else kv) store
  else (store ++ [(key, entry)])%list.

(** [store.delete(key)] *)
Definition delete (key : string) (store : Store) : Store :=
  filter (fun kv => negb (is_key key kv)) store.

Record World : Type := mkWorld {
  (** [this.redis] is set *)
  redis : bool;
  inMemoryStore : Store;
  (** how often [Date.now()] has been read, and Redis been called *)
  clock_reads : nat;
  redis_calls : nat;
  logs : list (Level * string)
}.

(** The clock and Redis as oracles indexed by logical time. [redis_incr]
    answers with the new count or fails; [redis_pexpire] and [redis_del]
    resolve ([None]) or fail. *)
Record Env : Type := mkEnv {
  config : ConfigService.t;
  clock : nat -> Z;
  redis_incr : string -> nat -> Z + Js.Error;
  redis_pexpire : string -> Z -> nat -> option Js.Error;
  redis_del : string -> nat -> option Js.Error
}.

Definition initial : World := mkWorld false [] 0 0 [].

Definition set_store (store : Store) (w : World) : World :=
  mkWorld (redis w) store (clock_reads w) (redis_calls w) (logs w).

Definition add_clock_read (w : World) : World :=
  mkWorld (redis w) (inMemoryStore w) (S (clock_reads w)) (redis_calls w) (logs w).

Definition add_redis_call (w : World) : World :=
  mkWorld (redis w) (inMemoryStore w) (clock_reads w) (S (redis_calls w)) (logs w).

Definition add_log (l : Level * string) (w : World) : World :=
  mkWorld (redis w) (inMemoryStore w) (clock_reads w) (redis_calls w)
    (logs w ++ [l]).

Section Service.
Variable env : Env.

Definition log (level : Level) (msg : string) : M World unit :=
  effect (add_log (level, msg)).

(** [Date.now()] *)
Definition now : M World Z :=
  fun w => (Ok (clock env (clock_reads w)), add_clock_read w).

(** [await this.redis.incr(key)] *)
Definition incr (key : string) : M World Z :=
  fun w =>
    match redis_incr env key (redis_calls w) with
    | inl count => (Ok count, add_redis_call w)
    | inr error => (Throw error, add_redis_call w)
    end.

(** [await this.redis.pexpire(key, ms)] *)
Definition pexpire (key : string) (ms : Z) : M World unit :=
  fun w =>
    match redis_pexpire env key ms (redis_calls w) with
    | None => (Ok tt, add_redis_call w)
    | Some error => (Throw error, add_redis_call w)
    end.

(** [await this.redis.del(key)] *)
Definition del (key : string) : M World unit :=
  fun w =>
    match redis_del env key (redis_calls w) with
    | None => (Ok tt, add_redis_call w)
    | Some error => (Throw error, add_redis_call w)
    end.

(** The entries the loop of [cleanupInMemoryStore] leaves at time [now]. *)
Definition live (now : Z) (kv : string * Entry.t) : bool :=
  negb (Entry.resetAt (snd kv) <? now).

Definition cleanupInMemoryStore : M World unit :=
  (now_ <- now ;;
   effect (fun w => set_store (filter (live now_) (inMemoryStore w)) w))%async.

Definition isRateLimitedInMemory (patientId : string) : M World bool :=
  let windowMs := ConfigService.rateLimitWindowMs (config env) in
  let maxNotifications := ConfigService.rateLimitMaxNotifications (config env) in
  (now_ <- now ;;
   fun w =>
     let fresh :=
       ((* No entry or window expired, create new entry *)
        effect (fun w' =>
                  set_store
                    (set patientId (Entry.mk 1 (now_ + windowMs)) (inMemoryStore w'))
                    w') ;;;
        (* Cleanup expired entries periodically *)
        cleanupInMemoryStore ;;;
        ret false)%async in
     match get patientId (inMemoryStore w) with
     | None => fresh w
     | Some entry =>
         if Entry.resetAt entry <? now_ then fresh w
         else
           (* Increment count *)
           (Ok (maxNotifications <? Entry.count entry + 1),
            set_store
              (set patientId
                 (Entry.mk (Entry.count entry + 1) (Entry.resetAt entry))
                 (inMemoryStore w))
              w)
     end)%async.

Definition isRateLimited (patientId : string) : M World bool :=
  let windowMs := ConfigService.rateLimitWindowMs (config env) in
  let maxNotifications := ConfigService.rateLimitMaxNotifications (config env) in
  let key := "rate_limit:notification:" ++ patientId in
  ((* const now = Date.now(), which the method does not use *)
   now ;;;
   fun w =>
     if redis w
     then
       try_catch
         (count <- incr key ;;
          (if count =? 1
           then (* First request in the window, set expiry *)
             pexpire key windowMs
           else ret tt) ;;;
          ret (maxNotifications <? count))%async
         (fun error =>
            (log LWarn "Redis error, falling back to in-memory store" ;;;
             (* Fallback to in-memory *)
             isRateLimitedInMemory patientId)%async)
         w
     else isRateLimitedInMemory patientId w)%async.

Definition resetRateLimit (patientId : string) : M World unit :=
  let key := "rate_limit:notification:" ++ patientId in
  ((fun w =>
      if redis w
      then try_catch (del key)
             (fun error => log LWarn "Failed to reset rate limit in Redis") w
      else (Ok tt, w)) ;;;
   effect (fun w => set_store (delete patientId (inMemoryStore w)) w))%async.

(** [count] calls of [isRateLimited] for one patient, one after the other,
    and their answers. *)
Fixpoint calls (count : nat) (patientId : string) : M World (list bool) :=
  match count with
  | O => ret []
  | S rest =>
      (answer <- isRateLimited patientId ;;
       answers <- calls rest patientId ;;
       ret (answer :: answers))%async
  end.

End Service.

(** A clock that advances one second per reading, and no Redis. *)
Definition ticking : Env :=
  mkEnv ConfigService.defaults (fun n => 1000 * Z.of_nat n)
    (fun _ _ => inr (Js.mkError "Connection is closed." None))
    (fun _ _ _ => None) (fun _ _ => None).

(** The same clock with a limit of two per minute. *)
Definition strict : Env :=
  mkEnv (ConfigService.mk 60000 2) (fun n => 1000 * Z.of_nat n)
    (fun _ _ => inr (Js.mkError "Connection is closed." None))
    (fun _ _ _ => None) (fun _ _ => None).

End RateLimit.

(** * The incident service: incidents from alerts, and their listing *)

Module Incident.

Module AlertEvent.
(** The alert as parsed from the topic; every field may be missing. *)
Record t : Type := mk {
  event_id : option Json;
  patient_id : option string;
  device_id : option string;
  severity : option Json;
  alert_type : option string;
  source_event_id : option Json;
  timestamp : option Json;
  condition : option Json;
  recommended_actions : option Json;
  patient_context : option Json;
  alert_metadata : option Json
}.
End AlertEvent.

(** What [severityMap[key] || IncidentSeverity.MEDIUM] evaluates to: one of
    the four strings of the map, or a property the object literal inherits
    from [Object.prototype]. *)
Inductive Severity : Type :=
| Named (value : string)
| Inherited (property : string).

Module Details.
Record t : Type := mk {
  eventId : option Json;
  sourceEventId : option Json;
  timestamp : option Json;
  condition : option Json;
  recommendedActions : option Json;
  patientContext : option Json;
  alertMetadata : option Json
}.

(** The object literal [{}]. *)
Definition empty : t := mk None None None None None None None.
End Details.

Module CreateIncidentDto.
Record t : Type := mk {
  patientId : option string;
  deviceId : option string;
  severity : Severity;
  type : string;
  details : option Details.t
}.
End CreateIncidentDto.

(** The [data] handed to [prisma.incident.create]. *)
Module IncidentData.
Record t : Type := mk {
  patientId : option string;
  deviceId : option string;
  severity : Severity;
  type : string;
  status : string;
  details : Details.t
}.
End IncidentData.

Module Filters.
Record t : Type := mk {
  status : option string;
  severity : option string;
  patientId : option string;
  page : option Z;
  limit : option Z
}.
End Filters.

Module Where.
Record t : Type := mk {
  status : option string;
  severity : option string;
  patientId : option string
}.
End Where.

Module Pagination.
Record t : Type := mk { page : Z; limit : Z; total : Z; totalPages : Z }.
End Pagination.

Record World : Type := mkWorld {
  (** the [data] of every [prisma.incident.create] so far *)
  creates : list IncidentData.t;
  logs : list (Level * string)
}.

Section Service.
(** The rows of the table. *)
Variable Row : Type.

(** Prisma as an oracle. *)
Record Env : Type := mkEnv {
  incident_create : IncidentData.t -> nat -> Row + Js.Error;
  (** [findMany({ where, skip, take, orderBy: { createdAt: 'desc' } })] *)
  incident_findMany : Where.t -> Z -> Z -> list Row + Js.Error;
  (** [count({ where })] *)
  incident_count : Where.t -> Z + Js.Error;
  (** when both queries of a [Promise.all] reject: whether [count] does so
      first *)
  count_rejects_first : bool
}.

Variable env : Env.

Definition log (level : Level) (msg : string) : M World unit :=
  effect (fun w => mkWorld (creates w) (logs w ++ [(level, msg)])).

Definition IncidentStatus_OPEN : string := "OPEN".

Definition create (createIncidentDto : CreateIncidentDto.t) : M World Row :=
  (log LLog "Creating incident" ;;;
   fun w =>
     let data :=
       IncidentData.mk
         (CreateIncidentDto.patientId createIncidentDto)
         (CreateIncidentDto.deviceId createIncidentDto)
         (CreateIncidentDto.severity createIncidentDto)
         (CreateIncidentDto.type createIncidentDto)
         IncidentStatus_OPEN
         (* createIncidentDto.details || {} : an object is truthy *)
         match CreateIncidentDto.details createIncidentDto with
         | Some details => details
         | None => Details.empty
         end in
     match incident_create env data (List.length (creates w)) with
     | inl row => (Ok row, mkWorld (creates w ++ [data]) (logs w))
     | inr error => (Throw error, mkWorld (creates w ++ [data]) (logs w))
     end)%async.

(** [severityMap[key]]: the four own keys, and the two all-lowercase names
    that every object literal inherits. The key [undefined] names nothing. *)
Definition severityMap (key : option string) : option Severity :=
  match key with
  | Some k =>
      if (k =? "low")%string then Some (Named "low")
      else if (k =? "medium")%string then Some (Named "medium")
      else if (k =? "high")%string then Some (Named "high")
      else if (k =? "critical")%string then Some (Named "critical")
      else if (k =? "constructor")%string then Some (Inherited "constructor")
      else if (k =? "__proto__")%string then Some (Inherited "__proto__")
      else None
  | None => None
  end.

(** [alertEvent.severity?.toLowerCase()]: [undefined] for a missing or
    [null] severity, a [TypeError] for a severity that is no string. *)
Definition lowered (severity : option Json) : M World (option string) :=
  match severity with
  | None | Some JNull => ret None
  | Some (JString s) => ret (Some (Js.toLowerCase s))
  | Some _ =>
      throw (Js.newError "alertEvent.severity?.toLowerCase is not a function")
  end.

Definition createFromAlert (alertEvent : AlertEvent.t) : M World Row :=
  (log LLog "Creating incident from alert" ;;;
   (* Map alert severity to incident severity *)
   key <- lowered (AlertEvent.severity alertEvent) ;;
   let severity :=
     match severityMap key with
     | Some s => s
     | None => Named "medium"
     end in
   create
     (CreateIncidentDto.mk
        (AlertEvent.patient_id alertEvent)
        (AlertEvent.device_id alertEvent)
        severity
        (Js.or_default (AlertEvent.alert_type alertEvent) "unknown")
        (Some (Details.mk
                 (AlertEvent.event_id alertEvent)
                 (AlertEvent.source_event_id alertEvent)
                 (AlertEvent.timestamp alertEvent)
                 (AlertEvent.condition alertEvent)
                 (AlertEvent.recommended_actions alertEvent)
                 (AlertEvent.patient_context alertEvent)
                 (AlertEvent.alert_metadata alertEvent)))))%async.

(** [n || d] on [number | undefined]: zero is falsy. *)
Definition or_number (n : option Z) (d : Z) : Z :=
  match n with
  | Some z => if z =? 0 then d else z
  | None => d
  end.

(** [Math.ceil(total / limit)] on integers, [limit] not zero. *)
Definition ceil_div (total limit : Z) : Z := - ((- total) / limit).

Definition truthy_filter (o : option string) : option string :=
  if Js.truthy_opt o then o else None.

(** [findAll]; the two queries of [Promise.all] are issued in this order
    and read the same table. *)
Definition findAll (filters : Filters.t) : M World (list Row * Pagination.t) :=
  let page := or_number (Filters.page filters) 1 in
  let limit := Z.min (or_number (Filters.limit filters) 20) 100 in
  let skip := (page - 1) * limit in
  let where_ :=
    Where.mk (truthy_filter (Filters.status filters))
      (truthy_filter (Filters.severity filters))
      (truthy_filter (Filters.patientId filters)) in
  fun w =>
    match incident_findMany env where_ skip limit, incident_count env where_ with
    | inl incidents, inl total =>
        (Ok (incidents, Pagination.mk page limit total (ceil_div total limit)), w)
    | inr error, inl _ => (Throw error, w)
    | inl _, inr error => (Throw error, w)
    | inr error, inr error' =>
        (Throw (if count_rejects_first env then error' else error), w)
    end.

End Service.

Arguments mkEnv {Row}.
Arguments incident_create {Row}.
Arguments incident_findMany {Row}.
Arguments incident_count {Row}.
Arguments count_rejects_first {Row}.
Arguments create {Row}.
Arguments createFromAlert {Row}.
Arguments findAll {Row}.

(** A table read as Prisma reads it: [skip] rows skipped, [take] taken. *)
Definition reading {Row : Type} (table : Where.t -> list Row) : Env Row :=
  mkEnv (fun _ _ => inr (Js.newError "read-only"))
    (fun where_ skip take =>
       inl (firstn (Z.to_nat take) (skipn (Z.to_nat skip) (table where_))))
    (fun where_ => inl (Z.of_nat (List.length (table where_)))) false.

(** The numbers of the page [page] of a listing, [limit] rows a page. *)
Definition page_of (filters : Filters.t) (page : Z) : Filters.t :=
  Filters.mk (Filters.status filters) (Filters.severity filters)
    (Filters.patientId filters) (Some page) (Filters.limit filters).

(** The [where] clause of a listing, and the rows of one of its pages. *)
Definition where_of (filters : Filters.t) : Where.t :=
  Where.mk (truthy_filter (Filters.status filters))
    (truthy_filter (Filters.severity filters))
    (truthy_filter (Filters.patientId filters)).

Definition limit_of (filters : Filters.t) : Z :=
  Z.min (or_number (Filters.limit filters) 20) 100.

Definition page_rows {Row : Type} (env : Env Row) (filters : Filters.t)
  (page : nat) (w : World) : list Row :=
  match fst (findAll env (page_of filters (Z.of_nat page)) w) with
  | Ok (rows, _) => rows
  | Throw _ => []
  end.

(** The four severities an incident can have. *)
Definition severities : list string := ["low"; "medium"; "high"; "critical"].

(** A table that stores what it is given. *)
Definition storing : Env IncidentData.t :=
  mkEnv (fun data _ => inl data) (fun _ _ _ => inl []) (fun _ => inl 0) false.

Definition alert (severity : option Json) : AlertEvent.t :=
  AlertEvent.mk (Some (JString "alert-1")) (Some "P1") (Some "D1") severity
    (Some "heart_rate_high") None None None None None None.

End Incident.

(** * Properties *)

Module JsFacts.
Import Js.

Lemma prefix_app (n rest : string) : prefix n (n ++ rest) = true.
Proof.
  induction n as [|c n IH]; simpl.
  - now destruct rest.
  - destruct (ascii_dec c c) as [_|ne]; [exact IH | now elim ne].
Qed.

Lemma includes_prefix (needle hay : string) :
  prefix needle hay = true -> includes needle hay = true.
Proof.
  intros H. destruct hay as [|c hay]; simpl.
  - exact H.
  - simpl in H. rewrite H. reflexivity.
Qed.

Lemma includes_app (needle before after : string) :
  includes needle (before ++ needle ++ after) = true.
Proof.
  induction before as [|c before IH].
  - change (includes needle (needle ++ after) = true).
    apply includes_prefix, prefix_app.
  - cbn [append includes]. rewrite IH. apply orb_true_r.
Qed.

Lemma includes_append_r (needle before hay : string) :
  includes needle hay = true -> includes needle (before ++ hay) = true.
Proof.
  intros H. induction before as [|c before IH].
  - exact H.
  - cbn [append includes]. rewrite IH. apply orb_true_r.
Qed.

Lemma truthy_nonempty (s : string) : truthy s = true -> s <> "".
Proof.
  unfold truthy. intros H E. subst s. discriminate H.
Qed.

Lemma truthy_opt_some (o : option string) :
  truthy_opt o = true -> exists s, o = Some s /\ truthy s = true.
Proof.
  destruct o as [s|]; simpl; [eauto | discriminate].
Qed.

Example includes_not_found :
  includes "not found" "Device D1 not found in registry" = true
  /\ includes "not found" "Kafka producer is not connected" = false
  /\ includes "validation" "At least one metric must be provided" = false.
Proof. repeat split. Qed.

Example toLowerCase_metric : toLowerCase "Heart_Rate" = "heart_rate".
Proof. reflexivity. Qed.

Example truthy_strings : truthy "" = false /\ truthy "P1" = true.
Proof. split; reflexivity. Qed.

End JsFacts.

(** ** The Enricher *)

Module EnrichmentFacts.
Import Enrichment EnrichmentView.

Lemma logged_refl (w : World) : logged w w.
Proof. repeat split. Qed.

Lemma logged_add_log (l : Level * string) (w : World) : logged w (add_log l w).
Proof. repeat split. Qed.


Lemma logged_looked_up (w w' : World) : logged w w' -> looked_up w w'.
Proof. unfold logged, looked_up. tauto. Qed.

Lemma looked_up_refl (w : World) : looked_up w w.
Proof. repeat split. Qed.

Lemma looked_up_trans (w1 w2 w3 : World) :
  looked_up w1 w2 -> looked_up w2 w3 -> looked_up w1 w3.
Proof.
  unfold looked_up. intros H12 H23.
  repeat match goal with H : _ /\ _ |- _ => destruct H end.
  repeat split; congruence.
Qed.

Section Lookups.
Variable env : Env.

Lemma lookup_only_ret {A : Type} (a : A) : lookup_only (ret a).
Proof. intros w. apply looked_up_refl. Qed.

Lemma lookup_only_throw {A : Type} (e : Js.Error) : lookup_only (@throw World A e).
Proof. intros w. apply looked_up_refl. Qed.

Lemma lookup_only_log (level : Level) (msg : string) : lookup_only (log level msg).
Proof. intros w. repeat split. Qed.

Lemma lookup_only_sleep (ms : Z) : lookup_only (sleep ms).
Proof. intros w. repeat split. Qed.

Lemma lookup_only_is_connected : lookup_only is_connected.
Proof. intros w. apply looked_up_refl. Qed.

Lemma lookup_only_unary {A : Type} (call : Rpc) (peer : nat -> Grpc.Reply A) :
  lookup_only (unary call peer).
Proof. intros w. repeat split. Qed.

Lemma lookup_only_bind {A B : Type} (c : M World A) (k : A -> M World B) :
  lookup_only c -> (forall a, lookup_only (k a)) -> lookup_only (bind c k).
Proof.
  intros Hc Hk w. unfold bind. specialize (Hc w).
  destruct (c w) as [[a|e] w']; simpl in *.
  - eapply looked_up_trans; [exact Hc | apply Hk].
  - exact Hc.
Qed.

Lemma lookup_only_try_catch {A : Type} (c : M World A) (h : Js.Error -> M World A) :
  lookup_only c -> (forall e, lookup_only (h e)) -> lookup_only (try_catch c h).
Proof.
  intros Hc Hh w. unfold try_catch. specialize (Hc w).
  destruct (c w) as [[a|e] w']; simpl in *.
  - exact Hc.
  - eapply looked_up_trans; [exact Hc | apply Hh].
Qed.

End Lookups.

Create HintDb lookups.
#[local] Hint Resolve lookup_only_ret lookup_only_throw lookup_only_log
  lookup_only_sleep lookup_only_is_connected lookup_only_unary : lookups.

(** Decomposes a computation into its binds, handlers and branches. *)
Ltac lookups :=
  repeat first
    [ progress auto with lookups
    | apply lookup_only_bind; [|intros ?]
    | apply lookup_only_try_catch; [|intros ?]
    | match goal with
      | |- lookup_only (if ?b then _ else _) => destruct b
      | |- lookup_only (match ?x with _ => _ end) => destruct x
      end ].

Section Registry.
Variable env : Env.

Lemma lookup_only_callWithRetry_from {A : Type} (operation : M World A)
  (operationName : string) :
  lookup_only operation ->
  forall iterations attempt lastError,
    lookup_only
      (callWithRetry_from env iterations attempt lastError operation operationName).
Proof.
  intros Hop. induction iterations as [|n IH]; intros attempt lastError.
  - cbn [callWithRetry_from]. lookups.
  - cbn [callWithRetry_from]. lookups.
Qed.

Lemma lookup_only_settle {A B : Type} (notFound : string) (build : option A -> B)
  (reply : Grpc.Reply A) : lookup_only (settle notFound build reply).
Proof. unfold settle. lookups. Qed.

Lemma lookup_only_guarded {A : Type} (operation : M World (option A))
  (operationName what : string) :
  lookup_only operation -> lookup_only (guarded env operation operationName what).
Proof.
  intros Hop. unfold guarded. lookups.
  apply lookup_only_callWithRetry_from. exact Hop.
Qed.

Lemma lookup_only_getDevice (deviceId : string) : lookup_only (getDevice env deviceId).
Proof.
  apply lookup_only_guarded. lookups. apply lookup_only_settle.
Qed.

Lemma lookup_only_getPatient (patientId : string) :
  lookup_only (getPatient env patientId).
Proof.
  apply lookup_only_guarded. lookups. apply lookup_only_settle.
Qed.

Lemma lookup_only_getThresholdProfile (patientId : string) (deviceId : option string) :
  lookup_only (getThresholdProfile env patientId deviceId).
Proof.
  apply lookup_only_guarded. lookups. apply lookup_only_settle.
Qed.

End Registry.

#[local] Hint Resolve lookup_only_getDevice lookup_only_getPatient
  lookup_only_getThresholdProfile : lookups.

Section Steps.
Variable env : Env.

Lemma resolve_logged (device : option Device.t) (patientId : option string)
  (w : World) :
  exists w',
    resolve device patientId w =
      (Ok match linked device with
          | Some p => (Some p, false)
          | None => (patientId, negb (Js.truthy_opt patientId))
          end, w')
    /\ logged w w'.
Proof.
  unfold resolve. destruct (linked device) as [p|].
  - eexists. split; [reflexivity | apply logged_add_log].
  - destruct (Js.truthy_opt patientId); simpl.
    + eexists. split; [reflexivity | apply logged_refl].
    + eexists. split; [reflexivity | apply logged_add_log].
Qed.

Lemma lookup_only_lookups (patientId deviceId : string) :
  lookup_only (lookups env patientId deviceId).
Proof. unfold lookups. lookups. Qed.

(** The [catch] of step 2 swallows every failure of the two lookups. *)
Lemma lookups_total (patientId deviceId : string) (w : World) :
  exists locals w', lookups env patientId deviceId w = (Ok locals, w').
Proof.
  unfold lookups, try_catch, bind.
  destruct (getPatient env patientId w) as [[patient|e] w1]; [|cbn; unfold ret; eauto].
  destruct patient as [p|]; cbn.
  - destruct (getThresholdProfile env patientId (Some deviceId) _)
      as [[[tp|]|e] w2]; cbn; eauto.
  - destruct (getThresholdProfile env patientId (Some deviceId) _)
      as [[[tp|]|e] w2]; cbn; eauto.
Qed.

Lemma step2_total (patientId : option string) (orphan : bool)
  (deviceId : string) (w : World) :
  exists locals w',
    step2 env patientId orphan deviceId w = (Ok locals, w')
    /\ looked_up w w'
    /\ (orphan = true -> locals = no_locals /\ w' = w).
Proof.
  unfold step2. destruct patientId as [p|].
  - destruct (Js.truthy p && negb orphan)%bool eqn:E.
    + destruct (lookups_total p deviceId w) as (locals & w' & H).
      exists locals, w'. split; [exact H|]. split.
      * pose proof (lookup_only_lookups p deviceId w) as L.
        rewrite H in L. exact L.
      * intros ->. rewrite andb_false_r in E. discriminate E.
    + exists no_locals, w. repeat split.
  - exists no_locals, w. repeat split.
Qed.

Lemma build_spec (ev : NormalizedTelemetryEvent.t) (patientId : option string)
  (orphan : bool) (locals : Locals) (w : World) :
  exists e w',
    build env ev patientId orphan locals w = (Ok e, w')
    /\ built_from env ev patientId orphan locals w e
    /\ registry_connected w' = registry_connected w
    /\ rpcs w' = rpcs w
    /\ sent w' = sent w
    /\ published w' = published w
    /\ committed w' = committed w.
Proof.
  destruct locals as [[patientProfile thresholds] enrichmentSources].
  unfold build, built_from.
  destruct (NormalizedTelemetryEvent.trace_id ev) as [t|]; cbn.
  - destruct (Js.truthy t); cbn; eexists; eexists; repeat split.
  - eexists; eexists; repeat split.
Qed.

(** Once [getDevice] has answered, [enrichTelemetry] goes through steps 1
    to 4 without a failure of its own: it hands exactly one event to the
    producer, and resolves or rejects as the producer does. *)
Lemma enrich_steps (ev : NormalizedTelemetryEvent.t) (w : World)
  (device : option Device.t) (w1 : World) :
  getDevice env (NormalizedTelemetryEvent.device_id ev) (entered w) = (Ok device, w1) ->
  exists patientId orphan w2 locals w3 e w4,
    (patientId, orphan) =
      match linked device with
      | Some p => (Some p, false)
      | None => (NormalizedTelemetryEvent.patient_id ev,
                 negb (Js.truthy_opt (NormalizedTelemetryEvent.patient_id ev)))
      end
    /\ looked_up w w1
    /\ logged w1 w2
    /\ step2 env patientId orphan (NormalizedTelemetryEvent.device_id ev) w2 = (Ok locals, w3)
    /\ looked_up w2 w3
    /\ (orphan = true -> locals = no_locals /\ w3 = w2)
    /\ built_from env ev patientId orphan locals w3 e
    /\ rpcs w4 = rpcs w3
    /\ sent w4 = sent w3
    /\ published w4 = published w3
    /\ committed w4 = committed w3
    /\ enrichTelemetry env ev w =
         match producer env e (List.length (sent w4)) with
         | None =>
             (Ok tt,
              add_log (LLog, "Successfully enriched and produced telemetry event")
                (add_published e (add_sent e w4)))
         | Some error =>
             (Throw error,
              add_log (LError, "Error enriching telemetry") (add_sent e w4))
         end.
Proof.
  intros Hdev.
  destruct (resolve_logged device (NormalizedTelemetryEvent.patient_id ev) w1)
    as (w2 & Hres & Hlog).
  remember (match linked device with
            | Some p => (Some p, false)
            | None => (NormalizedTelemetryEvent.patient_id ev,
                       negb (Js.truthy_opt (NormalizedTelemetryEvent.patient_id ev)))
            end) as po eqn:Hpo.
  destruct po as [patientId orphan].
  destruct (step2_total patientId orphan (NormalizedTelemetryEvent.device_id ev) w2)
    as (locals & w3 & Hstep & Hlook & Horph).
  destruct (build_spec ev patientId orphan locals w3)
    as (e & w4 & Hbuild & Hfrom & _ & Hr & Hs & Hp & Hc).
  exists patientId, orphan, w2, locals, w3, e, w4.
  repeat (split; [assumption || reflexivity|]).
  split.
  { pose proof (lookup_only_getDevice env (NormalizedTelemetryEvent.device_id ev)
                  (entered w)) as L.
    rewrite Hdev in L. simpl in L.
    eapply looked_up_trans; [|exact L].
    apply logged_looked_up, logged_add_log. }
  repeat (split; [assumption || reflexivity|]).
  unfold enrichTelemetry, try_catch, bind at 1.
  change (log LDebug "Enriching telemetry event" w) with (Ok tt, entered w).
  cbv beta iota. unfold bind at 1. rewrite Hdev.
  unfold bind at 1. rewrite Hres.
  unfold bind at 1. rewrite Hstep.
  unfold bind at 1. rewrite Hbuild.
  unfold bind, produceEnrichedTelemetry.
  destruct (producer env e (List.length (sent w4))); reflexivity.
Qed.

(** When [getDevice] rejects, so does [enrichTelemetry], with the same
    error and without handing anything to the producer. *)
Lemma enrich_device_failure (ev : NormalizedTelemetryEvent.t) (w : World)
  (error : Js.Error) (w1 : World) :
  getDevice env (NormalizedTelemetryEvent.device_id ev) (entered w) = (Throw error, w1) ->
  enrichTelemetry env ev w =
    (Throw error, add_log (LError, "Error enriching telemetry") w1)
  /\ looked_up w w1.
Proof.
  intros Hdev. split.
  - unfold enrichTelemetry, try_catch, bind at 1.
    change (log LDebug "Enriching telemetry event" w) with (Ok tt, entered w).
    cbv beta iota. unfold bind at 1. rewrite Hdev. reflexivity.
  - pose proof (lookup_only_getDevice env (NormalizedTelemetryEvent.device_id ev)
                  (entered w)) as L.
    rewrite Hdev in L. simpl in L.
    eapply looked_up_trans; [|exact L].
    apply logged_looked_up, logged_add_log.
Qed.

(** What one call of [enrichTelemetry] adds to the producer's side of the
    world: nothing, or one event built from the input. *)
Lemma enrich_outputs (ev : NormalizedTelemetryEvent.t) (w : World) :
  exists news pubs,
    sent (snd (enrichTelemetry env ev w)) = (sent w ++ news)%list
    /\ published (snd (enrichTelemetry env ev w)) = (published w ++ pubs)%list
    /\ committed (snd (enrichTelemetry env ev w)) = committed w
    /\ incl pubs news
    /\ Forall (enriched_from env ev) news.
Proof.
  destruct (getDevice env (NormalizedTelemetryEvent.device_id ev) (entered w))
    as [[device|error] w1] eqn:Hdev.
  - destruct (enrich_steps ev w device w1 Hdev)
      as (p & o & w2 & locals & w3 & e & w4 & _ & L1 & L2 & _ & L3 & Ho & Hb
          & _ & Hs & Hp & Hc & ->).
    destruct L1 as (_ & _ & _ & S1 & P1 & C1).
    destruct L2 as (_ & _ & _ & _ & _ & S2 & P2 & C2).
    destruct L3 as (_ & _ & _ & S3 & P3 & C3).
    assert (Hfrom : enriched_from env ev e)
      by (exists p, o, locals, w3; split; [exact Hb | intros Ht; exact (proj1 (Ho Ht))]).
    destruct (producer env e (List.length (sent w4))); cbn.
    + exists [e], []. rewrite app_nil_r.
      split; [congruence|]. split; [congruence|]. split; [congruence|].
      split; [intros x []|].
      constructor; [exact Hfrom | constructor].
    + exists [e], [e].
      split; [congruence|]. split; [congruence|]. split; [congruence|].
      split; [apply incl_refl|].
      constructor; [exact Hfrom | constructor].
  - destruct (enrich_device_failure ev w error w1 Hdev) as (-> & L).
    destruct L as (_ & _ & _ & S1 & P1 & C1). cbn.
    exists [], []. rewrite !app_nil_r.
    split; [exact S1|]. split; [exact P1|]. split; [exact C1|].
    split; [apply incl_refl | constructor].
Qed.

End Steps.

Section Consumer.
Variable env : Env.

(** The [catch] of [eachMessage] swallows every error: the promise it
    returns always resolves. *)
Lemma eachMessage_resolves
  (handler : option (NormalizedTelemetryEvent.t -> M World unit))
  (message : KafkaMessage.t) (w : World) :
  fst (eachMessage env handler message w) = Ok tt.
Proof.
  unfold eachMessage, try_catch.
  destruct (KafkaMessage.value message) as [bytes|]; [|reflexivity].
  destruct (JSON_parse env bytes) as [event|syntaxError]; [|reflexivity].
  unfold bind. cbn.
  destruct handler as [handler|]; [|reflexivity].
  destruct (handler event _) as [[[]|error] w1]; reflexivity.
Qed.

Lemma deliver_outputs (message : KafkaMessage.t) (w : World) :
  exists news pubs,
    fst (deliver env message w) = Ok tt
    /\ committed (snd (deliver env message w)) =
         (committed w ++ [KafkaMessage.offset message])%list
    /\ sent (snd (deliver env message w)) = (sent w ++ news)%list
    /\ published (snd (deliver env message w)) = (published w ++ pubs)%list
    /\ incl pubs news
    /\ Forall
         (fun e =>
            exists bytes ev,
              KafkaMessage.value message = Some bytes
              /\ JSON_parse env bytes = inl ev
              /\ enriched_from env ev e)
         news.
Proof.
  unfold deliver, eachMessage, messageHandler, try_catch, bind.
  destruct (KafkaMessage.value message) as [bytes|] eqn:Hv.
  - destruct (JSON_parse env bytes) as [ev|syntaxError] eqn:Hp; cbn.
    + destruct (enrich_outputs env ev
                  (add_log (LDebug, "Received normalized telemetry event") w))
        as (news & pubs & Hs & Hpub & Hc & Hin & Hall).
      destruct (enrichTelemetry env ev _) as [[[]|error] w1]; cbn in *;
        exists news, pubs;
        (split; [reflexivity|]); (split; [now rewrite Hc|]);
        (split; [exact Hs|]); (split; [exact Hpub|]); (split; [exact Hin|]);
        (eapply Forall_impl; [|exact Hall]); intros e He; exists bytes, ev;
        auto.
    + exists [], []. rewrite !app_nil_r.
      repeat (split; [reflexivity|]). split; [apply incl_refl | constructor].
  - cbn. exists [], []. rewrite !app_nil_r.
    repeat (split; [reflexivity|]). split; [apply incl_refl | constructor].
Qed.

Lemma run_outputs (batch : list KafkaMessage.t) (w : World) :
  exists news pubs,
    fst (run env batch w) = Ok tt
    /\ committed (snd (run env batch w)) =
         (committed w ++ map KafkaMessage.offset batch)%list
    /\ sent (snd (run env batch w)) = (sent w ++ news)%list
    /\ published (snd (run env batch w)) = (published w ++ pubs)%list
    /\ incl pubs news
    /\ Forall
         (fun e => exists ev, consumed env batch ev /\ enriched_from env ev e)
         news.
Proof.
  revert w. induction batch as [|message rest IH]; intros w.
  - cbn. exists [], []. rewrite !app_nil_r.
    repeat (split; [reflexivity|]). split; [apply incl_refl | constructor].
  - cbn [run]. unfold bind.
    destruct (deliver_outputs message w)
      as (n1 & p1 & Hr & Hc & Hs & Hp & Hin & Hall).
    destruct (deliver env message w) as [[[]|error] w1]; cbn in Hr;
      [|discriminate Hr].
    cbn [snd] in Hc, Hs, Hp. cbv beta iota.
    destruct (IH w1) as (n2 & p2 & Hr2 & Hc2 & Hs2 & Hp2 & Hin2 & Hall2).
    exists (n1 ++ n2)%list, (p1 ++ p2)%list.
    split; [exact Hr2|].
    split; [rewrite Hc2, Hc, <- app_assoc; reflexivity|].
    split; [rewrite Hs2, Hs, <- app_assoc; reflexivity|].
    split; [rewrite Hp2, Hp, <- app_assoc; reflexivity|].
    split.
    + apply incl_app; [apply incl_appl | apply incl_appr]; assumption.
    + apply Forall_app. split.
      * eapply Forall_impl; [|exact Hall].
        intros e (bytes & ev & Hv & Hparse & Hfrom).
        exists ev. split; [|exact Hfrom].
        exists message, bytes. split; [now left|]. split; assumption.
      * eapply Forall_impl; [|exact Hall2].
        intros e (ev & (m & bytes & Hm & Hv & Hparse) & Hfrom).
        exists ev. split; [|exact Hfrom].
        exists m, bytes. split; [now right|]. split; assumption.
Qed.

Lemma handed_app (w w' : World) (news : list EnrichedTelemetryEvent.t) :
  sent w' = (sent w ++ news)%list -> handed w w' = news.
Proof.
  intros H. unfold handed. rewrite H.
  rewrite skipn_app, skipn_all, Nat.sub_diag. reflexivity.
Qed.

Lemma emitted_app (w w' : World) (pubs : list EnrichedTelemetryEvent.t) :
  published w' = (published w ++ pubs)%list -> emitted w w' = pubs.
Proof.
  intros H. unfold emitted. rewrite H.
  rewrite skipn_app, skipn_all, Nat.sub_diag. reflexivity.
Qed.

(** Whatever the broker acknowledged had been handed to the producer. *)
Lemma emitted_handed (batch : list KafkaMessage.t) (w : World) :
  incl (emitted w (snd (run env batch w))) (handed w (snd (run env batch w))).
Proof.
  destruct (run_outputs batch w) as (news & pubs & _ & _ & Hs & Hp & Hin & _).
  rewrite (handed_app _ _ _ Hs), (emitted_app _ _ _ Hp). exact Hin.
Qed.

End Consumer.

Section Outage.
Variable env : Env.

(** An operation that rejects whenever it is tried makes [callWithRetry]
    reject, however many attempts are configured. *)
Lemma callWithRetry_from_rejects {A : Type} (operation : M World A)
  (operationName : string) :
  (forall w, resolved (fst (operation w)) = false) ->
  forall iterations attempt lastError w,
    resolved
      (fst (callWithRetry_from env iterations attempt lastError operation
              operationName w)) = false.
Proof.
  intros Hop. induction iterations as [|n IH]; intros attempt lastError w.
  - reflexivity.
  - cbn [callWithRetry_from]. unfold try_catch.
    specialize (Hop w).
    destruct (operation w) as [[a|error] w1]; [discriminate Hop|].
    unfold bind, log, effect.
    destruct (attempt <? ConfigService.registryMaxRetries (config env));
      cbn; apply IH.
Qed.




End Outage.

(** Both clients read [response.status] as the name of the enum value and
    compare it with the numbers 1 and 2, so no response is ever taken for a
    success or for a plain "not found". *)
Section Answers.
Variable env : Env.

(** An answered call rejects, whatever its status. *)
Lemma settle_answer_rejects {A B : Type} (notFound : string)
  (build : option A -> B) (status : string) (payload : option A) (w : World) :
  settle notFound build (Grpc.Response status payload) w =
    (Throw (Js.newError ("Registry returned status: " ++ status)), w).
Proof. reflexivity. Qed.

(** The callback of a lookup resolves with [null] or not at all. *)
Lemma settle_never_finds {A B : Type} (notFound : string)
  (build : option A -> B) (reply : Grpc.Reply A) (w : World) (r : option B)
  (w' : World) :
  settle notFound build reply w = (Ok r, w') -> r = None.
Proof.
  destruct reply as [error|status payload]; cbn.
  - destruct (Grpc.is_not_found error); cbn; [|discriminate].
    now intros [= <- _].
  - discriminate.
Qed.

Lemma callWithRetry_from_only {A : Type} (P : A -> Prop) (operation : M World A)
  (operationName : string) :
  (forall w a w', operation w = (Ok a, w') -> P a) ->
  forall iterations attempt lastError w a w',
    callWithRetry_from env iterations attempt lastError operation operationName w
      = (Ok a, w') ->
    P a.
Proof.
  intros Hop. induction iterations as [|n IH]; intros attempt lastError w a w'.
  - cbn. discriminate.
  - cbn [callWithRetry_from]. unfold try_catch.
    destruct (operation w) as [[a0|error] w1] eqn:Ho.
    + intros [= <- <-]. exact (Hop _ _ _ Ho).
    + unfold bind, log, effect.
      destruct (attempt <? ConfigService.registryMaxRetries (config env));
        cbn; apply IH.
Qed.

Lemma guarded_never_finds {A B : Type} (call : Rpc) (peer : nat -> Grpc.Reply A)
  (notFound : string) (build : option A -> B) (operationName what : string)
  (w : World) (r : option B) (w' : World) :
  guarded env (reply <- unary call peer ;; settle notFound build reply)%async
    operationName what w = (Ok r, w') ->
  r = None.
Proof.
  unfold guarded.
  destruct (ConfigService.registryEnabled (config env)); cbn [negb].
  2: { cbn. now intros [= <- _]. }
  unfold bind at 1, is_connected.
  destruct (registry_connected w); cbn [negb].
  2: { cbn. now intros [= <- _]. }
  unfold callWithRetry.
  apply (callWithRetry_from_only (fun r => r = None)).
  intros w0 a w0'. unfold bind, unary. apply settle_never_finds.
Qed.

(** [getDevice] never resolves with a device. *)
Lemma getDevice_never_finds (deviceId : string) (w : World)
  (device : option Device.t) (w' : World) :
  getDevice env deviceId w = (Ok device, w') -> device = None.
Proof. apply guarded_never_finds. Qed.

Lemma getPatient_never_finds (patientId : string) (w : World)
  (patient : option Patient.t) (w' : World) :
  getPatient env patientId w = (Ok patient, w') -> patient = None.
Proof. apply guarded_never_finds. Qed.

Lemma getThresholdProfile_never_finds (patientId : string)
  (deviceId : option string) (w : World) (profile : option ThresholdProfile.t)
  (w' : World) :
  getThresholdProfile env patientId deviceId w = (Ok profile, w') ->
  profile = None.
Proof. apply guarded_never_finds. Qed.

(** So step 2 never has anything to add to the event. *)
Lemma lookups_never_find (patientId deviceId : string) (w : World)
  (locals : Locals) (w' : World) :
  lookups env patientId deviceId w = (Ok locals, w') -> locals = no_locals.
Proof.
  unfold lookups, try_catch, bind at 1.
  destruct (getPatient env patientId w) as [[patient|e] w1] eqn:Hp.
  2: { cbn. now intros [= <- _]. }
  rewrite (getPatient_never_finds _ _ _ _ Hp). cbv beta iota.
  unfold bind at 1. unfold ret at 1. cbv beta iota.
  unfold bind at 1.
  destruct (getThresholdProfile env patientId (Some deviceId) w1)
    as [[profile|e] w2] eqn:Ht.
  2: { cbn. now intros [= <- _]. }
  rewrite (getThresholdProfile_never_finds _ _ _ _ _ Ht). cbn.
  now intros [= <- _].
Qed.

Lemma step2_never_finds (patientId : option string) (orphan : bool)
  (deviceId : string) (w : World) (locals : Locals) (w' : World) :
  step2 env patientId orphan deviceId w = (Ok locals, w') -> locals = no_locals.
Proof.
  unfold step2. destruct patientId as [p|].
  - destruct (Js.truthy p && negb orphan)%bool.
    + apply lookups_never_find.
    + now intros [= <- _].
  - now intros [= <- _].
Qed.

(** With the Registry enabled and its client connected, [getDevice] rejects
    when every [GetDevice] call is answered. *)
Lemma getDevice_answered_rejects (deviceId : string) (w : World) :
  ConfigService.registryEnabled (config env) = true ->
  registry_connected w = true ->
  (forall n, exists status payload,
      GetDevice env deviceId n = Grpc.Response status payload) ->
  resolved (fst (getDevice env deviceId w)) = false.
Proof.
  intros Hen Hcon Hans.
  unfold getDevice, guarded. rewrite Hen. cbn [negb].
  unfold bind at 1, is_connected. rewrite Hcon. cbn [negb].
  apply callWithRetry_from_rejects.
  intros w0. unfold bind, unary.
  destruct (Hans (List.length (rpcs w0))) as (status & payload & ->).
  reflexivity.
Qed.

End Answers.

Section Calls.
Variable env : Env.

Lemma linked_some (device : option Device.t) (p : string) :
  linked device = Some p ->
  exists d,
    device = Some d /\ Device.patient_id d = Some p /\ Js.truthy p = true.
Proof.
  unfold linked. destruct device as [d|]; [|discriminate].
  destruct (Device.patient_id d) as [q|] eqn:Hq; cbn; [|discriminate].
  destruct (Js.truthy q) eqn:Ht; [|discriminate].
  intros [= ->]. exists d. auto.
Qed.

(** What the world looks like after the one event [e] of a call went to
    the producer. *)
Lemma enrich_tail (ev : NormalizedTelemetryEvent.t) (w w4 : World)
  (e : EnrichedTelemetryEvent.t) :
  sent w4 = sent w ->
  published w4 = published w ->
  enrichTelemetry env ev w =
    match producer env e (List.length (sent w4)) with
    | None =>
        (Ok tt,
         add_log (LLog, "Successfully enriched and produced telemetry event")
           (add_published e (add_sent e w4)))
    | Some error =>
        (Throw error,
         add_log (LError, "Error enriching telemetry") (add_sent e w4))
    end ->
  handed w (snd (enrichTelemetry env ev w)) = [e]
  /\ rpcs (snd (enrichTelemetry env ev w)) = rpcs w4
  /\ (producer env e (List.length (sent w)) = None ->
      fst (enrichTelemetry env ev w) = Ok tt
      /\ emitted w (snd (enrichTelemetry env ev w)) = [e]).
Proof.
  intros Hs Hp ->. rewrite Hs.
  destruct (producer env e (List.length (sent w))) as [error|]; cbn.
  - split; [apply handed_app; cbn; congruence|].
    split; [reflexivity | discriminate].
  - split; [apply handed_app; cbn; congruence|].
    split; [reflexivity|]. intros _.
    split; [reflexivity | apply emitted_app; cbn; congruence].
Qed.

End Calls.

Section Emission.
Variable env : Env.


End Emission.

(** ** The claims on the Enricher *)

Section Claims.
Variable env : Env.

(** C1, as amended. The [eachMessage] callback awaits its handler and
    catches whatever the handler throws: it logs the error and resolves.
    The promise kafkajs waits for therefore never rejects, and the offset
    of every message of a batch is resolved, whether its handler raised or
    not: a message whose handler raised is not delivered again. *)
Theorem offsets_resolved_whatever_the_handler_does :
  (forall handler message w,
      fst (eachMessage env handler message w) = Ok tt)
  /\ (forall handler bytes offset ev w error w1,
        JSON_parse env bytes = inl ev ->
        handler ev (add_log (LDebug, "Received normalized telemetry event") w)
          = (Throw error, w1) ->
        eachMessage env (Some handler) (KafkaMessage.mk (Some bytes) offset) w
          = (Ok tt, add_log (LError, "Error processing message") w1))
  /\ (forall batch w,
        fst (run env batch w) = Ok tt
        /\ committed (snd (run env batch w)) =
             (committed w ++ map KafkaMessage.offset batch)%list).
Proof.
  split; [|split].
  - apply eachMessage_resolves.
  - intros handler bytes offset ev w error w1 Hparse Hraise.
    unfold eachMessage, try_catch. cbn [KafkaMessage.value].
    rewrite Hparse. unfold bind at 1. cbn.
    rewrite Hraise. reflexivity.
  - intros batch w.
    destruct (run_outputs env batch w) as (news & pubs & Hr & Hc & _).
    split; assumption.
Qed.

(** What step 1 comes to. [getDevice] resolves with [null] only, so the
    branch that adopts the patient of the device is never taken: the event
    keeps the patient id it came with, and without one it is marked
    [orphan = true], carries no patient id, and no RPC is issued after the
    device lookup. *)
Lemma resolution_without_device (ev : NormalizedTelemetryEvent.t) (w : World)
  (device : option Device.t) (w1 : World) :
  getDevice env (NormalizedTelemetryEvent.device_id ev) (entered w) = (Ok device, w1) ->
  device = None
  /\ exists e,
       handed w (snd (enrichTelemetry env ev w)) = [e]
       /\ if Js.truthy_opt (NormalizedTelemetryEvent.patient_id ev)
          then EnrichedTelemetryEvent.patient_id e =
                 NormalizedTelemetryEvent.patient_id ev
               /\ EnrichedTelemetryEvent.orphan e = None
          else EnrichedTelemetryEvent.orphan e = Some true
               /\ EnrichedTelemetryEvent.patient_id e = None
               /\ rpcs (snd (enrichTelemetry env ev w)) = rpcs w1.
Proof.
  intros Hdev.
  pose proof (getDevice_never_finds env _ _ _ _ Hdev) as ->.
  split; [reflexivity|].
  destruct (enrich_steps env ev w None w1 Hdev)
    as (p & o & w2 & locals & w3 & e & w4 & Hpo & L1 & L2 & _ & L3 & Ho & Hb
        & Hr & Hs & Hp & _ & Heq).
  assert (S4 : sent w4 = sent w).
  { destruct L1 as (_ & _ & _ & S1 & _). destruct L3 as (_ & _ & _ & S3 & _).
    destruct L2 as (_ & _ & _ & _ & _ & S2 & _). congruence. }
  assert (P4 : published w4 = published w).
  { destruct L1 as (_ & _ & _ & _ & P1 & _). destruct L3 as (_ & _ & _ & _ & P3 & _).
    destruct L2 as (_ & _ & _ & _ & _ & _ & P2 & _). congruence. }
  destruct (enrich_tail env ev w w4 e S4 P4 Heq) as (Hh & Hrpc & _).
  exists e. split; [exact Hh|].
  destruct Hb as (_ & _ & _ & _ & Hpid & Horph & _).
  cbn in Hpo. injection Hpo as -> ->.
  rewrite Hpid, Horph.
  destruct (Js.truthy_opt (NormalizedTelemetryEvent.patient_id ev)); cbn.
  - split; reflexivity.
  - split; [reflexivity|]. split; [reflexivity|].
    destruct (Ho eq_refl) as (_ & ->).
    destruct L2 as (_ & R2 & _). congruence.
Qed.

(** When the Registry answers every [GetDevice] call, whatever it answers,
    [enrichTelemetry] rejects and nothing reaches the producer. *)
Lemma answered_device_lookup_rejects (ev : NormalizedTelemetryEvent.t)
  (w : World) :
  ConfigService.registryEnabled (config env) = true ->
  registry_connected w = true ->
  (forall n, exists status payload,
      GetDevice env (NormalizedTelemetryEvent.device_id ev) n
        = Grpc.Response status payload) ->
  resolved (fst (enrichTelemetry env ev w)) = false
  /\ handed w (snd (enrichTelemetry env ev w)) = [].
Proof.
  intros Hen Hcon Hans.
  pose proof (getDevice_answered_rejects env (NormalizedTelemetryEvent.device_id ev)
                (entered w) Hen Hcon Hans) as Hrej.
  destruct (getDevice env (NormalizedTelemetryEvent.device_id ev) (entered w))
    as [[device|error] w1] eqn:Hdev; [discriminate Hrej|].
  destruct (enrich_device_failure env ev w error w1 Hdev) as (-> & L).
  split; [reflexivity|].
  apply handed_app. cbn. rewrite app_nil_r.
  destruct L as (_ & _ & _ & S1 & _). exact S1.
Qed.

(** C4. Orphan consistency: whatever batch the Enricher consumes, an event
    it hands to its producer with [orphan = true] has neither
    [patientProfile] nor [thresholds]. *)
Theorem orphan_has_no_profile (batch : list KafkaMessage.t) (w : World)
  (e : EnrichedTelemetryEvent.t) :
  In e (handed w (snd (run env batch w))) ->
  EnrichedTelemetryEvent.orphan e = Some true ->
  EnrichedTelemetryEvent.patientProfile e = None
  /\ EnrichedTelemetryEvent.thresholds e = None.
Proof.
  intros Hin Horph.
  destruct (run_outputs env batch w) as (news & pubs & _ & _ & Hs & _ & _ & Hall).
  rewrite (handed_app _ _ _ Hs) in Hin.
  rewrite Forall_forall in Hall.
  destruct (Hall e Hin) as (ev & _ & p & o & locals & w3 & Hb & Ho).
  destruct Hb as (_ & _ & _ & _ & _ & Hflag & Hprof & Hthr & _).
  destruct o.
  - rewrite (Ho eq_refl) in Hprof, Hthr. split; assumption.
  - rewrite Hflag in Horph. discriminate Horph.
Qed.

(** C5. Source linkage: whatever batch the Enricher consumes, every event
    it hands to its producer has as [source_event_id] the [event_id] of an
    event consumed from that batch. *)
Theorem source_event_id_is_input_event_id (batch : list KafkaMessage.t)
  (w : World) (e : EnrichedTelemetryEvent.t) :
  In e (handed w (snd (run env batch w))) ->
  exists ev,
    consumed env batch ev
    /\ EnrichedTelemetryEvent.source_event_id e =
         NormalizedTelemetryEvent.event_id ev.
Proof.
  intros Hin.
  destruct (run_outputs env batch w) as (news & pubs & _ & _ & Hs & _ & _ & Hall).
  rewrite (handed_app _ _ _ Hs) in Hin.
  rewrite Forall_forall in Hall.
  destruct (Hall e Hin) as (ev & Hcons & p & o & locals & w3 & Hb & _).
  exists ev. split; [exact Hcons | exact (proj1 Hb)].
Qed.

(** The trace id of an event built for [ev]: the one [ev] carries when
    that is a non-empty string, a minted one otherwise. *)
Lemma trace_id_of_enriched (ev : NormalizedTelemetryEvent.t) (w : World)
  (e : EnrichedTelemetryEvent.t) :
  In e (handed w (snd (enrichTelemetry env ev w))) ->
  match NormalizedTelemetryEvent.trace_id ev with
  | Some t =>
      if Js.truthy t then EnrichedTelemetryEvent.trace_id e = t
      else exists u, EnrichedTelemetryEvent.trace_id e = "trace_" ++ u
  | None => exists u, EnrichedTelemetryEvent.trace_id e = "trace_" ++ u
  end.
Proof.
  intros Hin.
  destruct (enrich_outputs env ev w) as (news & pubs & Hs & _ & _ & _ & Hall).
  rewrite (handed_app _ _ _ Hs) in Hin.
  rewrite Forall_forall in Hall.
  destruct (Hall e Hin) as (p & o & locals & w3 & Hb & _).
  destruct Hb as (_ & _ & _ & Htrace & _).
  destruct (NormalizedTelemetryEvent.trace_id ev) as [t|];
    unfold Js.truthy_opt, Js.or_default in Htrace.
  - destruct (Js.truthy t); [exact Htrace | eexists; exact Htrace].
  - eexists; exact Htrace.
Qed.

(** The identifiers [build] gives an event whose input has no trace id:
    it draws two uuids, the first for the trace id and the second for the
    event id. *)
Lemma build_minted (ev : NormalizedTelemetryEvent.t) (p : option string)
  (o : bool) (locals : Locals) (w : World) (e : EnrichedTelemetryEvent.t)
  (w' : World) :
  NormalizedTelemetryEvent.trace_id ev = None ->
  build env ev p o locals w = (Ok e, w') ->
  EnrichedTelemetryEvent.trace_id e = "trace_" ++ uuid env (uuids_drawn w)
  /\ EnrichedTelemetryEvent.event_id e = uuid env (S (uuids_drawn w))
  /\ uuids_drawn w' = S (S (uuids_drawn w)).
Proof.
  intros Hnone. destruct locals as [[patientProfile thresholds] enrichmentSources].
  unfold build. rewrite Hnone. cbn.
  intros [= <- <-]. repeat split.
Qed.

(** [enrich_steps] with the call of [build] in view. *)
Lemma enrich_built (ev : NormalizedTelemetryEvent.t) (w : World)
  (device : option Device.t) (w1 : World) :
  getDevice env (NormalizedTelemetryEvent.device_id ev) (entered w) = (Ok device, w1) ->
  exists patientId orphan locals w3 e w4,
    build env ev patientId orphan locals w3 = (Ok e, w4)
    /\ uuids_drawn w3 = uuids_drawn w
    /\ sent w4 = sent w
    /\ published w4 = published w
    /\ enrichTelemetry env ev w =
         match producer env e (List.length (sent w4)) with
         | None =>
             (Ok tt,
              add_log (LLog, "Successfully enriched and produced telemetry event")
                (add_published e (add_sent e w4)))
         | Some error =>
             (Throw error,
              add_log (LError, "Error enriching telemetry") (add_sent e w4))
         end.
Proof.
  intros Hdev.
  pose proof (lookup_only_getDevice env (NormalizedTelemetryEvent.device_id ev)
                (entered w)) as L1.
  rewrite Hdev in L1. cbn [snd] in L1.
  destruct (resolve_logged device (NormalizedTelemetryEvent.patient_id ev) w1)
    as (w2 & Hres & L2).
  remember (match linked device with
            | Some p => (Some p, false)
            | None => (NormalizedTelemetryEvent.patient_id ev,
                       negb (Js.truthy_opt (NormalizedTelemetryEvent.patient_id ev)))
            end) as po eqn:Hpo.
  destruct po as [p o].
  destruct (step2_total env p o (NormalizedTelemetryEvent.device_id ev) w2)
    as (locals & w3 & Hstep & L3 & _).
  destruct (build_spec env ev p o locals w3)
    as (e & w4 & Hbuild & _ & _ & _ & Hs & Hp & _).
  exists p, o, locals, w3, e, w4.
  split; [exact Hbuild|].
  split.
  { destruct L1 as (_ & U1 & _). destruct L2 as (_ & _ & _ & U2 & _).
    destruct L3 as (_ & U3 & _). cbn in U1. congruence. }
  split.
  { destruct L1 as (_ & _ & _ & S1 & _).
    destruct L2 as (_ & _ & _ & _ & _ & S2 & _).
    destruct L3 as (_ & _ & _ & S3 & _). cbn in S1. congruence. }
  split.
  { destruct L1 as (_ & _ & _ & _ & P1 & _).
    destruct L2 as (_ & _ & _ & _ & _ & _ & P2 & _).
    destruct L3 as (_ & _ & _ & _ & P3 & _). cbn in P1. congruence. }
  unfold enrichTelemetry, try_catch, bind at 1.
  change (log LDebug "Enriching telemetry event" w) with (Ok tt, entered w).
  cbv beta iota. unfold bind at 1. rewrite Hdev.
  unfold bind at 1. rewrite Hres.
  unfold bind at 1. rewrite Hstep.
  unfold bind at 1. rewrite Hbuild.
  unfold bind, produceEnrichedTelemetry.
  destruct (producer env e (List.length (sent w4))); reflexivity.
Qed.

(** C10, as amended. An input without [trace_id] is never what makes the
    Enricher fail, and never yields an empty trace id. For such an input
    the call rejects in two cases only: when the device lookup rejects
    (with its error; nothing goes to the producer), and when the producer
    refuses the event (with the producer's error). Whenever the device
    lookup resolves, exactly one event goes to the producer; its trace id
    is ["trace_"] followed by the uuid drawn next, its event id is the uuid
    drawn after that one, and these two are the uuids the call draws; when
    the producer accepts the event the call resolves and the event is
    published. Every event the Enricher hands to its producer, for any
    input, has a non-empty trace id. *)
Theorem missing_trace_id_is_minted (ev : NormalizedTelemetryEvent.t) (w : World) :
  (forall e,
      In e (handed w (snd (enrichTelemetry env ev w))) ->
      EnrichedTelemetryEvent.trace_id e <> "")
  /\ (NormalizedTelemetryEvent.trace_id ev = None ->
      (forall device w1,
         getDevice env (NormalizedTelemetryEvent.device_id ev) (entered w)
           = (Ok device, w1) ->
         exists e,
           handed w (snd (enrichTelemetry env ev w)) = [e]
           /\ EnrichedTelemetryEvent.trace_id e =
                "trace_" ++ uuid env (uuids_drawn w)
           /\ EnrichedTelemetryEvent.event_id e = uuid env (S (uuids_drawn w))
           /\ uuids_drawn (snd (enrichTelemetry env ev w)) = S (S (uuids_drawn w))
           /\ (producer env e (List.length (sent w)) = None ->
               fst (enrichTelemetry env ev w) = Ok tt
               /\ emitted w (snd (enrichTelemetry env ev w)) = [e])
           /\ (forall error,
                 producer env e (List.length (sent w)) = Some error ->
                 fst (enrichTelemetry env ev w) = Throw error
                 /\ emitted w (snd (enrichTelemetry env ev w)) = []))
      /\ (forall error w1,
            getDevice env (NormalizedTelemetryEvent.device_id ev) (entered w)
              = (Throw error, w1) ->
            fst (enrichTelemetry env ev w) = Throw error
            /\ handed w (snd (enrichTelemetry env ev w)) = []
            /\ uuids_drawn (snd (enrichTelemetry env ev w)) = uuids_drawn w)).
Proof.
  split.
  - intros e Hin. pose proof (trace_id_of_enriched ev w e Hin) as H.
    destruct (NormalizedTelemetryEvent.trace_id ev) as [t|].
    + destruct (Js.truthy t) eqn:Ht.
      * rewrite H. apply JsFacts.truthy_nonempty, Ht.
      * destruct H as (u & ->). discriminate.
    + destruct H as (u & ->). discriminate.
  - intros Hnone. split.
    + intros device w1 Hdev.
      destruct (enrich_built ev w device w1 Hdev)
        as (p & o & locals & w3 & e & w4 & Hbuild & U3 & S4 & P4 & Heq).
      destruct (build_minted ev p o locals w3 e w4 Hnone Hbuild)
        as (Htrace & Hid & U4).
      destruct (enrich_tail env ev w w4 e S4 P4 Heq) as (Hh & _ & Hacc).
      exists e. split; [exact Hh|].
      split; [rewrite Htrace, U3; reflexivity|].
      split; [rewrite Hid, U3; reflexivity|].
      split.
      { rewrite Heq.
        destruct (producer env e (List.length (sent w4))); cbn; congruence. }
      split; [exact Hacc|].
      intros error Hprod. rewrite Heq, S4, Hprod. cbn.
      split; [reflexivity|]. apply emitted_app. cbn. rewrite app_nil_r. exact P4.
    + intros error w1 Hdev.
      destruct (enrich_device_failure env ev w error w1 Hdev) as (-> & L).
      split; [reflexivity|].
      destruct L as (_ & U1 & _ & S1 & _). cbn.
      split; [|exact U1].
      apply handed_app. cbn. rewrite app_nil_r. exact S1.
Qed.


End Claims.

(** ** The Enricher on the scenarios *)

Import Scenario.

(** C1, counterexample. The Registry is down, so the handler raises on the
    message at offset 7 (the claim: its offset is then not committed); the
    callback resolves all the same, the offset is resolved and nothing was
    published. Likewise when the handler raises because the broker refused
    the enriched event: the offset is resolved although the downstream
    publish did not succeed. *)
Lemma handler_raises_offset_resolved :
  resolved
    (fst (enrichTelemetry registry_down bare
            (add_log (LDebug, "Received normalized telemetry event") initial)))
    = false
  /\ fst (eachMessage registry_down (messageHandler registry_down)
            (message "bare" 7) initial) = Ok tt
  /\ committed (snd (run registry_down [message "bare" 7] initial)) = [7]
  /\ published (snd (run registry_down [message "bare" 7] initial)) = []
  /\ resolved
       (fst (enrichTelemetry broker_refuses bare
               (add_log (LDebug, "Received normalized telemetry event") initial)))
       = false
  /\ committed (snd (run broker_refuses [message "bare" 7] initial)) = [7]
  /\ published (snd (run broker_refuses [message "bare" 7] initial)) = [].
Proof. vm_compute. repeat split. Qed.

(** The second clause of C1 at the message whose handler meets a Registry
    that is down. *)
Lemma offsets_resolved_witness :
  eachMessage registry_down (Some (enrichTelemetry registry_down))
    (KafkaMessage.mk (Some "bare") 7) initial
  = (Ok tt,
     add_log (LError, "Error processing message")
       (snd (enrichTelemetry registry_down bare
               (add_log (LDebug, "Received normalized telemetry event") initial)))).
Proof.
  apply (proj1 (proj2 (offsets_resolved_whatever_the_handler_does registry_down))
           (enrichTelemetry registry_down) "bare" 7 bare initial unavailable).
  - reflexivity.
  - vm_compute. reflexivity.
Defined.



(** C3. The resolution of the patient, as the code performs it. The first
    branch of the claim, adopting the patient the device is linked to, is
    never taken: [getDevice] compares the status of an answer, which the
    client decodes as the name of the enum value, with the number 1, so it
    never resolves with a device. Whenever the device lookup resolves it
    resolves with [null], and the other two branches are as claimed: the
    event keeps the patient id it came with, and without one it is marked
    [orphan = true] and no RPC follows the device lookup. When the Registry
    answers the device lookup, be it with STATUS_SUCCESS and a device that
    is linked to a patient, every attempt rejects and so does
    [enrichTelemetry], handing nothing to the producer. So it is for the
    event of D1 on the seeded Registry: three calls of [GetDevice], the
    error "Registry returned status: STATUS_SUCCESS", no event. *)
Theorem patient_never_adopted :
  (forall env ev w device w1,
      getDevice env (NormalizedTelemetryEvent.device_id ev) (entered w)
        = (Ok device, w1) ->
      device = None
      /\ exists e,
           handed w (snd (enrichTelemetry env ev w)) = [e]
           /\ if Js.truthy_opt (NormalizedTelemetryEvent.patient_id ev)
              then EnrichedTelemetryEvent.patient_id e =
                     NormalizedTelemetryEvent.patient_id ev
                   /\ EnrichedTelemetryEvent.orphan e = None
              else EnrichedTelemetryEvent.orphan e = Some true
                   /\ EnrichedTelemetryEvent.patient_id e = None
                   /\ rpcs (snd (enrichTelemetry env ev w)) = rpcs w1)
  /\ (forall env ev w,
        ConfigService.registryEnabled (config env) = true ->
        registry_connected w = true ->
        (forall n, exists status payload,
            GetDevice env (NormalizedTelemetryEvent.device_id ev) n
              = Grpc.Response status payload) ->
        resolved (fst (enrichTelemetry env ev w)) = false
        /\ handed w (snd (enrichTelemetry env ev w)) = [])
  /\ GetDevice registry_seeded "D1" 0 =
       Grpc.Response "STATUS_SUCCESS"
         (Some (Proto.Device.mk (Some "D1") (Some "wearable") (Some "P1")
                  (Some "DEVICE_STATUS_ACTIVE") None None None))
  /\ fst (enrichTelemetry registry_seeded bare initial) = Throw success_rejected
  /\ handed initial (snd (enrichTelemetry registry_seeded bare initial)) = []
  /\ rpcs (snd (enrichTelemetry registry_seeded bare initial)) =
       [CallGetDevice "D1" 5000; CallGetDevice "D1" 5000; CallGetDevice "D1" 5000]
  /\ timers (snd (enrichTelemetry registry_seeded bare initial)) = [1000; 2000].
Proof.
  split; [|split].
  - intros env ev w device w1. apply resolution_without_device.
  - intros env ev w. apply answered_device_lookup_rejects.
  - vm_compute. repeat split.
Qed.

(** The other two branches of the resolution, run. *)
Example input_patient_kept :
  map EnrichedTelemetryEvent.patient_id
    (handed initial (snd (enrichTelemetry registry_empty with_patient initial)))
    = [Some "P9"]
  /\ map EnrichedTelemetryEvent.orphan
       (handed initial (snd (enrichTelemetry registry_empty with_patient initial)))
       = [None].
Proof. vm_compute. split; reflexivity. Qed.

Example unknown_device_orphan :
  handed initial (snd (enrichTelemetry registry_empty bare initial))
    = [orphan_of_bare]
  /\ rpcs (snd (enrichTelemetry registry_empty bare initial))
       = [CallGetDevice "D1" 5000].
Proof. vm_compute. split; reflexivity. Qed.

(** C4 on the orphan emitted for a device the Registry does not know. *)
Lemma orphan_has_no_profile_witness :
  In orphan_of_bare
    (handed initial (snd (run registry_empty [message "bare" 0] initial)))
  /\ EnrichedTelemetryEvent.orphan orphan_of_bare = Some true
  /\ EnrichedTelemetryEvent.patientProfile orphan_of_bare = None
  /\ EnrichedTelemetryEvent.thresholds orphan_of_bare = None.
Proof.
  assert (Hin : In orphan_of_bare
                  (handed initial
                     (snd (run registry_empty [message "bare" 0] initial))))
    by (vm_compute; left; reflexivity).
  split; [exact Hin|]. split; [reflexivity|].
  exact (orphan_has_no_profile registry_empty [message "bare" 0] initial
           orphan_of_bare Hin eq_refl).
Defined.

(** C5 on the same event: its source is the consumed event n-1. *)
Lemma source_event_id_witness :
  In orphan_of_bare
    (handed initial (snd (run registry_empty [message "bare" 0] initial)))
  /\ exists ev,
       consumed registry_empty [message "bare" 0] ev
       /\ EnrichedTelemetryEvent.source_event_id orphan_of_bare =
            NormalizedTelemetryEvent.event_id ev.
Proof.
  assert (Hin : In orphan_of_bare
                  (handed initial
                     (snd (run registry_empty [message "bare" 0] initial))))
    by (vm_compute; left; reflexivity).
  split; [exact Hin|].
  exact (source_event_id_is_input_event_id registry_empty [message "bare" 0]
           initial orphan_of_bare Hin).
Defined.

(** C10, counterexample. The event [bare] carries no trace id, and with
    the Registry down the Enricher fails on it: [enrichTelemetry] rejects
    and no enriched event, with or without a trace id, is handed over. *)
Lemma missing_trace_id_can_fail :
  NormalizedTelemetryEvent.trace_id bare = None
  /\ fst (enrichTelemetry registry_down bare initial) = Throw unavailable
  /\ handed initial (snd (enrichTelemetry registry_down bare initial)) = []
  /\ sent (snd (run registry_down [message "bare" 0] initial)) = [].
Proof. vm_compute. repeat split. Qed.

(** C10 on the input that has no trace id, for a device the Registry does
    not know: the first uuid makes the trace id, the second the event id. *)
Lemma missing_trace_id_witness :
  NormalizedTelemetryEvent.trace_id bare = None
  /\ exists e,
       handed initial (snd (enrichTelemetry registry_empty bare initial)) = [e]
       /\ EnrichedTelemetryEvent.trace_id e = "trace_u0"
       /\ EnrichedTelemetryEvent.event_id e = "u1"
       /\ fst (enrichTelemetry registry_empty bare initial) = Ok tt
       /\ emitted initial (snd (enrichTelemetry registry_empty bare initial)) = [e].
Proof.
  split; [reflexivity|].
  destruct (proj1 (proj2 (missing_trace_id_is_minted registry_empty bare initial)
                     eq_refl)
              None
              (snd (getDevice registry_empty "D1" (entered initial))) eq_refl)
    as (e & Hh & Ht & Hid & _ & Hacc & _).
  exists e. split; [exact Hh|]. split; [exact Ht|]. split; [exact Hid|].
  apply Hacc. reflexivity.
Defined.

End EnrichmentFacts.

(** ** The Gateway *)

Module GatewayFacts.
Import Gateway.

Section Verification.
Variable env : Env.

(** The promise of [verifyDevice] only ever resolves. *)
Lemma verifyDevice_resolves (deviceId : string) (w : World) :
  exists verified, fst (verifyDevice env deviceId w) = Ok verified.
Proof.
  unfold verifyDevice.
  destruct (ConfigService.registryEnabled (config env)); cbn; [|eauto].
  destruct (registry_connected w); cbn; [|eauto].
  destruct (GetDevice env deviceId (List.length (lookups w))) as [error|status payload];
    cbn; eauto.
Qed.

(** It touches nothing but the lookup record and the log. *)
Lemma verifyDevice_frame (deviceId : string) (w : World) :
  kafka_connected (snd (verifyDevice env deviceId w)) = kafka_connected w
  /\ uuids_drawn (snd (verifyDevice env deviceId w)) = uuids_drawn w
  /\ clock_reads (snd (verifyDevice env deviceId w)) = clock_reads w
  /\ timers (snd (verifyDevice env deviceId w)) = timers w
  /\ sends (snd (verifyDevice env deviceId w)) = sends w
  /\ published (snd (verifyDevice env deviceId w)) = published w.
Proof.
  unfold verifyDevice.
  destruct (ConfigService.registryEnabled (config env)); cbn; [|repeat split].
  destruct (registry_connected w); cbn; [|repeat split].
  destruct (GetDevice env deviceId (List.length (lookups w))) as [error|status payload];
    cbn; repeat split.
Qed.

(** Fail open: with the client not connected, or on a gRPC error, the
    verification passes. *)
Lemma verifyDevice_fails_open (deviceId : string) (w : World) :
  registry_connected w = false
  \/ (exists error,
        GetDevice env deviceId (List.length (lookups w)) = Grpc.Failed error) ->
  fst (verifyDevice env deviceId w) = Ok true.
Proof.
  intros H. unfold verifyDevice.
  destruct (ConfigService.registryEnabled (config env)); cbn; [|reflexivity].
  destruct (registry_connected w); cbn; [|reflexivity].
  destruct H as [H|(error & ->)]; [discriminate H | reflexivity].
Qed.

(** The verification fails exactly when the Registry answers the call: the
    status of an answer is the name of an enum value, never [=== 1]. *)
Lemma verifyDevice_false_iff (deviceId : string) (w : World) :
  fst (verifyDevice env deviceId w) = Ok false <->
  ConfigService.registryEnabled (config env) = true
  /\ registry_connected w = true
  /\ exists status payload,
       GetDevice env deviceId (List.length (lookups w)) = Grpc.Response status payload.
Proof.
  unfold verifyDevice.
  destruct (ConfigService.registryEnabled (config env)); cbn.
  2: { split; [discriminate | intros (H & _); discriminate H]. }
  destruct (registry_connected w); cbn.
  2: { split; [discriminate | intros (_ & H & _); discriminate H]. }
  destruct (GetDevice env deviceId (List.length (lookups w))) as [error|status payload];
    cbn.
  { split; [discriminate | intros (_ & _ & s & p & H); discriminate H]. }
  split; [|reflexivity]. intros _.
  split; [reflexivity|]. split; [reflexivity|].
  exists status, payload. reflexivity.
Qed.

End Verification.

Section Publication.
Variable env : Env.


(** When every send fails, the loop gives up after the third and rejects
    with the error of that last send; nothing was acknowledged. *)
Lemma produce_all_fail (event : RawEvent.t) (failure : nat -> Js.Error)
  (w : World) :
  kafka_connected w = true ->
  (forall n, producer_send env event n = Some (failure n)) ->
  exists w',
    produceRawTelemetry env event w
      = (Throw (failure (List.length (sends w) + 2)%nat), w')
    /\ sends w' = (sends w ++ [event; event; event])%list
    /\ published w' = published w
    /\ timers w' = (timers w ++ [1000; 2000])%list.
Proof.
  intros Hcon Hfail. unfold produceRawTelemetry. rewrite Hcon. cbn [negb].
  change (Z.to_nat maxRetries) with 3%nat.
  cbn [produce_from]. unfold try_catch, bind, send.
  rewrite Hfail. cbn. rewrite Hfail. cbn. rewrite Hfail. cbn.
  rewrite !length_app. cbn [List.length].
  replace (List.length (sends w) + 1 + 1)%nat with (List.length (sends w) + 2)%nat
    by lia.
  eexists. split; [reflexivity|]. cbn.
  rewrite <- !app_assoc. repeat split.
Qed.

End Publication.

(** The kafkajs client inside each call of [producer.send]. *)
Section Client.
Variable options : RetryOptions.t.
Variable broker : Kafkajs.Broker.
Variable event : RawEvent.t.
Variable call : nat.





End Client.



Example delays :
  map delay [1; 2; 3; 4] = [1000; 2000; 4000; 5000].
Proof. reflexivity. Qed.

Example statuses :
  status_of (Js.newError "At least one metric must be provided")
    = STATUS_INTERNAL_ERROR
  /\ status_of (Js.newError "Kafka producer is not connected")
       = STATUS_INTERNAL_ERROR
  /\ status_of (Js.newError "Device D1 not found in registry")
       = STATUS_DEVICE_NOT_FOUND.
Proof. repeat split. Qed.

Section Requests.
Variable env : Env.

Lemma not_found_status (deviceId : string) :
  status_of (Js.newError (notFoundMessage deviceId)) = STATUS_DEVICE_NOT_FOUND.
Proof.
  unfold status_of, notFoundMessage. cbn [Js.message Js.newError].
  rewrite JsFacts.includes_append_r; [reflexivity|].
  apply JsFacts.includes_append_r. reflexivity.
Qed.

(** A request that fails the device check is rejected before anything is
    built or sent. *)
Lemma process_rejected (dto : TelemetryDto.t) (w : World) :
  fst (verifyDevice env (TelemetryDto.deviceId dto) w) = Ok false ->
  processTelemetry env dto w =
    (Throw (Js.newError (notFoundMessage (TelemetryDto.deviceId dto))),
     snd (verifyDevice env (TelemetryDto.deviceId dto) w)).
Proof.
  intros H. unfold processTelemetry, bind.
  destruct (verifyDevice env (TelemetryDto.deviceId dto) w) as [r w1].
  cbn in H. subst r. reflexivity.
Qed.

(** A request that passes it is processed as [accept] does. *)
Lemma process_verified (dto : TelemetryDto.t) (w : World) :
  fst (verifyDevice env (TelemetryDto.deviceId dto) w) = Ok true ->
  processTelemetry env dto w =
    accept env dto (snd (verifyDevice env (TelemetryDto.deviceId dto) w)).
Proof.
  intros H. unfold processTelemetry, bind.
  destruct (verifyDevice env (TelemetryDto.deviceId dto) w) as [r w1].
  cbn in H. subst r. reflexivity.
Qed.

(** The raw event gets two fresh identifiers, the second being its trace
    id; building it touches neither the broker nor the Registry. *)
Lemma transform_spec (dto : TelemetryDto.t) (w : World) (event : RawEvent.t)
  (w' : World) :
  transformToKafkaEvent env dto w = (Ok event, w') ->
  RawEvent.event_id event = "evt_" ++ uuid env (uuids_drawn w)
  /\ RawEvent.trace_id event = "trace_" ++ uuid env (S (uuids_drawn w))
  /\ RawEvent.device_id event = TelemetryDto.deviceId dto
  /\ kafka_connected w' = kafka_connected w
  /\ sends w' = sends w
  /\ published w' = published w
  /\ timers w' = timers w.
Proof.
  unfold transformToKafkaEvent, bind, uuidv4.
  destruct (Js.truthy (TelemetryDto.timestamp dto)); cbn;
    match goal with
    | |- context [match ?l with [] => _ | _ :: _ => _ end] => destruct l
    end; cbn; intros [= <- <-]; repeat split.
Qed.

(** The HTTP surface answers every failure of [processTelemetry] with 400
    and the error's message. *)
Lemma receive_failure (dto : TelemetryDto.t) (w : World) (error : Js.Error)
  (w' : World) :
  processTelemetry env dto w = (Throw error, w') ->
  receiveTelemetry env dto w =
    (Ok (HttpResponse.mk 400 false None (Js.message error)), w').
Proof.
  intros H. unfold receiveTelemetry, try_catch, bind. rewrite H. reflexivity.
Qed.

Lemma transformGrpcToDto_total (data : SendMeasurementsRequest.t) (w : World) :
  exists dto w',
    transformGrpcToDto env data w = (Ok dto, w')
    /\ TelemetryDto.deviceId dto = SendMeasurementsRequest.device_id data.
Proof.
  unfold transformGrpcToDto, bind.
  destruct (Js.truthy_opt (SendMeasurementsRequest.timestamp data)); cbn;
    eexists; eexists; split; reflexivity.
Qed.

(** The RPC surface answers a failure of [processTelemetry] with the status
    [status_of] reads off the error's message, and with no event id. *)
Lemma send_failure (data : SendMeasurementsRequest.t) (w : World)
  (dto : TelemetryDto.t) (w0 : World) (error : Js.Error) (w1 : World) :
  transformGrpcToDto env data w = (Ok dto, w0) ->
  processTelemetry env dto w0 = (Throw error, w1) ->
  exists timestamp w',
    sendMeasurements env data w =
      (Ok (SendMeasurementsResponse.mk "1.0.0" (status_of error)
             (Js.message error) "" timestamp), w')
    /\ sends w' = sends w1
    /\ published w' = published w1.
Proof.
  intros Hdto Hproc. unfold sendMeasurements, try_catch, bind at 1.
  rewrite Hdto. unfold bind at 1. rewrite Hproc.
  cbn. eexists. eexists. split; [reflexivity|]. split; reflexivity.
Qed.

End Requests.

(** ** The claims on the Gateway *)

Section GatewayClaims.
Variable env : Env.

(** C7. The device check, as the code performs it. The first half of the
    claim holds: with the Registry client not connected, or on a gRPC error
    of [GetDevice], the check passes and the request is processed like one
    that needs no verification (fail open). The second half does not: the
    check fails exactly when the Registry answers the call at all, whatever
    the status of the answer, STATUS_SUCCESS for a registered device
    included, because the status reaches [verifyDevice] as the name of the
    enum value and is compared with the number 1. The request is then
    rejected with "Device ... not found in registry" before anything is
    sent, which the RPC surface reports as device_not_found. *)
Theorem device_check (dto : TelemetryDto.t) (w : World) :
  (registry_connected w = false
   \/ (exists error,
         GetDevice env (TelemetryDto.deviceId dto) (List.length (lookups w))
           = Grpc.Failed error) ->
   fst (verifyDevice env (TelemetryDto.deviceId dto) w) = Ok true
   /\ processTelemetry env dto w =
        accept env dto (snd (verifyDevice env (TelemetryDto.deviceId dto) w)))
  /\ (fst (verifyDevice env (TelemetryDto.deviceId dto) w) = Ok false <->
      ConfigService.registryEnabled (config env) = true
      /\ registry_connected w = true
      /\ exists status payload,
           GetDevice env (TelemetryDto.deviceId dto) (List.length (lookups w))
             = Grpc.Response status payload)
  /\ (ConfigService.registryEnabled (config env) = true ->
      registry_connected w = true ->
      forall payload,
        GetDevice env (TelemetryDto.deviceId dto) (List.length (lookups w))
          = Grpc.Response "STATUS_SUCCESS" payload ->
        fst (verifyDevice env (TelemetryDto.deviceId dto) w) = Ok false)
  /\ (fst (verifyDevice env (TelemetryDto.deviceId dto) w) = Ok false ->
      processTelemetry env dto w =
        (Throw (Js.newError (notFoundMessage (TelemetryDto.deviceId dto))),
         snd (verifyDevice env (TelemetryDto.deviceId dto) w))
      /\ sends (snd (processTelemetry env dto w)) = sends w
      /\ published (snd (processTelemetry env dto w)) = published w
      /\ status_of (Js.newError (notFoundMessage (TelemetryDto.deviceId dto)))
           = STATUS_DEVICE_NOT_FOUND).
Proof.
  split; [|split; [|split]].
  - intros Hdown.
    pose proof (verifyDevice_fails_open env _ w Hdown) as Hok.
    split; [exact Hok | apply process_verified, Hok].
  - apply verifyDevice_false_iff.
  - intros Hen Hcon payload Hans.
    apply verifyDevice_false_iff. split; [exact Hen|]. split; [exact Hcon|].
    exists "STATUS_SUCCESS", payload. exact Hans.
  - intros Hfalse. rewrite (process_rejected env dto w Hfalse).
    split; [reflexivity|]. cbn [snd].
    destruct (verifyDevice_frame env (TelemetryDto.deviceId dto) w)
      as (_ & _ & _ & _ & Hs & Hp).
    split; [exact Hs|]. split; [exact Hp | apply not_found_status].
Qed.

(** C8, as amended. When a request passed the device check and has a
    metric, and every send to the raw topic fails, the third failure ends
    the loop: nothing is published, the HTTP surface answers 400 with
    [success = false], no event id and the message of the last error (the
    answer it gives to every failure), and the RPC surface answers with an
    empty [event_id] and the status read off that message, which is
    internal_error (4) when the message contains neither "not found" nor
    "validation". *)
Theorem publication_failure (dto : TelemetryDto.t) (w : World)
  (event : RawEvent.t) (w2 : World) (failure : nat -> Js.Error) :
  fst (verifyDevice env (TelemetryDto.deviceId dto) w) = Ok true ->
  transformToKafkaEvent env dto
    (snd (verifyDevice env (TelemetryDto.deviceId dto) w)) = (Ok event, w2) ->
  kafka_connected w = true ->
  (forall n, producer_send env event n = Some (failure n)) ->
  exists w3,
    processTelemetry env dto w
      = (Throw (failure (List.length (sends w) + 2)%nat), w3)
    /\ sends w3 = (sends w ++ [event; event; event])%list
    /\ published w3 = published w
    /\ receiveTelemetry env dto w =
         (Ok (HttpResponse.mk 400 false None
                (Js.message (failure (List.length (sends w) + 2)%nat))), w3)
    /\ (forall data w0,
          transformGrpcToDto env data w0 = (Ok dto, w) ->
          exists timestamp w4,
            sendMeasurements env data w0 =
              (Ok (SendMeasurementsResponse.mk "1.0.0"
                     (status_of (failure (List.length (sends w) + 2)%nat))
                     (Js.message (failure (List.length (sends w) + 2)%nat))
                     "" timestamp), w4)
            /\ published w4 = published w)
    /\ (Js.includes "not found"
          (Js.message (failure (List.length (sends w) + 2)%nat)) = false ->
        Js.includes "validation"
          (Js.message (failure (List.length (sends w) + 2)%nat)) = false ->
        status_of (failure (List.length (sends w) + 2)%nat)
          = STATUS_INTERNAL_ERROR).
Proof.
  intros Hver Htr Hcon Hfail.
  destruct (verifyDevice_frame env (TelemetryDto.deviceId dto) w)
    as (K1 & _ & _ & _ & S1 & P1).
  destruct (transform_spec env dto _ event w2 Htr)
    as (_ & _ & _ & K2 & S2 & P2 & _).
  assert (Hcon2 : kafka_connected w2 = true) by congruence.
  destruct (produce_all_fail env event failure w2 Hcon2 Hfail)
    as (w3 & Hprod & S3 & P3 & _).
  assert (Hproc : processTelemetry env dto w
                  = (Throw (failure (List.length (sends w) + 2)%nat), w3)).
  { rewrite (process_verified env dto w Hver).
    unfold accept, bind at 1. rewrite Htr.
    unfold bind at 1. rewrite Hprod.
    replace (sends w2) with (sends w) by congruence. reflexivity. }
  exists w3.
  split; [exact Hproc|].
  split; [congruence|].
  split; [congruence|].
  split; [apply receive_failure, Hproc|].
  split.
  - intros data w0 Hdto.
    destruct (send_failure env data w0 dto w _ w3 Hdto Hproc)
      as (timestamp & w4 & Hsend & _ & P4).
    exists timestamp, w4. split; [exact Hsend | congruence].
  - intros Hnf Hval. unfold status_of. rewrite Hnf, Hval. reflexivity.
Qed.


End GatewayClaims.

(** ** The Gateway on the scenarios *)

Import GatewayScenario.

(** C7 on a Registry that knows the device: it answers [GetDevice] for D1
    with STATUS_SUCCESS and the record of D1, and the reading of D1 is
    rejected as "not found" on both surfaces; nothing is sent. *)
Lemma device_check_witness :
  GetDevice registry_knows_device "D1" 0 =
    Grpc.Response "STATUS_SUCCESS"
      (Some (Proto.Device.mk (Some "D1") (Some "wearable") (Some "P1")
               (Some "DEVICE_STATUS_ACTIVE") None None None))
  /\ fst (verifyDevice registry_knows_device "D1" initial) = Ok false
  /\ fst (processTelemetry registry_knows_device reading initial) =
       Throw (Js.newError "Device D1 not found in registry")
  /\ sends (snd (processTelemetry registry_knows_device reading initial)) = []
  /\ published (snd (processTelemetry registry_knows_device reading initial)) = []
  /\ fst (receiveTelemetry registry_knows_device reading initial) =
       Ok (HttpResponse.mk 400 false None "Device D1 not found in registry")
  /\ fst (sendMeasurements registry_knows_device reading_rpc initial) =
       Ok (SendMeasurementsResponse.mk "1.0.0" STATUS_DEVICE_NOT_FOUND
             "Device D1 not found in registry" "" "t0").
Proof.
  pose proof (proj1 (proj2 (proj2 (device_check registry_knows_device reading
                                      initial)))
                eq_refl eq_refl _ eq_refl) as Hfalse.
  destruct (proj2 (proj2 (proj2 (device_check registry_knows_device reading
                                    initial))) Hfalse)
    as (Hproc & Hs & Hp & _).
  split; [reflexivity|]. split; [exact Hfalse|].
  split; [rewrite Hproc; reflexivity|].
  split; [exact Hs|]. split; [exact Hp|].
  split; reflexivity.
Defined.

(** Any other answer fares the same: STATUS_INTERNAL_ERROR is reported to
    the caller as a device that was not found. *)
Example internal_error_reported_as_not_found :
  GetDevice registry_internal_error "D1" 0 =
    Grpc.Response "STATUS_INTERNAL_ERROR" None
  /\ fst (sendMeasurements registry_internal_error reading_rpc initial) =
       Ok (SendMeasurementsResponse.mk "1.0.0" STATUS_DEVICE_NOT_FOUND
             "Device D1 not found in registry" "" "t0")
  /\ sends (snd (sendMeasurements registry_internal_error reading_rpc initial)) = [].
Proof. vm_compute. repeat split. Qed.

(** Failing open, run: the request is accepted on both surfaces. *)
Example unreachable_registry_accepts :
  fst (receiveTelemetry registry_unreachable reading initial) =
    Ok (HttpResponse.mk 200 true (Some "evt_u0") "Telemetry received and processed")
  /\ published (snd (receiveTelemetry registry_unreachable reading initial))
       = [raw_reading]
  /\ fst (sendMeasurements registry_unreachable reading_rpc initial) =
       Ok (SendMeasurementsResponse.mk "1.0.0" STATUS_SUCCESS
             "Measurements received and processed" "evt_u0" "t0").
Proof. vm_compute. repeat split. Qed.

(** C8, counterexample. Every send fails. The HTTP surface answers 400, the
    status the claim keeps for validation failures; and when the broker's
    error reads "Broker 1 not found ...", the RPC surface answers
    device_not_found (3), not internal_error (4). *)
Lemma publish_failure_is_bad_request :
  fst (receiveTelemetry broker_down reading initial) =
    Ok (HttpResponse.mk 400 false None "Connection error: broker unavailable")
  /\ sends (snd (receiveTelemetry broker_down reading initial)) =
       [raw_reading; raw_reading; raw_reading]
  /\ published (snd (receiveTelemetry broker_down reading initial)) = []
  /\ fst (sendMeasurements broker_missing reading_rpc initial) =
       Ok (SendMeasurementsResponse.mk "1.0.0" STATUS_DEVICE_NOT_FOUND
             "Broker 1 not found in the cached metadata" "" "t0").
Proof. vm_compute. repeat split. Qed.

(** C8 on a broker that is down. *)
Lemma publication_failure_witness :
  exists w3,
    processTelemetry broker_down reading initial = (Throw broker_unavailable, w3)
    /\ sends w3 = [raw_reading; raw_reading; raw_reading]
    /\ published w3 = []
    /\ receiveTelemetry broker_down reading initial =
         (Ok (HttpResponse.mk 400 false None "Connection error: broker unavailable"),
          w3)
    /\ status_of broker_unavailable = STATUS_INTERNAL_ERROR.
Proof.
  destruct (publication_failure broker_down reading initial raw_reading
              (snd (transformToKafkaEvent broker_down reading
                      (snd (verifyDevice broker_down "D1" initial))))
              (fun _ => broker_unavailable)
              eq_refl eq_refl eq_refl (fun _ => eq_refl))
    as (w3 & Hproc & Hs & Hp & Hhttp & _ & Hstatus).
  exists w3. split; [exact Hproc|]. split; [exact Hs|]. split; [exact Hp|].
  split; [exact Hhttp|]. apply Hstatus; reflexivity.
Defined.



End GatewayFacts.

(** ** Across the stages *)

Module PipelineFacts.
Import EnrichmentView EnrichmentFacts.

(** C6. The trace id along a lineage, for the two stages at hand. The
    Gateway generates the trace id of a raw event, ["trace_"] followed by a
    fresh uuid, which is never the empty string. Whatever batch the
    Enricher consumes, every event it hands to its producer was built for
    a consumed event, and carries that event's trace id unchanged whenever
    the consumed event carries one that is not the empty string; so an
    event of the lineage of [raw], which carries the trace id of [raw],
    comes out of the Enricher with the trace id of [raw]. *)
Theorem trace_id_propagation (genv : Gateway.Env) (dto : Gateway.TelemetryDto.t)
  (gw : Gateway.World) (raw : Gateway.RawEvent.t) (gw' : Gateway.World) :
  Gateway.transformToKafkaEvent genv dto gw = (Ok raw, gw') ->
  Gateway.RawEvent.trace_id raw =
    "trace_" ++ Gateway.uuid genv (S (Gateway.uuids_drawn gw))
  /\ Gateway.RawEvent.trace_id raw <> ""
  /\ forall env batch w e,
       In e (handed w (snd (Enrichment.run env batch w))) ->
       exists ev,
         consumed env batch ev
         /\ Enrichment.EnrichedTelemetryEvent.source_event_id e =
              Enrichment.NormalizedTelemetryEvent.event_id ev
         /\ (forall t,
               Enrichment.NormalizedTelemetryEvent.trace_id ev = Some t ->
               t <> "" ->
               Enrichment.EnrichedTelemetryEvent.trace_id e = t)
         /\ (Enrichment.NormalizedTelemetryEvent.trace_id ev =
               Some (Gateway.RawEvent.trace_id raw) ->
             Enrichment.EnrichedTelemetryEvent.trace_id e =
               Gateway.RawEvent.trace_id raw).
Proof.
  intros Hraw.
  pose proof (proj1 (proj2 (GatewayFacts.transform_spec genv dto gw raw gw' Hraw)))
    as Htrace.
  assert (Hne : Gateway.RawEvent.trace_id raw <> "")
    by (rewrite Htrace; discriminate).
  split; [exact Htrace|]. split; [exact Hne|].
  intros env batch w e Hin.
  destruct (run_outputs env batch w) as (news & pubs & _ & _ & Hs & _ & _ & Hall).
  rewrite (handed_app _ _ _ Hs) in Hin.
  rewrite Forall_forall in Hall.
  destruct (Hall e Hin) as (ev & Hcons & p & o & locals & w3 & Hb & _).
  destruct Hb as (Hsrc & _ & _ & Hcopy & _).
  assert (Hkeep : forall t,
             Enrichment.NormalizedTelemetryEvent.trace_id ev = Some t ->
             t <> "" -> Enrichment.EnrichedTelemetryEvent.trace_id e = t).
  { intros t Ht Hnonempty. rewrite Ht in Hcopy. cbn in Hcopy.
    destruct (Js.truthy t) eqn:E; [exact Hcopy|].
    unfold Js.truthy in E. apply negb_false_iff, String.eqb_eq in E.
    now elim Hnonempty. }
  exists ev. split; [exact Hcons|]. split; [exact Hsrc|].
  split; [exact Hkeep|].
  intros Hlineage. exact (Hkeep _ Hlineage Hne).
Qed.

(** C6 on the reading of D1: its trace id is minted at the Gateway, and the
    normalized event of its lineage comes out of the Enricher with it. *)
Lemma trace_id_propagation_witness :
  Gateway.RawEvent.trace_id GatewayScenario.raw_reading = "trace_u1"
  /\ Forall
       (fun e => Enrichment.EnrichedTelemetryEvent.trace_id e = "trace_u1")
       (handed Enrichment.initial
          (snd (Enrichment.run Scenario.registry_empty
                  [Scenario.message "normalized_reading" 0] Enrichment.initial)))
  /\ List.length
       (handed Enrichment.initial
          (snd (Enrichment.run Scenario.registry_empty
                  [Scenario.message "normalized_reading" 0] Enrichment.initial)))
     = 1%nat.
Proof.
  destruct (trace_id_propagation GatewayScenario.registry_unreachable
              GatewayScenario.reading Gateway.initial GatewayScenario.raw_reading
              (snd (Gateway.transformToKafkaEvent
                      GatewayScenario.registry_unreachable
                      GatewayScenario.reading Gateway.initial))
              eq_refl)
    as (Hminted & _ & Hcopied).
  split; [exact Hminted|]. split; [|reflexivity].
  apply Forall_forall. intros e Hin.
  destruct (Hcopied Scenario.registry_empty
              [Scenario.message "normalized_reading" 0] Enrichment.initial e Hin)
    as (ev & (m & bytes & Hm & Hval & Hparse) & _ & _ & Hlineage).
  apply Hlineage.
  destruct Hm as [<- | []]. cbn in Hval. injection Hval as <-.
  vm_compute in Hparse. injection Hparse as <-. reflexivity.
Defined.

(** An input whose trace id is the empty string, or is missing, is outside
    every lineage of the Gateway; the Enricher gives its output a trace id
    of its own. *)
Example empty_trace_id_replaced :
  Enrichment.NormalizedTelemetryEvent.trace_id Scenario.blank_trace = Some ""
  /\ map Enrichment.EnrichedTelemetryEvent.trace_id
       (handed Enrichment.initial
          (snd (Enrichment.enrichTelemetry Scenario.registry_empty
                  Scenario.blank_trace Enrichment.initial)))
     = ["trace_u0"].
Proof. vm_compute. repeat split. Qed.

End PipelineFacts.

(** * More of the Enricher *)

Module RetryFacts.
Import Enrichment EnrichmentView RetryView.

Lemma waits_S (env : Env) (a : Z) (n : nat) :
  waits env a (S n) =
    ConfigService.registryRetryDelayMs (config env) * a :: waits env (a + 1) n.
Proof.
  unfold waits. cbn [seq map]. rewrite Z.add_0_r. f_equal.
  rewrite <- seq_shift, map_map. apply map_ext. intros k. f_equal. lia.
Qed.

Section Retry.
Variable env : Env.
Context {A B : Type}.
Variable call : Rpc.
Variable peer : nat -> Grpc.Reply A.
Variable notFound : string.
Variable build : option A -> B.

Lemma attempt_rejects (w : World) :
  rejecting (peer (List.length (rpcs w))) = true ->
  attempt_of call peer notFound build w =
    (Throw (rejection (peer (List.length (rpcs w)))), add_rpc call w).
Proof.
  unfold attempt_of, bind, unary, rejecting, rejection, settle.
  destruct (peer (List.length (rpcs w))) as [error|status payload]; cbn.
  - destruct (Grpc.is_not_found error); [discriminate | reflexivity].
  - reflexivity.
Qed.

Lemma attempt_settles (w : World) :
  rejecting (peer (List.length (rpcs w))) = false ->
  exists w',
    attempt_of call peer notFound build w =
      (Ok (settled build (peer (List.length (rpcs w)))), w')
    /\ rpcs w' = (rpcs w ++ [call])%list
    /\ timers w' = timers w.
Proof.
  unfold attempt_of, bind, unary, rejecting, settled, settle.
  destruct (peer (List.length (rpcs w))) as [error|status payload]; cbn.
  - destruct (Grpc.is_not_found error); [|discriminate].
    intros _. eexists. split; [reflexivity|]. split; reflexivity.
  - discriminate.
Qed.

(** One turn of the loop whose attempt rejected: the warning, the wait
    unless this was the last attempt, and the next turn. *)
Lemma loop_after_rejection {C : Type} (operation : M World C)
  (operationName : string) (n : nat) (a : Z) (lastError : option Js.Error)
  (w : World) (error : Js.Error) (w1 : World) :
  operation w = (Throw error, w1) ->
  callWithRetry_from env (S n) a lastError operation operationName w =
    callWithRetry_from env n (a + 1) (Some error) operation operationName
      ((if a <? ConfigService.registryMaxRetries (config env)
        then add_timer (ConfigService.registryRetryDelayMs (config env) * a)
        else fun w0 => w0)
         (add_log
            (LWarn,
             operationName ++ " failed (attempt " ++ Js.show a ++ "/"
             ++ Js.show (ConfigService.registryMaxRetries (config env)) ++ ")")
            w1)).
Proof.
  intros Hop.
  change (callWithRetry_from env (S n) a lastError operation operationName w)
    with (try_catch operation
            (fun error =>
               (log LWarn
                  (operationName ++ " failed (attempt " ++ Js.show a ++ "/"
                   ++ Js.show (ConfigService.registryMaxRetries (config env))
                   ++ ")") ;;;
                (if a <? ConfigService.registryMaxRetries (config env)
                 then sleep (ConfigService.registryRetryDelayMs (config env) * a)
                 else ret tt) ;;;
                callWithRetry_from env n (a + 1) (Some error) operation
                  operationName)%async) w).
  unfold try_catch. rewrite Hop. unfold bind, log, effect.
  destruct (a <? ConfigService.registryMaxRetries (config env)); reflexivity.
Qed.

Lemma loop_after_success {C : Type} (operation : M World C)
  (operationName : string) (n : nat) (a : Z) (lastError : option Js.Error)
  (w : World) (v : C) (w1 : World) :
  operation w = (Ok v, w1) ->
  callWithRetry_from env (S n) a lastError operation operationName w = (Ok v, w1).
Proof.
  intros Hop. cbn [callWithRetry_from]. unfold try_catch. rewrite Hop.
  reflexivity.
Qed.

(** The loop, from attempt [a] with [S n] turns left of which the last is
    turn number [maxRetries], against a peer that rejects every time. *)
Lemma loop_exhausted (operationName : string) :
  (forall i, rejecting (peer i) = true) ->
  forall n a lastError w,
    a + Z.of_nat n = ConfigService.registryMaxRetries (config env) ->
    exists w',
      callWithRetry_from env (S n) a lastError
        (attempt_of call peer notFound build) operationName w =
        (Throw (rejection (peer (List.length (rpcs w) + n)%nat)), w')
      /\ rpcs w' = (rpcs w ++ repeat call (S n))%list
      /\ timers w' = (timers w ++ waits env a n)%list.
Proof.
  intros Hrej. induction n as [|n IH]; intros a lastError w Ha.
  - rewrite (loop_after_rejection _ _ _ _ _ _ _ _ (attempt_rejects w (Hrej _))).
    cbn in Ha.
    replace (a <? ConfigService.registryMaxRetries (config env)) with false
      by (symmetry; apply Z.ltb_ge; lia).
    cbn. rewrite Nat.add_0_r. eexists. split; [reflexivity|].
    cbn. rewrite app_nil_r. split; reflexivity.
  - rewrite (loop_after_rejection _ _ _ _ _ _ _ _ (attempt_rejects w (Hrej _))).
    replace (a <? ConfigService.registryMaxRetries (config env)) with true
      by (symmetry; apply Z.ltb_lt; lia).
    match goal with
    | |- context [callWithRetry_from env (S n) (a + 1) ?l _ _ ?w0] =>
        destruct (IH (a + 1) l w0 ltac:(lia)) as (w' & Heq & Hr & Ht);
        rewrite Heq
    end.
    cbn [rpcs timers add_timer add_log add_rpc] in Hr, Ht.
    exists w'. split.
    + cbn [rpcs add_timer add_log add_rpc].
      rewrite length_app. cbn [List.length].
      replace (List.length (rpcs w) + 1 + n)%nat
        with (List.length (rpcs w) + S n)%nat by lia.
      reflexivity.
    + split.
      * rewrite Hr, <- app_assoc. reflexivity.
      * rewrite Ht, <- app_assoc, waits_S. reflexivity.
Qed.

(** The same loop against a peer whose first [j] replies reject and whose
    next reply does not: that reply ends the loop. *)
Lemma loop_recovers (operationName : string) :
  forall j n a lastError w,
    (j <= n)%nat ->
    a + Z.of_nat n = ConfigService.registryMaxRetries (config env) ->
    (forall i, (i < j)%nat ->
       rejecting (peer (List.length (rpcs w) + i)%nat) = true) ->
    rejecting (peer (List.length (rpcs w) + j)%nat) = false ->
    exists w',
      callWithRetry_from env (S n) a lastError
        (attempt_of call peer notFound build) operationName w =
        (Ok (settled build (peer (List.length (rpcs w) + j)%nat)), w')
      /\ rpcs w' = (rpcs w ++ repeat call (S j))%list
      /\ timers w' = (timers w ++ waits env a j)%list.
Proof.
  induction j as [|j IH]; intros n a lastError w Hjn Ha Hrej Hok.
  - rewrite Nat.add_0_r in Hok.
    destruct (attempt_settles w Hok) as (w' & Heq & Hr & Ht).
    rewrite (loop_after_success _ _ _ _ _ _ _ _ Heq).
    rewrite Nat.add_0_r. exists w'. split; [reflexivity|].
    split; [exact Hr|]. cbn. rewrite app_nil_r. exact Ht.
  - destruct n as [|n]; [lia|].
    assert (H0 : rejecting (peer (List.length (rpcs w))) = true).
    { specialize (Hrej 0%nat ltac:(lia)). now rewrite Nat.add_0_r in Hrej. }
    rewrite (loop_after_rejection _ _ _ _ _ _ _ _ (attempt_rejects w H0)).
    replace (a <? ConfigService.registryMaxRetries (config env)) with true
      by (symmetry; apply Z.ltb_lt; lia).
    match goal with
    | |- context [callWithRetry_from env (S n) (a + 1) ?l _ _ ?w0] =>
        destruct (IH n (a + 1) l w0 ltac:(lia) ltac:(lia)) as (w' & Heq & Hr & Ht)
    end.
    + intros i Hi. cbn [rpcs add_timer add_log add_rpc].
      rewrite length_app. cbn [List.length].
      replace (List.length (rpcs w) + 1 + i)%nat
        with (List.length (rpcs w) + S i)%nat by lia.
      apply Hrej. lia.
    + cbn [rpcs add_timer add_log add_rpc].
      rewrite length_app. cbn [List.length].
      replace (List.length (rpcs w) + 1 + j)%nat
        with (List.length (rpcs w) + S j)%nat by lia.
      exact Hok.
    + rewrite Heq.
      cbn [rpcs timers add_timer add_log add_rpc] in Hr, Ht.
      exists w'. split.
      * cbn [rpcs add_timer add_log add_rpc].
        rewrite length_app. cbn [List.length].
        replace (List.length (rpcs w) + 1 + j)%nat
          with (List.length (rpcs w) + S j)%nat by lia.
        reflexivity.
      * split.
        -- rewrite Hr, <- app_assoc. reflexivity.
        -- rewrite Ht, <- app_assoc, waits_S. reflexivity.
Qed.

Lemma guarded_on {C : Type} (operation : M World (option C))
  (operationName what : string) (w : World) :
  registry_on env w ->
  guarded env operation operationName what w =
    callWithRetry env operation operationName w.
Proof.
  intros (Hen & Hcon). unfold guarded. rewrite Hen. cbn [negb].
  unfold bind, is_connected. rewrite Hcon. reflexivity.
Qed.

(** A lookup against a peer that rejects every time: [maxRetries] calls,
    the waits between them, and the error of the last reply. *)
Lemma lookup_exhausted (operationName what : string) (w : World) :
  registry_on env w ->
  1 <= ConfigService.registryMaxRetries (config env) ->
  (forall i, rejecting (peer i) = true) ->
  exists w',
    guarded env (attempt_of call peer notFound build) operationName what w =
      (Throw
         (rejection
            (peer (List.length (rpcs w)
                   + (Z.to_nat (ConfigService.registryMaxRetries (config env)) - 1))%nat)),
       w')
    /\ rpcs w' =
         (rpcs w
          ++ repeat call (Z.to_nat (ConfigService.registryMaxRetries (config env))))%list
    /\ timers w' =
         (timers w
          ++ waits env 1
               (Z.to_nat (ConfigService.registryMaxRetries (config env)) - 1))%list
    /\ looked_up w w'.
Proof.
  intros Hon Hmax Hrej. rewrite (guarded_on _ _ _ _ Hon). unfold callWithRetry.
  destruct (Z.to_nat (ConfigService.registryMaxRetries (config env))) as [|n] eqn:En;
    [lia|].
  destruct (loop_exhausted operationName Hrej n 1 None w ltac:(lia))
    as (w' & Heq & Hr & Ht).
  exists w'. cbn [Nat.sub]. rewrite Nat.sub_0_r.
  split; [exact Heq|]. split; [exact Hr|]. split; [exact Ht|].
  pose proof (EnrichmentFacts.lookup_only_callWithRetry_from env
                (attempt_of call peer notFound build) operationName) as L.
  assert (Hop : lookup_only (attempt_of call peer notFound build)).
  { unfold attempt_of. apply EnrichmentFacts.lookup_only_bind.
    - apply EnrichmentFacts.lookup_only_unary.
    - intros reply. apply EnrichmentFacts.lookup_only_settle. }
  specialize (L Hop (S n) 1 None w). rewrite Heq in L. exact L.
Qed.

(** A lookup whose first [j] replies reject and whose next reply does not,
    with attempts to spare: [j + 1] calls, [j] waits, and what that reply
    settles. *)
Lemma lookup_recovers (operationName what : string) (w : World) (j : nat) :
  registry_on env w ->
  Z.of_nat j < ConfigService.registryMaxRetries (config env) ->
  (forall i, (i < j)%nat ->
     rejecting (peer (List.length (rpcs w) + i)%nat) = true) ->
  rejecting (peer (List.length (rpcs w) + j)%nat) = false ->
  exists w',
    guarded env (attempt_of call peer notFound build) operationName what w =
      (Ok (settled build (peer (List.length (rpcs w) + j)%nat)), w')
    /\ rpcs w' = (rpcs w ++ repeat call (S j))%list
    /\ timers w' = (timers w ++ waits env 1 j)%list
    /\ looked_up w w'.
Proof.
  intros Hon Hj Hrej Hok. rewrite (guarded_on _ _ _ _ Hon). unfold callWithRetry.
  destruct (Z.to_nat (ConfigService.registryMaxRetries (config env))) as [|n] eqn:En;
    [lia|].
  destruct (loop_recovers operationName j n 1 None w ltac:(lia) ltac:(lia) Hrej Hok)
    as (w' & Heq & Hr & Ht).
  exists w'. split; [exact Heq|]. split; [exact Hr|]. split; [exact Ht|].
  pose proof (EnrichmentFacts.lookup_only_callWithRetry_from env
                (attempt_of call peer notFound build) operationName) as L.
  assert (Hop : lookup_only (attempt_of call peer notFound build)).
  { unfold attempt_of. apply EnrichmentFacts.lookup_only_bind.
    - apply EnrichmentFacts.lookup_only_unary.
    - intros reply. apply EnrichmentFacts.lookup_only_settle. }
  specialize (L Hop (S n) 1 None w). rewrite Heq in L. exact L.
Qed.

(** With no attempt configured the operation is never run. *)
Lemma lookup_without_attempts {C : Type} (operation : M World (option C))
  (operationName what : string) (w : World) :
  registry_on env w ->
  ConfigService.registryMaxRetries (config env) <= 0 ->
  guarded env operation operationName what w =
    (Throw (Js.newError (operationName ++ " failed")),
     add_log
       (LError,
        operationName ++ " failed after "
        ++ Js.show (ConfigService.registryMaxRetries (config env)) ++ " attempts")
       w).
Proof.
  intros Hon Hmax. rewrite (guarded_on _ _ _ _ Hon). unfold callWithRetry.
  replace (Z.to_nat (ConfigService.registryMaxRetries (config env))) with 0%nat
    by lia.
  reflexivity.
Qed.

End Retry.

Section DeviceLookup.
Variable env : Env.

(** X1. [getDevice] against a Registry every call of which is rejected (on
    a gRPC error other than NOT_FOUND, or on an answer, whose status is
    [===] neither 1 nor 2) makes exactly
    [maxRetries] calls, waits [delay * 1], ..., [delay * (maxRetries - 1)]
    between them and not after the last, and rejects with the error of the
    last reply. *)
Theorem getDevice_gives_up (deviceId : string) (w : World) :
  registry_on env w ->
  1 <= ConfigService.registryMaxRetries (config env) ->
  (forall i, rejecting (GetDevice env deviceId i) = true) ->
  exists w',
    getDevice env deviceId w =
      (Throw
         (rejection
            (GetDevice env deviceId
               (List.length (rpcs w)
                + (Z.to_nat (ConfigService.registryMaxRetries (config env)) - 1))%nat)),
       w')
    /\ rpcs w' =
         (rpcs w
          ++ repeat (device_call env deviceId)
               (Z.to_nat (ConfigService.registryMaxRetries (config env))))%list
    /\ timers w' =
         (timers w
          ++ waits env 1
               (Z.to_nat (ConfigService.registryMaxRetries (config env)) - 1))%list.
Proof.
  intros Hon Hmax Hrej.
  destruct (lookup_exhausted env (device_call env deviceId) (GetDevice env deviceId)
              ("Device " ++ deviceId ++ " not found in registry")
              (device_of deviceId) "GetDevice" "device lookup" w Hon Hmax Hrej)
    as (w' & Heq & Hr & Ht & _).
  exists w'. split; [exact Heq|]. split; assumption.
Qed.

(** X2. The one reply that ends a device lookup before the attempts run
    out is the gRPC error NOT_FOUND: after [j] rejected calls, with
    [j < maxRetries], it ends the lookup after [j + 1] calls and [j] waits,
    with [null], and is not retried. An answer of the Registry is always
    among the rejected calls, whatever its status and payload, so the
    lookup never resolves with a device. *)
Theorem getDevice_ends_on_not_found (deviceId : string) (w : World) (j : nat)
  (error : Js.Error) :
  registry_on env w ->
  Z.of_nat j < ConfigService.registryMaxRetries (config env) ->
  (forall i, (i < j)%nat ->
     rejecting (GetDevice env deviceId (List.length (rpcs w) + i)%nat) = true) ->
  GetDevice env deviceId (List.length (rpcs w) + j)%nat = Grpc.Failed error ->
  Grpc.is_not_found error = true ->
  (exists w',
     getDevice env deviceId w = (Ok None, w')
     /\ rpcs w' = (rpcs w ++ repeat (device_call env deviceId) (S j))%list
     /\ timers w' = (timers w ++ waits env 1 j)%list)
  /\ (forall status payload,
        rejecting (@Grpc.Response Proto.Device.t status payload) = true
        /\ rejection (@Grpc.Response Proto.Device.t status payload) =
             Js.newError ("Registry returned status: " ++ status))
  /\ (forall w0 device w',
        getDevice env deviceId w0 = (Ok device, w') -> device = None).
Proof.
  intros Hon Hj Hrej Hreply Hnf.
  assert (Hok : rejecting (GetDevice env deviceId (List.length (rpcs w) + j)%nat)
                = false)
    by (rewrite Hreply; cbn; rewrite Hnf; reflexivity).
  destruct (lookup_recovers env (device_call env deviceId) (GetDevice env deviceId)
              ("Device " ++ deviceId ++ " not found in registry")
              (device_of deviceId) "GetDevice" "device lookup" w j Hon Hj Hrej Hok)
    as (w' & Heq & Hr & Ht & _).
  rewrite Hreply in Heq. cbn [settled] in Heq.
  split; [exists w'; split; [exact Heq|]; split; assumption|].
  split; [intros status payload; split; reflexivity|].
  intros w0 device w0'. apply EnrichmentFacts.getDevice_never_finds.
Qed.

(** X3. With [REGISTRY_MAX_RETRIES] at zero or below, an enabled and
    connected Registry client never calls the Registry: each of the three
    lookups rejects at once with "<operation> failed". *)
Theorem no_attempts_no_call (deviceId patientId : string)
  (profileDevice : option string) (w : World) :
  registry_on env w ->
  ConfigService.registryMaxRetries (config env) <= 0 ->
  (fst (getDevice env deviceId w) = Throw (Js.newError "GetDevice failed")
   /\ rpcs (snd (getDevice env deviceId w)) = rpcs w)
  /\ (fst (getPatient env patientId w) = Throw (Js.newError "GetPatient failed")
      /\ rpcs (snd (getPatient env patientId w)) = rpcs w)
  /\ (fst (getThresholdProfile env patientId profileDevice w)
        = Throw (Js.newError "GetThresholdProfile failed")
      /\ rpcs (snd (getThresholdProfile env patientId profileDevice w)) = rpcs w).
Proof.
  intros Hon Hmax.
  unfold getDevice, getPatient, getThresholdProfile.
  rewrite !(lookup_without_attempts env _ _ _ w Hon Hmax).
  repeat split.
Qed.

End DeviceLookup.

Section Step2.
Variable env : Env.

Lemma registry_on_looked_up (w w' : World) :
  looked_up w w' -> registry_on env w -> registry_on env w'.
Proof.
  intros (R & _) (Hen & Hcon). split; [exact Hen | congruence].
Qed.

(** When [getPatient] rejects, the [try] block is left at once: the
    threshold lookup is never started and the locals stay empty. *)
Lemma lookups_patient_rejected (patientId deviceId : string) (w : World) :
  registry_on env w ->
  1 <= ConfigService.registryMaxRetries (config env) ->
  (forall i, rejecting (GetPatient env patientId i) = true) ->
  exists w',
    lookups env patientId deviceId w = (Ok no_locals, w')
    /\ rpcs w' =
         (rpcs w
          ++ repeat (patient_call env patientId)
               (Z.to_nat (ConfigService.registryMaxRetries (config env))))%list.
Proof.
  intros Hon Hmax Hrej.
  destruct (lookup_exhausted env (patient_call env patientId)
              (GetPatient env patientId)
              ("Patient " ++ patientId ++ " not found in registry")
              (patient_of patientId) "GetPatient" "patient lookup" w Hon Hmax Hrej)
    as (w1 & Heq & Hr & _).
  unfold lookups, try_catch, bind at 1.
  change (getPatient env patientId w)
    with (guarded env
            (attempt_of (patient_call env patientId) (GetPatient env patientId)
               ("Patient " ++ patientId ++ " not found in registry")
               (patient_of patientId)) "GetPatient" "patient lookup" w).
  rewrite Heq. cbn. eexists. split; [reflexivity | exact Hr].
Qed.

(** When [getPatient] settles at its first reply and every
    [GetThresholdProfile] call rejects, the locals keep the patient part. *)
Lemma lookups_profile_rejected (patientId deviceId : string) (w : World) :
  registry_on env w ->
  1 <= ConfigService.registryMaxRetries (config env) ->
  rejecting (GetPatient env patientId (List.length (rpcs w))) = false ->
  (forall i,
     rejecting
       (GetThresholdProfile env patientId
          (if Js.truthy deviceId then Some deviceId else None) i) = true) ->
  exists w',
    lookups env patientId deviceId w =
      (Ok (patient_part
             (settled (patient_of patientId)
                (GetPatient env patientId (List.length (rpcs w))))), w')
    /\ rpcs w' =
         (rpcs w ++ [patient_call env patientId]
          ++ repeat (profile_call env patientId deviceId)
               (Z.to_nat (ConfigService.registryMaxRetries (config env))))%list.
Proof.
  intros Hon Hmax Hok Hrej.
  destruct (lookup_recovers env (patient_call env patientId)
              (GetPatient env patientId)
              ("Patient " ++ patientId ++ " not found in registry")
              (patient_of patientId) "GetPatient" "patient lookup" w 0 Hon
              ltac:(lia))
    as (w1 & Heq & Hr & _ & L1).
  { intros i Hi. lia. }
  { now rewrite Nat.add_0_r. }
  rewrite Nat.add_0_r in Heq.
  unfold lookups, try_catch, bind at 1.
  change (getPatient env patientId w)
    with (guarded env
            (attempt_of (patient_call env patientId) (GetPatient env patientId)
               ("Patient " ++ patientId ++ " not found in registry")
               (patient_of patientId)) "GetPatient" "patient lookup" w).
  rewrite Heq. cbv beta iota.
  set (patient := settled (patient_of patientId)
                    (GetPatient env patientId (List.length (rpcs w)))).
  assert (Hkept : exists w2,
             (match patient with
              | Some p =>
                  (log LDebug "Retrieved patient profile" ;;;
                   ret (Some (PatientProfile.mk (Patient.age p)
                                (mapGenderToString (Patient.gender p))),
                        None, ["patient_registry"]))%async
              | None => ret no_locals
              end) w1 = (Ok (patient_part patient), w2) /\ logged w1 w2).
  { destruct patient as [p|]; cbn.
    - eexists. split; [reflexivity | apply EnrichmentFacts.logged_add_log].
    - eexists. split; [reflexivity | apply EnrichmentFacts.logged_refl]. }
  destruct Hkept as (w2 & Hk & L2).
  unfold bind at 1. rewrite Hk. cbv beta iota.
  assert (Hon2 : registry_on env w2).
  { apply (registry_on_looked_up w1 w2);
      [apply EnrichmentFacts.logged_looked_up, L2|].
    apply (registry_on_looked_up w w1 L1 Hon). }
  destruct (lookup_exhausted env (profile_call env patientId deviceId)
              (GetThresholdProfile env patientId
                 (if Js.truthy deviceId then Some deviceId else None))
              ("Threshold profile not found for patient " ++ patientId)
              profile_of "GetThresholdProfile" "threshold profile lookup" w2
              Hon2 Hmax Hrej)
    as (w3 & Heq3 & Hr3 & _).
  unfold bind at 1.
  change (getThresholdProfile env patientId (Some deviceId) w2)
    with (guarded env
            (attempt_of (profile_call env patientId deviceId)
               (GetThresholdProfile env patientId
                  (if Js.truthy deviceId then Some deviceId else None))
               ("Threshold profile not found for patient " ++ patientId)
               profile_of) "GetThresholdProfile" "threshold profile lookup" w2).
  rewrite Heq3. cbn.
  eexists. split; [reflexivity|].
  cbn. rewrite Hr3. destruct L2 as (_ & R2 & _). rewrite R2, Hr.
  rewrite <- app_assoc. reflexivity.
Qed.

(** Whatever the Registry does, the sources of step 2 name exactly the
    parts it obtained. *)
Lemma lookups_coherent (patientId deviceId : string) (w : World)
  (locals : Locals) (w' : World) :
  lookups env patientId deviceId w = (Ok locals, w') -> coherent locals.
Proof.
  unfold lookups, try_catch, bind.
  destruct (getPatient env patientId w) as [[patient|e] w1];
    [|cbn; intros [= <- _]; reflexivity].
  destruct patient as [p|]; cbn.
  - destruct (getThresholdProfile env patientId (Some deviceId) _)
      as [[[tp|]|e] w2]; cbn; intros [= <- _]; reflexivity.
  - destruct (getThresholdProfile env patientId (Some deviceId) _)
      as [[[tp|]|e] w2]; cbn; intros [= <- _]; reflexivity.
Qed.

Lemma step2_coherent (patientId : option string) (orphan : bool)
  (deviceId : string) (w : World) (locals : Locals) (w' : World) :
  step2 env patientId orphan deviceId w = (Ok locals, w') -> coherent locals.
Proof.
  unfold step2. destruct patientId as [p|].
  - destruct (Js.truthy p && negb orphan)%bool.
    + apply lookups_coherent.
    + intros [= <- _]. reflexivity.
  - intros [= <- _]. reflexivity.
Qed.

End Step2.

Import Scenario Outages.

(** X1 on a Registry that is down: three calls, waits of one and two
    seconds, and the error of the last call. *)
Lemma getDevice_gives_up_witness :
  exists w',
    getDevice registry_down "D1" initial = (Throw unavailable, w')
    /\ rpcs w' =
         [CallGetDevice "D1" 5000; CallGetDevice "D1" 5000;
          CallGetDevice "D1" 5000]
    /\ timers w' = [1000; 2000].
Proof.
  exact (getDevice_gives_up registry_down "D1" initial
           (conj eq_refl eq_refl) ltac:(cbn; lia) (fun _ => eq_refl)).
Defined.

(** X2 on a Registry whose first call fails and whose second ends with
    NOT_FOUND: two calls, one wait, no device. *)
Lemma getDevice_ends_on_not_found_witness :
  exists w',
    getDevice registry_flaky "D1" initial = (Ok None, w')
    /\ rpcs w' = [CallGetDevice "D1" 5000; CallGetDevice "D1" 5000]
    /\ timers w' = [1000].
Proof.
  exact (proj1 (getDevice_ends_on_not_found registry_flaky "D1" initial 1 not_found
                  (conj eq_refl eq_refl) ltac:(cbn; lia)
                  ltac:(intros [|i] Hi; [reflexivity | lia]) eq_refl eq_refl)).
Defined.

(** X3 on a service started with no attempts. *)
Lemma no_attempts_no_call_witness :
  (fst (getDevice registry_untried "D1" initial)
     = Throw (Js.newError "GetDevice failed")
   /\ rpcs (snd (getDevice registry_untried "D1" initial)) = [])
  /\ (fst (getPatient registry_untried "P1" initial)
        = Throw (Js.newError "GetPatient failed")
      /\ rpcs (snd (getPatient registry_untried "P1" initial)) = [])
  /\ (fst (getThresholdProfile registry_untried "P1" (Some "D1") initial)
        = Throw (Js.newError "GetThresholdProfile failed")
      /\ rpcs (snd (getThresholdProfile registry_untried "P1" (Some "D1") initial))
           = []).
Proof.
  exact (no_attempts_no_call registry_untried "D1" "P1" (Some "D1") initial
           (conj eq_refl eq_refl) ltac:(cbn; lia)).
Defined.

End RetryFacts.

Module StageFacts.
Import Enrichment EnrichmentView RetryView StageView.

Section Stage.
Variable env : Env.

(** Once [getDevice] has answered, the one event a call hands to the
    producer is the one steps 1 to 3 built. *)
Lemma handed_steps (ev : NormalizedTelemetryEvent.t) (w : World)
  (device : option Device.t) (w1 : World) :
  getDevice env (NormalizedTelemetryEvent.device_id ev) (entered w)
    = (Ok device, w1) ->
  exists e p o w2 locals w3,
    handed w (snd (enrichTelemetry env ev w)) = [e]
    /\ (p, o) =
         match linked device with
         | Some q => (Some q, false)
         | None => (NormalizedTelemetryEvent.patient_id ev,
                    negb (Js.truthy_opt (NormalizedTelemetryEvent.patient_id ev)))
         end
    /\ looked_up w w1
    /\ logged w1 w2
    /\ step2 env p o (NormalizedTelemetryEvent.device_id ev) w2 = (Ok locals, w3)
    /\ built_from env ev p o locals w3 e
    /\ rpcs (snd (enrichTelemetry env ev w)) = rpcs w3.
Proof.
  intros Hdev.
  destruct (EnrichmentFacts.enrich_steps env ev w device w1 Hdev)
    as (p & o & w2 & locals & w3 & e & w4 & Hpo & L1 & L2 & Hstep & L3 & _ & Hb
        & Hr & Hs & Hp & _ & Heq).
  assert (S4 : sent w4 = sent w).
  { destruct L1 as (_ & _ & _ & S1 & _). destruct L3 as (_ & _ & _ & S3 & _).
    destruct L2 as (_ & _ & _ & _ & _ & S2 & _). congruence. }
  assert (P4 : published w4 = published w).
  { destruct L1 as (_ & _ & _ & _ & P1 & _). destruct L3 as (_ & _ & _ & _ & P3 & _).
    destruct L2 as (_ & _ & _ & _ & _ & _ & P2 & _). congruence. }
  destruct (EnrichmentFacts.enrich_tail env ev w w4 e S4 P4 Heq) as (Hh & Hrpc & _).
  exists e, p, o, w2, locals, w3.
  repeat (split; [assumption || reflexivity|]). congruence.
Qed.

(** One call of [enrichTelemetry] hands nothing to the producer, or the one
    event that steps 1 to 3 built. *)
Lemma handed_cases (ev : NormalizedTelemetryEvent.t) (w : World) :
  handed w (snd (enrichTelemetry env ev w)) = []
  \/ exists e p o w2 locals w3,
       handed w (snd (enrichTelemetry env ev w)) = [e]
       /\ step2 env p o (NormalizedTelemetryEvent.device_id ev) w2 = (Ok locals, w3)
       /\ built_from env ev p o locals w3 e
       /\ (o = true <-> Js.truthy_opt p = false).
Proof.
  destruct (getDevice env (NormalizedTelemetryEvent.device_id ev) (entered w))
    as [[device|error] w1] eqn:Hdev.
  - right.
    destruct (handed_steps ev w device w1 Hdev)
      as (e & p & o & w2 & locals & w3 & Hh & Hpo & _ & _ & Hstep & Hb & _).
    exists e, p, o, w2, locals, w3.
    repeat (split; [assumption|]).
    destruct (linked device) as [q|] eqn:Hl.
    + injection Hpo as -> ->.
      destruct (EnrichmentFacts.linked_some device q Hl) as (d & _ & _ & Ht).
      cbn. rewrite Ht. split; discriminate.
    + injection Hpo as -> ->.
      destruct (Js.truthy_opt (NormalizedTelemetryEvent.patient_id ev)); cbn;
        split; congruence.
  - left.
    destruct (EnrichmentFacts.enrich_device_failure env ev w error w1 Hdev)
      as (-> & L).
    apply EnrichmentFacts.handed_app. cbn. rewrite app_nil_r.
    destruct L as (_ & _ & _ & S1 & _). exact S1.
Qed.

(** With a patient to look up, step 2 is the [try] block of the two
    lookups, and the event carries what it leaves in the locals. *)
Lemma handed_with_patient (ev : NormalizedTelemetryEvent.t) (w : World)
  (device : option Device.t) (w1 : World) (p : string) :
  getDevice env (NormalizedTelemetryEvent.device_id ev) (entered w)
    = (Ok device, w1) ->
  resolved_patient device ev = Some p ->
  exists e w2 locals w3,
    handed w (snd (enrichTelemetry env ev w)) = [e]
    /\ looked_up w w2
    /\ rpcs w2 = rpcs w1
    /\ lookups env p (NormalizedTelemetryEvent.device_id ev) w2 = (Ok locals, w3)
    /\ EnrichedTelemetryEvent.patient_id e = Some p
    /\ EnrichedTelemetryEvent.orphan e = None
    /\ EnrichedTelemetryEvent.patientProfile e = fst (fst locals)
    /\ EnrichedTelemetryEvent.thresholds e = snd (fst locals)
    /\ sources e = or_none (snd locals)
    /\ rpcs (snd (enrichTelemetry env ev w)) = rpcs w3.
Proof.
  intros Hdev Hres.
  destruct (handed_steps ev w device w1 Hdev)
    as (e & q & o & w2 & locals & w3 & Hh & Hpo & L1 & L2 & Hstep & Hb & Hr).
  assert (Hq : q = Some p /\ o = false /\ Js.truthy p = true).
  { unfold resolved_patient in Hres.
    destruct (linked device) as [l|] eqn:Hl.
    - injection Hpo as -> ->. injection Hres as ->.
      destruct (EnrichmentFacts.linked_some device p Hl) as (d & _ & _ & Ht).
      auto.
    - injection Hpo as -> ->.
      destruct (Js.truthy_opt (NormalizedTelemetryEvent.patient_id ev)) eqn:Ht;
        [|discriminate Hres].
      rewrite Hres in Ht. cbn in Ht. auto. }
  destruct Hq as (-> & -> & Ht).
  unfold step2 in Hstep. rewrite Ht in Hstep. cbn in Hstep.
  destruct Hb as (_ & _ & _ & _ & Hpid & Horph & Hprof & Hthr & Hsrc).
  cbn in Hpid. rewrite Ht in Hpid.
  exists e, w2, locals, w3.
  split; [exact Hh|].
  split; [eapply EnrichmentFacts.looked_up_trans;
          [exact L1 | apply EnrichmentFacts.logged_looked_up, L2]|].
  split; [exact (proj1 (proj2 L2))|].
  repeat (split; [assumption|]). exact Hr.
Qed.

Lemma handed_trans (w w1 w2 : World) (n1 n2 : list EnrichedTelemetryEvent.t) :
  sent w1 = (sent w ++ n1)%list ->
  sent w2 = (sent w1 ++ n2)%list ->
  handed w w2 = (handed w w1 ++ handed w1 w2)%list.
Proof.
  intros H1 H2.
  rewrite (EnrichmentFacts.handed_app w w1 n1 H1).
  rewrite (EnrichmentFacts.handed_app w1 w2 n2 H2).
  apply EnrichmentFacts.handed_app. rewrite H2, H1, app_assoc. reflexivity.
Qed.

(** What a delivery hands over is what the handler handed over for the
    parsed event, or nothing. *)
Lemma deliver_handed (message : KafkaMessage.t) (w : World) :
  match KafkaMessage.value message with
  | Some bytes =>
      match JSON_parse env bytes with
      | inl ev =>
          handed w (snd (deliver env message w)) =
            handed (add_log (LDebug, "Received normalized telemetry event") w)
              (snd (enrichTelemetry env ev
                      (add_log (LDebug, "Received normalized telemetry event") w)))
      | inr _ => handed w (snd (deliver env message w)) = []
      end
  | None => handed w (snd (deliver env message w)) = []
  end.
Proof.
  unfold deliver, eachMessage, messageHandler, try_catch, bind.
  destruct (KafkaMessage.value message) as [bytes|].
  - destruct (JSON_parse env bytes) as [ev|syntaxError]; cbn.
    + destruct (enrichTelemetry env ev _) as [[[]|error] w1]; reflexivity.
    + unfold handed. cbn. apply skipn_all.
  - unfold handed. cbn. apply skipn_all.
Qed.

Lemma run_cons (message : KafkaMessage.t) (rest : list KafkaMessage.t)
  (w : World) :
  handed w (snd (run env (message :: rest) w)) =
    (handed w (snd (deliver env message w))
     ++ handed (snd (deliver env message w))
          (snd (run env rest (snd (deliver env message w)))))%list.
Proof.
  destruct (EnrichmentFacts.deliver_outputs env message w)
    as (n1 & p1 & Hr & _ & Hs & _).
  destruct (EnrichmentFacts.run_outputs env rest (snd (deliver env message w)))
    as (n2 & p2 & _ & _ & Hs2 & _).
  assert (Hrun : snd (run env (message :: rest) w)
                 = snd (run env rest (snd (deliver env message w)))).
  { cbn [run]. unfold bind.
    destruct (deliver env message w) as [[[]|error] w1]; cbn in Hr;
      [reflexivity | discriminate Hr]. }
  rewrite Hrun. exact (handed_trans _ _ _ n1 n2 Hs Hs2).
Qed.

(** A property of the events of every single call holds of the events of
    every batch. *)
Lemma run_invariant (P : EnrichedTelemetryEvent.t -> Prop) :
  (forall ev w e, In e (handed w (snd (enrichTelemetry env ev w))) -> P e) ->
  forall batch w e, In e (handed w (snd (run env batch w))) -> P e.
Proof.
  intros HP. induction batch as [|message rest IH]; intros w e Hin.
  - unfold handed in Hin. cbn in Hin. rewrite skipn_all in Hin. destruct Hin.
  - rewrite run_cons in Hin. apply in_app_or in Hin. destruct Hin as [Hin|Hin].
    + pose proof (deliver_handed message w) as Hd.
      destruct (KafkaMessage.value message) as [bytes|];
        [|rewrite Hd in Hin; destruct Hin].
      destruct (JSON_parse env bytes) as [ev|syntaxError];
        [|rewrite Hd in Hin; destruct Hin].
      rewrite Hd in Hin. exact (HP _ _ _ Hin).
    + exact (IH _ _ Hin).
Qed.

Lemma subsequence_app {A : Type} (a a' b b' : list A) :
  subsequence a a' -> subsequence b b' -> subsequence (a ++ b) (a' ++ b').
Proof.
  intros Ha Hb. induction Ha; cbn.
  - exact Hb.
  - now apply sub_skip.
  - now apply sub_take.
Qed.

Lemma subsequence_nil {A : Type} (l : list A) : subsequence [] l.
Proof.
  induction l; [apply sub_nil | now apply sub_skip].
Qed.

(** What one call hands over carries the ids and the vitals of its input. *)
Lemma handed_carried (ev : NormalizedTelemetryEvent.t) (w : World) :
  subsequence (map carried_out (handed w (snd (enrichTelemetry env ev w))))
    [carried_in ev].
Proof.
  destruct (handed_cases ev w)
    as [-> | (e & p & o & w2 & locals & w3 & -> & _ & Hb & _)].
  - apply subsequence_nil.
  - destruct Hb as (Hid & Hdev & Hvit & _).
    cbn. unfold carried_out, carried_in. rewrite Hid, Hdev, Hvit.
    apply sub_take, sub_nil.
Qed.

(** The uuids a call of [build] draws are fresh ones, and the second of
    them (the first when the trace id is kept) is the event id. *)
Lemma build_event_id (ev : NormalizedTelemetryEvent.t) (p : option string)
  (o : bool) (locals : Locals) (w : World) :
  exists e w',
    build env ev p o locals w = (Ok e, w')
    /\ sent w' = sent w
    /\ exists k,
         EnrichedTelemetryEvent.event_id e = uuid env k
         /\ (uuids_drawn w <= k < uuids_drawn w')%nat.
Proof.
  destruct locals as [[patientProfile thresholds] enrichmentSources].
  unfold build.
  destruct (NormalizedTelemetryEvent.trace_id ev) as [t|]; cbn.
  - destruct (Js.truthy t); cbn; eexists; eexists;
      (split; [reflexivity|]); (split; [reflexivity|]);
      eexists; (split; [reflexivity|]); cbn; lia.
  - eexists; eexists; (split; [reflexivity|]); (split; [reflexivity|]);
      eexists; (split; [reflexivity|]); cbn; lia.
Qed.

Lemma enrich_fresh_ids (ev : NormalizedTelemetryEvent.t) (w : World) :
  fresh_ids env w (snd (enrichTelemetry env ev w)).
Proof.
  unfold fresh_ids.
  destruct (getDevice env (NormalizedTelemetryEvent.device_id ev) (entered w))
    as [[device|error] w1] eqn:Hdev.
  - pose proof (EnrichmentFacts.lookup_only_getDevice env
                  (NormalizedTelemetryEvent.device_id ev) (entered w)) as L1.
    rewrite Hdev in L1. cbn [snd] in L1.
    destruct (EnrichmentFacts.resolve_logged device
                (NormalizedTelemetryEvent.patient_id ev) w1)
      as (w2 & Hres & L2).
    remember (match linked device with
              | Some p => (Some p, false)
              | None => (NormalizedTelemetryEvent.patient_id ev,
                         negb (Js.truthy_opt (NormalizedTelemetryEvent.patient_id ev)))
              end) as po eqn:Hpo.
    destruct po as [p o].
    destruct (EnrichmentFacts.step2_total env p o
                (NormalizedTelemetryEvent.device_id ev) w2)
      as (locals & w3 & Hstep & L3 & _).
    destruct (build_event_id ev p o locals w3)
      as (e & w4 & Hbuild & Hs4 & k & Hk & Hrange).
    assert (Heq : enrichTelemetry env ev w =
                    match producer env e (List.length (sent w4)) with
                    | None =>
                        (Ok tt,
                         add_log (LLog, "Successfully enriched and produced telemetry event")
                           (add_published e (add_sent e w4)))
                    | Some error =>
                        (Throw error,
                         add_log (LError, "Error enriching telemetry") (add_sent e w4))
                    end).
    { unfold enrichTelemetry, try_catch, bind at 1.
      change (log LDebug "Enriching telemetry event" w) with (Ok tt, entered w).
      cbv beta iota. unfold bind at 1. rewrite Hdev.
      unfold bind at 1. rewrite Hres.
      unfold bind at 1. rewrite Hstep.
      unfold bind at 1. rewrite Hbuild.
      unfold bind, produceEnrichedTelemetry.
      destruct (producer env e (List.length (sent w4))); reflexivity. }
    assert (U3 : uuids_drawn w3 = uuids_drawn w).
    { destruct L1 as (_ & U1 & _). destruct L2 as (_ & _ & _ & U2 & _).
      destruct L3 as (_ & U3 & _). cbn in U1. congruence. }
    assert (S4 : sent w4 = sent w).
    { destruct L1 as (_ & _ & _ & S1 & _).
      destruct L2 as (_ & _ & _ & _ & _ & S2 & _).
      destruct L3 as (_ & _ & _ & S3 & _). cbn in S1. congruence. }
    rewrite Heq.
    destruct (producer env e (List.length (sent w4))); cbn [snd];
      (split; [cbn; lia|]);
      (rewrite (EnrichmentFacts.handed_app w _ [e]); [|cbn; congruence]);
      (constructor; [|constructor]); exists k; (split; [exact Hk|]); cbn; lia.
  - destruct (EnrichmentFacts.enrich_device_failure env ev w error w1 Hdev)
      as (-> & L).
    destruct L as (_ & U1 & _ & S1 & _). cbn [snd].
    rewrite (EnrichmentFacts.handed_app w _ []);
      [|cbn; rewrite app_nil_r; exact S1].
    split; [cbn; lia | constructor].
Qed.

Lemma fresh_ids_weaken (w w' : World) (a b : nat)
  (l : list EnrichedTelemetryEvent.t) :
  (a <= uuids_drawn w)%nat -> (uuids_drawn w' <= b)%nat ->
  Forall
    (fun e =>
       exists k,
         EnrichedTelemetryEvent.event_id e = uuid env k
         /\ (uuids_drawn w <= k < uuids_drawn w')%nat) l ->
  Forall
    (fun e =>
       exists k,
         EnrichedTelemetryEvent.event_id e = uuid env k /\ (a <= k < b)%nat) l.
Proof.
  intros Ha Hb. apply Forall_impl. intros e (k & Hk & Hr).
  exists k. split; [exact Hk | lia].
Qed.

Lemma deliver_fresh_ids (message : KafkaMessage.t) (w : World) :
  fresh_ids env w (snd (deliver env message w)).
Proof.
  pose proof (deliver_handed message w) as Hd.
  assert (Hu : uuids_drawn (snd (deliver env message w)) =
               uuids_drawn (snd (eachMessage env (messageHandler env) message w))).
  { unfold deliver, bind.
    destruct (eachMessage env (messageHandler env) message w)
      as [[[]|error] w1]; reflexivity. }
  unfold fresh_ids. rewrite Hu. clear Hu.
  unfold eachMessage, messageHandler, try_catch, bind.
  destruct (KafkaMessage.value message) as [bytes|].
  - destruct (JSON_parse env bytes) as [ev|syntaxError]; cbn.
    + rewrite Hd.
      destruct (enrich_fresh_ids ev
                  (add_log (LDebug, "Received normalized telemetry event") w))
        as (Hle & Hall).
      destruct (enrichTelemetry env ev _) as [[[]|error] w1]; cbn in *;
        (split; [exact Hle | exact Hall]).
    + rewrite Hd. split; [lia | constructor].
  - cbn. rewrite Hd. split; [lia | constructor].
Qed.

Lemma run_snd_cons (message : KafkaMessage.t) (rest : list KafkaMessage.t)
  (w : World) :
  snd (run env (message :: rest) w)
  = snd (run env rest (snd (deliver env message w))).
Proof.
  destruct (EnrichmentFacts.deliver_outputs env message w)
    as (n1 & p1 & Hr & _).
  cbn [run]. unfold bind.
  destruct (deliver env message w) as [[[]|error] w1]; cbn in Hr;
    [reflexivity | discriminate Hr].
Qed.

Lemma handed_nil (w : World) : handed w w = [].
Proof. unfold handed. apply skipn_all. Qed.

Lemma run_fresh_ids (batch : list KafkaMessage.t) (w : World) :
  fresh_ids env w (snd (run env batch w)).
Proof.
  revert w. induction batch as [|message rest IH]; intros w.
  - change (snd (run env [] w)) with w. unfold fresh_ids.
    rewrite handed_nil. split; [lia | constructor].
  - unfold fresh_ids. rewrite run_cons, run_snd_cons.
    destruct (deliver_fresh_ids message w) as (H1 & F1).
    destruct (IH (snd (deliver env message w))) as (H2 & F2).
    split; [lia|]. apply Forall_app. split.
    + exact (fresh_ids_weaken _ _ _ _ _ (Nat.le_refl _) H2 F1).
    + exact (fresh_ids_weaken _ _ _ _ _ H1 (Nat.le_refl _) F2).
Qed.

Lemma deliver_at_most_one (message : KafkaMessage.t) (w : World) :
  (List.length (handed w (snd (deliver env message w))) <= 1)%nat.
Proof.
  pose proof (deliver_handed message w) as Hd.
  destruct (KafkaMessage.value message) as [bytes|]; [|rewrite Hd; cbn; lia].
  destruct (JSON_parse env bytes) as [ev|syntaxError]; [|rewrite Hd; cbn; lia].
  rewrite Hd.
  destruct (handed_cases ev (add_log (LDebug, "Received normalized telemetry event") w))
    as [-> | (e & p & o & w2 & locals & w3 & -> & _)]; cbn; lia.
Qed.

Lemma parsed_cons (message : KafkaMessage.t) (rest : list KafkaMessage.t) :
  parsed env (message :: rest) = (parsed env [message] ++ parsed env rest)%list.
Proof.
  unfold parsed. cbn [flat_map]. rewrite app_nil_r. reflexivity.
Qed.

(** What a delivery hands over is taken from the event of its message. *)
Lemma deliver_carried (message : KafkaMessage.t) (w : World) :
  subsequence (map carried_out (handed w (snd (deliver env message w))))
    (map carried_in (parsed env [message])).
Proof.
  pose proof (deliver_handed message w) as Hd.
  unfold parsed. cbn [flat_map].
  destruct (KafkaMessage.value message) as [bytes|];
    [|rewrite Hd; apply sub_nil].
  destruct (JSON_parse env bytes) as [ev|syntaxError];
    [|rewrite Hd; apply sub_nil].
  rewrite Hd. apply handed_carried.
Qed.

(** X4. A failing patient lookup costs the event its enrichment, not its
    emission: when every [GetPatient] call for the resolved patient is
    rejected, the [try] block is left before [GetThresholdProfile] is ever
    called, and the event goes to the producer with its patient id, without
    profile and thresholds, and with [enrichment_sources = ["none"]]. The
    Registry has then been called [registryMaxRetries] times after the
    device lookup, for the patient only. *)
Theorem patient_failure_skips_thresholds (ev : NormalizedTelemetryEvent.t)
  (w : World) (device : option Device.t) (w1 : World) (p : string) :
  registry_on env w ->
  1 <= ConfigService.registryMaxRetries (config env) ->
  getDevice env (NormalizedTelemetryEvent.device_id ev) (entered w)
    = (Ok device, w1) ->
  resolved_patient device ev = Some p ->
  (forall i, rejecting (GetPatient env p i) = true) ->
  exists e,
    handed w (snd (enrichTelemetry env ev w)) = [e]
    /\ EnrichedTelemetryEvent.patient_id e = Some p
    /\ EnrichedTelemetryEvent.orphan e = None
    /\ EnrichedTelemetryEvent.patientProfile e = None
    /\ EnrichedTelemetryEvent.thresholds e = None
    /\ sources e = ["none"]
    /\ rpcs (snd (enrichTelemetry env ev w)) =
         (rpcs w1
          ++ repeat (patient_call env p)
               (Z.to_nat (ConfigService.registryMaxRetries (config env))))%list.
Proof.
  intros Hon Hmax Hdev Hres Hrej.
  destruct (handed_with_patient ev w device w1 p Hdev Hres)
    as (e & w2 & locals & w3 & Hh & L & R2 & Hlook & Hpid & Horph & Hprof & Hthr
        & Hsrc & Hr).
  destruct (RetryFacts.lookups_patient_rejected env p
              (NormalizedTelemetryEvent.device_id ev) w2
              (RetryFacts.registry_on_looked_up env w w2 L Hon) Hmax Hrej)
    as (w3' & Heq & Hr3).
  rewrite Heq in Hlook. injection Hlook as <- <-.
  exists e. repeat (split; [assumption|]). congruence.
Qed.

(** X5. A patient the Registry does not know still has their thresholds
    looked up, and a failing threshold lookup costs the event nothing but
    the calls: when [GetPatient] ends with the gRPC error NOT_FOUND at its
    first call and every [GetThresholdProfile] call is rejected (as every
    call the Registry answers is), the event goes to the producer with its
    patient id, without profile and thresholds and with
    [enrichment_sources = ["none"]], after one [GetPatient] call and
    [registryMaxRetries] calls of [GetThresholdProfile]. *)
Theorem threshold_failure_after_unknown_patient
  (ev : NormalizedTelemetryEvent.t) (w : World) (device : option Device.t)
  (w1 : World) (p : string) (error : Js.Error) :
  registry_on env w ->
  1 <= ConfigService.registryMaxRetries (config env) ->
  getDevice env (NormalizedTelemetryEvent.device_id ev) (entered w)
    = (Ok device, w1) ->
  resolved_patient device ev = Some p ->
  GetPatient env p (List.length (rpcs w1)) = Grpc.Failed error ->
  Grpc.is_not_found error = true ->
  (forall i,
     rejecting
       (GetThresholdProfile env p
          (if Js.truthy (NormalizedTelemetryEvent.device_id ev)
           then Some (NormalizedTelemetryEvent.device_id ev) else None) i)
     = true) ->
  exists e,
    handed w (snd (enrichTelemetry env ev w)) = [e]
    /\ EnrichedTelemetryEvent.patient_id e = Some p
    /\ EnrichedTelemetryEvent.patientProfile e = None
    /\ EnrichedTelemetryEvent.thresholds e = None
    /\ sources e = ["none"]
    /\ rpcs (snd (enrichTelemetry env ev w)) =
         (rpcs w1 ++ [patient_call env p]
          ++ repeat (profile_call env p (NormalizedTelemetryEvent.device_id ev))
               (Z.to_nat (ConfigService.registryMaxRetries (config env))))%list.
Proof.
  intros Hon Hmax Hdev Hres Hreply Hnf Hrej.
  assert (Hok : rejecting (GetPatient env p (List.length (rpcs w1))) = false)
    by (rewrite Hreply; cbn; rewrite Hnf; reflexivity).
  destruct (handed_with_patient ev w device w1 p Hdev Hres)
    as (e & w2 & locals & w3 & Hh & L & R2 & Hlook & Hpid & Horph & Hprof & Hthr
        & Hsrc & Hr).
  rewrite <- R2 in Hok.
  destruct (RetryFacts.lookups_profile_rejected env p
              (NormalizedTelemetryEvent.device_id ev) w2
              (RetryFacts.registry_on_looked_up env w w2 L Hon) Hmax Hok Hrej)
    as (w3' & Heq & Hr3).
  rewrite Heq in Hlook. injection Hlook as <- <-.
  rewrite R2 in *. rewrite Hreply in *. cbn in *.
  exists e. repeat (split; [assumption|]). congruence.
Qed.

Lemma consumed_later (message : KafkaMessage.t) (rest : list KafkaMessage.t)
  (ev : NormalizedTelemetryEvent.t) :
  consumed env rest ev -> consumed env (message :: rest) ev.
Proof.
  intros (m & bytes & Hin & Hval & Hparse).
  exists m, bytes. split; [right; exact Hin|]. split; assumption.
Qed.

(** What holds of the events of every call, and of the event they were
    built for, holds of the events of every batch. *)
Lemma run_invariant_of_input
  (P : NormalizedTelemetryEvent.t -> EnrichedTelemetryEvent.t -> Prop) :
  (forall ev w e, In e (handed w (snd (enrichTelemetry env ev w))) -> P ev e) ->
  forall batch w e,
    In e (handed w (snd (run env batch w))) ->
    exists ev, consumed env batch ev /\ P ev e.
Proof.
  intros HP. induction batch as [|message rest IH]; intros w e Hin.
  - unfold handed in Hin. cbn in Hin. rewrite skipn_all in Hin. destruct Hin.
  - rewrite run_cons in Hin. apply in_app_or in Hin. destruct Hin as [Hin|Hin].
    + pose proof (deliver_handed message w) as Hd.
      destruct (KafkaMessage.value message) as [bytes|] eqn:Hval;
        [|rewrite Hd in Hin; destruct Hin].
      destruct (JSON_parse env bytes) as [ev|syntaxError] eqn:Hparse;
        [|rewrite Hd in Hin; destruct Hin].
      rewrite Hd in Hin. exists ev. split; [|exact (HP _ _ _ Hin)].
      exists message, bytes. split; [left; reflexivity|]. split; assumption.
    + destruct (IH _ _ Hin) as (ev & Hcons & HPe).
      exists ev. split; [apply consumed_later, Hcons | exact HPe].
Qed.

(** X6. The Enricher never enriches. Whatever batch it consumes and
    whatever the Registry replies, an event it hands to its producer has no
    patient profile and no thresholds, names no source, and carries the
    patient id of the consumed event it was built for when that is a
    non-empty string and none otherwise, never one taken from a device
    record: the three lookups compare the status of an answer, which is the
    name of the enum value, with the numbers 1 and 2, and so never resolve
    with a record. *)
Theorem never_enriched (batch : list KafkaMessage.t) (w : World)
  (e : EnrichedTelemetryEvent.t) :
  In e (handed w (snd (run env batch w))) ->
  exists ev,
    consumed env batch ev
    /\ EnrichedTelemetryEvent.source_event_id e =
         NormalizedTelemetryEvent.event_id ev
    /\ EnrichedTelemetryEvent.patient_id e =
         (if Js.truthy_opt (NormalizedTelemetryEvent.patient_id ev)
          then NormalizedTelemetryEvent.patient_id ev
          else None)
    /\ EnrichedTelemetryEvent.patientProfile e = None
    /\ EnrichedTelemetryEvent.thresholds e = None
    /\ sources e = ["none"].
Proof.
  revert batch w e.
  apply (run_invariant_of_input
           (fun ev e =>
              EnrichedTelemetryEvent.source_event_id e =
                NormalizedTelemetryEvent.event_id ev
              /\ EnrichedTelemetryEvent.patient_id e =
                   (if Js.truthy_opt (NormalizedTelemetryEvent.patient_id ev)
                    then NormalizedTelemetryEvent.patient_id ev
                    else None)
              /\ EnrichedTelemetryEvent.patientProfile e = None
              /\ EnrichedTelemetryEvent.thresholds e = None
              /\ sources e = ["none"])).
  intros ev w e Hin.
  destruct (getDevice env (NormalizedTelemetryEvent.device_id ev) (entered w))
    as [[device|error] w1] eqn:Hdev.
  - destruct (handed_steps ev w device w1 Hdev)
      as (e' & p & o & w2 & locals & w3 & Hh & Hpo & _ & _ & Hstep & Hb & _).
    rewrite Hh in Hin. destruct Hin as [<- | []].
    rewrite (EnrichmentFacts.getDevice_never_finds env _ _ _ _ Hdev) in Hpo.
    cbn in Hpo. injection Hpo as -> ->.
    rewrite (EnrichmentFacts.step2_never_finds env _ _ _ _ _ _ Hstep) in Hb.
    destruct Hb as (Hid & _ & _ & _ & Hpid & _ & Hprof & Hthr & Hsrc).
    unfold sources. repeat (split; [assumption|]). exact Hsrc.
  - destruct (EnrichmentFacts.enrich_device_failure env ev w error w1 Hdev)
      as (Heq & L).
    rewrite Heq in Hin. cbn [snd] in Hin.
    rewrite (EnrichmentFacts.handed_app w _ []) in Hin; [destruct Hin|].
    cbn. rewrite app_nil_r. destruct L as (_ & _ & _ & S1 & _). exact S1.
Qed.

(** X7. Whatever batch the Enricher consumes and whatever the Registry
    answers, [enrichment_sources] of an event handed to the producer names
    exactly the parts the event carries: "patient_registry" when it has a
    patient profile, "threshold_registry" when it has thresholds, in that
    order, and ["none"] when it has neither. *)
Theorem sources_name_the_parts (batch : list KafkaMessage.t) (w : World)
  (e : EnrichedTelemetryEvent.t) :
  In e (handed w (snd (run env batch w))) ->
  sources e =
    or_none
      (sources_of (EnrichedTelemetryEvent.patientProfile e)
         (EnrichedTelemetryEvent.thresholds e)).
Proof.
  revert batch w e. apply run_invariant. intros ev w e Hin.
  destruct (handed_cases ev w)
    as [Hnil | (e' & p & o & w2 & locals & w3 & Hh & Hstep & Hb & _)].
  - rewrite Hnil in Hin. destruct Hin.
  - rewrite Hh in Hin. destruct Hin as [<- | []].
    pose proof (RetryFacts.step2_coherent env p o _ w2 locals w3 Hstep) as Hc.
    destruct Hb as (_ & _ & _ & _ & _ & _ & Hprof & Hthr & Hsrc).
    unfold sources. rewrite Hsrc, Hprof, Hthr. unfold coherent in Hc.
    rewrite <- Hc. reflexivity.
Qed.

(** X8. Whatever batch the Enricher consumes, an event handed to the
    producer is marked [orphan = true] exactly when it carries no
    [patient_id]; the flag is never written as [false], and a [patient_id]
    that is written is never the empty string. *)
Theorem orphan_iff_no_patient (batch : list KafkaMessage.t) (w : World)
  (e : EnrichedTelemetryEvent.t) :
  In e (handed w (snd (run env batch w))) ->
  (EnrichedTelemetryEvent.orphan e = Some true
   <-> EnrichedTelemetryEvent.patient_id e = None)
  /\ EnrichedTelemetryEvent.orphan e <> Some false
  /\ EnrichedTelemetryEvent.patient_id e <> Some "".
Proof.
  revert batch w e. apply run_invariant. intros ev w e Hin.
  destruct (handed_cases ev w)
    as [Hnil | (e' & p & o & w2 & locals & w3 & Hh & _ & Hb & Ho)].
  - rewrite Hnil in Hin. destruct Hin.
  - rewrite Hh in Hin. destruct Hin as [<- | []].
    destruct Hb as (_ & _ & _ & _ & Hpid & Horph & _).
    rewrite Hpid, Horph.
    destruct (Js.truthy_opt p) eqn:Ht.
    + destruct (JsFacts.truthy_opt_some p Ht) as (s & -> & Hs).
      destruct o; [destruct Ho as (Ho & _); discriminate (Ho eq_refl)|].
      split; [split; discriminate|]. split; [discriminate|].
      intros [= ->]. discriminate Hs.
    + destruct o; [|destruct Ho as (_ & Ho); discriminate (Ho eq_refl)].
      split; [split; reflexivity|]. split; discriminate.
Qed.

(** X9. A message the consumer cannot read, because it has no value or
    because its value is not JSON, is skipped: the callback resolves, the
    Registry is not called, no timer is set, nothing goes to the producer,
    and the offset of the message is resolved like any other. *)
Theorem unreadable_message_skipped (message : KafkaMessage.t) (w : World) :
  match KafkaMessage.value message with
  | Some bytes =>
      match JSON_parse env bytes with inl _ => False | inr _ => True end
  | None => True
  end ->
  fst (deliver env message w) = Ok tt
  /\ rpcs (snd (deliver env message w)) = rpcs w
  /\ timers (snd (deliver env message w)) = timers w
  /\ sent (snd (deliver env message w)) = sent w
  /\ published (snd (deliver env message w)) = published w
  /\ committed (snd (deliver env message w)) =
       (committed w ++ [KafkaMessage.offset message])%list.
Proof.
  unfold deliver, eachMessage, try_catch, bind.
  destruct (KafkaMessage.value message) as [bytes|].
  - destruct (JSON_parse env bytes) as [ev|syntaxError]; [intros []|].
    intros _. cbn. repeat split.
  - intros _. cbn. repeat split.
Qed.

(** X10. The Enricher neither reorders, duplicates nor invents events:
    the events handed to the producer while a batch is consumed, read as
    (source event id, device id, vitals), are those of the batch's readable
    messages in the order of the batch, with some left out (the events
    whose device lookup failed). *)
Theorem outputs_follow_inputs (batch : list KafkaMessage.t) (w : World) :
  subsequence
    (map carried_out (handed w (snd (run env batch w))))
    (map carried_in (parsed env batch)).
Proof.
  revert w. induction batch as [|message rest IH]; intros w.
  - change (snd (run env [] w)) with w. rewrite handed_nil. apply sub_nil.
  - rewrite run_cons, map_app, parsed_cons, map_app.
    apply subsequence_app; [apply deliver_carried | apply IH].
Qed.

(** X11. As long as the uuid source never repeats itself, no two events
    handed to the producer while a batch is consumed share an [event_id],
    although a call may draw a second uuid for the trace id. *)
Theorem event_ids_distinct (batch : list KafkaMessage.t) (w : World) :
  (forall i j, uuid env i = uuid env j -> i = j) ->
  NoDup
    (map EnrichedTelemetryEvent.event_id (handed w (snd (run env batch w)))).
Proof.
  intros Hinj. revert w. induction batch as [|message rest IH]; intros w.
  - change (snd (run env [] w)) with w. rewrite handed_nil. constructor.
  - rewrite run_cons, map_app. apply NoDup_app.
    + pose proof (deliver_at_most_one message w) as Hlen.
      destruct (handed w (snd (deliver env message w))) as [|e [|e' l]];
        cbn in *; [constructor | | lia].
      constructor; [intros [] | constructor].
    + apply IH.
    + intros id H1 H2.
      apply in_map_iff in H1. destruct H1 as (e1 & <- & H1).
      apply in_map_iff in H2. destruct H2 as (e2 & Heq & H2).
      destruct (deliver_fresh_ids message w) as (_ & F1).
      destruct (run_fresh_ids rest (snd (deliver env message w))) as (_ & F2).
      rewrite Forall_forall in F1, F2.
      destruct (F1 e1 H1) as (k1 & Hk1 & R1).
      destruct (F2 e2 H2) as (k2 & Hk2 & R2).
      rewrite Hk1, Hk2 in Heq. apply Hinj in Heq. lia.
Qed.

End Stage.

Import Scenario Outages.

Lemma show_injective (a b : Z) : Js.show a = Js.show b -> a = b.
Proof.
  unfold Js.show. intros H.
  assert (Hn : forall z, Z.to_int z <> Decimal.Pos Decimal.Nil
                         /\ Z.to_int z <> Decimal.Neg Decimal.Nil).
  { intros [|p|p]; cbn; split; try discriminate;
      intros [= E]; exact (Unsigned.to_uint_nonnil p E). }
  apply (f_equal NilZero.int_of_string) in H.
  rewrite !NilZero.isi in H by apply Hn.
  injection H as H.
  rewrite <- (DecimalZ.of_to a), <- (DecimalZ.of_to b), H. reflexivity.
Qed.

Lemma uuids_injective (i j : nat) : uuids i = uuids j -> i = j.
Proof.
  unfold uuids. cbn. intros [= H]. apply show_injective in H. lia.
Qed.

(** X4 on a Registry that does not know D1 and whose patient lookups fail:
    the event keeps the patient P9 it came with and is emitted bare, after
    three [GetPatient] calls. *)
Lemma patient_failure_skips_thresholds_witness :
  exists e,
    handed initial (snd (enrichTelemetry patients_down with_patient initial)) = [e]
    /\ EnrichedTelemetryEvent.patient_id e = Some "P9"
    /\ EnrichedTelemetryEvent.orphan e = None
    /\ EnrichedTelemetryEvent.patientProfile e = None
    /\ EnrichedTelemetryEvent.thresholds e = None
    /\ sources e = ["none"]
    /\ rpcs (snd (enrichTelemetry patients_down with_patient initial)) =
         [CallGetDevice "D1" 5000; CallGetPatient "P9" 5000;
          CallGetPatient "P9" 5000; CallGetPatient "P9" 5000].
Proof.
  exact (patient_failure_skips_thresholds patients_down with_patient initial
           None
           (snd (getDevice patients_down "D1" (entered initial))) "P9"
           (conj eq_refl eq_refl) ltac:(cbn; lia) eq_refl eq_refl
           (fun _ => eq_refl)).
Defined.

(** X5 on a Registry that knows neither D1 nor P9 and answers the threshold
    lookups with a profile: the three answers are rejected and the event is
    emitted bare. *)
Lemma threshold_failure_after_unknown_patient_witness :
  exists e,
    handed initial (snd (enrichTelemetry thresholds_answered with_patient initial))
      = [e]
    /\ EnrichedTelemetryEvent.patient_id e = Some "P9"
    /\ EnrichedTelemetryEvent.patientProfile e = None
    /\ EnrichedTelemetryEvent.thresholds e = None
    /\ sources e = ["none"]
    /\ rpcs (snd (enrichTelemetry thresholds_answered with_patient initial)) =
         [CallGetDevice "D1" 5000; CallGetPatient "P9" 5000;
          CallGetThresholdProfile "P9" (Some "D1") 5000;
          CallGetThresholdProfile "P9" (Some "D1") 5000;
          CallGetThresholdProfile "P9" (Some "D1") 5000].
Proof.
  exact (threshold_failure_after_unknown_patient thresholds_answered with_patient
           initial None
           (snd (getDevice thresholds_answered "D1" (entered initial))) "P9"
           not_found
           (conj eq_refl eq_refl) ltac:(cbn; lia) eq_refl eq_refl eq_refl eq_refl
           (fun _ => eq_refl)).
Defined.

(** X6 on the same run: the thresholds the Registry answered with are not
    on the event. *)
Lemma never_enriched_witness :
  In bare_with_patient
    (handed initial
       (snd (run thresholds_answered [message "with_patient" 0] initial)))
  /\ exists ev,
       consumed thresholds_answered [message "with_patient" 0] ev
       /\ EnrichedTelemetryEvent.source_event_id bare_with_patient =
            NormalizedTelemetryEvent.event_id ev
       /\ EnrichedTelemetryEvent.patient_id bare_with_patient =
            (if Js.truthy_opt (NormalizedTelemetryEvent.patient_id ev)
             then NormalizedTelemetryEvent.patient_id ev
             else None)
       /\ EnrichedTelemetryEvent.patientProfile bare_with_patient = None
       /\ EnrichedTelemetryEvent.thresholds bare_with_patient = None
       /\ sources bare_with_patient = ["none"].
Proof.
  assert (Hin : In bare_with_patient
                  (handed initial
                     (snd (run thresholds_answered [message "with_patient" 0]
                             initial))))
    by (vm_compute; left; reflexivity).
  split; [exact Hin|].
  exact (never_enriched thresholds_answered [message "with_patient" 0] initial
           bare_with_patient Hin).
Defined.

(** X7 on the event of a device the Registry does not know. *)
Lemma sources_name_the_parts_witness :
  In orphan_of_bare
    (handed initial (snd (run registry_empty [message "bare" 0] initial)))
  /\ sources orphan_of_bare = ["none"].
Proof.
  assert (Hin : In orphan_of_bare
                  (handed initial
                     (snd (run registry_empty [message "bare" 0] initial))))
    by (vm_compute; left; reflexivity).
  split; [exact Hin|].
  exact (sources_name_the_parts registry_empty [message "bare" 0] initial
           orphan_of_bare Hin).
Defined.

(** X8 on the orphan emitted for a device the Registry does not know. *)
Lemma orphan_iff_no_patient_witness :
  In orphan_of_bare
    (handed initial (snd (run registry_empty [message "bare" 0] initial)))
  /\ (EnrichedTelemetryEvent.orphan orphan_of_bare = Some true
      <-> EnrichedTelemetryEvent.patient_id orphan_of_bare = None).
Proof.
  assert (Hin : In orphan_of_bare
                  (handed initial
                     (snd (run registry_empty [message "bare" 0] initial))))
    by (vm_compute; left; reflexivity).
  split; [exact Hin|].
  exact (proj1 (orphan_iff_no_patient registry_empty [message "bare" 0] initial
                  orphan_of_bare Hin)).
Defined.

(** X9 on a message that is not JSON. *)
Lemma unreadable_message_skipped_witness :
  fst (deliver registry_seeded (message "{" 3) initial) = Ok tt
  /\ rpcs (snd (deliver registry_seeded (message "{" 3) initial)) = []
  /\ timers (snd (deliver registry_seeded (message "{" 3) initial)) = []
  /\ sent (snd (deliver registry_seeded (message "{" 3) initial)) = []
  /\ published (snd (deliver registry_seeded (message "{" 3) initial)) = []
  /\ committed (snd (deliver registry_seeded (message "{" 3) initial)) = [3].
Proof.
  exact (unreadable_message_skipped registry_seeded (message "{" 3) initial I).
Defined.

(** X11 on two events enriched one after the other. *)
Lemma event_ids_distinct_witness :
  NoDup
    (map EnrichedTelemetryEvent.event_id
       (handed initial
          (snd (run registry_empty [message "bare" 0; message "traced" 1]
                  initial)))).
Proof.
  exact (event_ids_distinct registry_empty
           [message "bare" 0; message "traced" 1] initial uuids_injective).
Defined.

End StageFacts.

(** * The Gateway, request by request *)

Module IngestFacts.
Import Gateway IngestView.

Section Ingest.
Variable env : Env.

(** [produceRawTelemetry] looks nothing up, and publishes its event once
    when it resolves and not at all when it rejects. *)
Lemma produce_outcome (event : RawEvent.t) (w : World) :
  lookups (snd (produceRawTelemetry env event w)) = lookups w
  /\ ((fst (produceRawTelemetry env event w) = Ok tt
       /\ published (snd (produceRawTelemetry env event w)) =
            (published w ++ [event])%list)
      \/ (resolved (fst (produceRawTelemetry env event w)) = false
          /\ published (snd (produceRawTelemetry env event w)) = published w)).
Proof.
  unfold produceRawTelemetry.
  destruct (kafka_connected w); cbn [negb];
    [|split; [reflexivity | right; split; reflexivity]].
  change (Z.to_nat maxRetries) with 3%nat.
  cbn [produce_from]. unfold try_catch, bind, send.
  destruct (producer_send env event (List.length (sends w))) as [e1|]; cbn;
    [|split; [reflexivity | left; split; reflexivity]].
  destruct (producer_send env event (List.length (sends w ++ [event])))
    as [e2|]; cbn;
    [|split; [reflexivity | left; split; reflexivity]].
  destruct (producer_send env event (List.length ((sends w ++ [event]) ++ [event])))
    as [e3|]; cbn;
    [split; [reflexivity | right; split; reflexivity]
    |split; [reflexivity | left; split; reflexivity]].
Qed.

(** Building the raw event fails only for want of a metric, and touches
    neither the Registry nor the broker. *)
Lemma transform_outcome (dto : TelemetryDto.t) (w : World) :
  lookups (snd (transformToKafkaEvent env dto w)) = lookups w
  /\ sends (snd (transformToKafkaEvent env dto w)) = sends w
  /\ published (snd (transformToKafkaEvent env dto w)) = published w
  /\ timers (snd (transformToKafkaEvent env dto w)) = timers w
  /\ kafka_connected (snd (transformToKafkaEvent env dto w)) = kafka_connected w
  /\ ((exists event,
         fst (transformToKafkaEvent env dto w) = Ok event
         /\ RawEvent.device_id event = TelemetryDto.deviceId dto
         /\ RawEvent.event_id event = "evt_" ++ uuid env (uuids_drawn w))
      \/ (fst (transformToKafkaEvent env dto w) = Throw (Js.newError no_metric)
          /\ TelemetryDto.metrics dto = MetricsDto.mk None None None)).
Proof.
  unfold transformToKafkaEvent, bind, uuidv4.
  destruct dto as [deviceId timestamp [[hr|] [spo2|] [temp|]] meta];
    cbn; destruct (Js.truthy timestamp); cbn.
  all: repeat (split; [reflexivity|]).
  all: try (left; eexists; split; [reflexivity|]; split; reflexivity).
  all: right; split; reflexivity.
Qed.

(** [verifyDevice] asks the Registry once when it is enabled and its
    client connected, and not at all otherwise. *)
Lemma verify_lookups (deviceId : string) (w : World) :
  lookups (snd (verifyDevice env deviceId w)) =
    (lookups w ++ lookups_of env w deviceId)%list.
Proof.
  unfold verifyDevice, lookups_of.
  destruct (ConfigService.registryEnabled (config env)); cbn;
    [|now rewrite app_nil_r].
  destruct (registry_connected w); cbn; [|now rewrite app_nil_r].
  destruct (GetDevice env deviceId (List.length (lookups w)))
    as [error|status payload]; cbn; reflexivity.
Qed.

(** The three ways [accept] can end. *)
Lemma accept_outcome (dto : TelemetryDto.t) (w : World) :
  lookups (snd (accept env dto w)) = lookups w
  /\ ((exists event,
         fst (accept env dto w) = Ok (RawEvent.event_id event)
         /\ RawEvent.device_id event = TelemetryDto.deviceId dto
         /\ RawEvent.event_id event = "evt_" ++ uuid env (uuids_drawn w)
         /\ published (snd (accept env dto w)) = (published w ++ [event])%list)
      \/ (resolved (fst (accept env dto w)) = false
          /\ published (snd (accept env dto w)) = published w)).
Proof.
  destruct (transform_outcome dto w) as (L1 & _ & P1 & _ & _ & Hcase).
  unfold accept, bind, log, effect, ret.
  destruct (transformToKafkaEvent env dto w) as [r w1]. cbn [fst snd] in *.
  destruct Hcase as [(event & -> & Hdev & Hid) | (-> & _)].
  - destruct (produce_outcome event w1) as (L2 & Hprod).
    destruct (produceRawTelemetry env event w1) as [r2 w2]. cbn [fst snd] in *.
    destruct Hprod as [(-> & P2) | (Hr & P2)].
    + cbn [fst snd lookups published add_log].
      split; [congruence|]. left. exists event.
      repeat (split; [assumption || reflexivity|]). congruence.
    + destruct r2 as [[]|error]; [discriminate Hr|]. cbn [fst snd].
      split; [congruence|]. right. split; [reflexivity | congruence].
  - cbn [fst snd]. split; [exact L1|]. right. split; [reflexivity | exact P1].
Qed.

Lemma process_outcome (dto : TelemetryDto.t) (w : World) :
  lookups (snd (processTelemetry env dto w)) =
    (lookups w ++ lookups_of env w (TelemetryDto.deviceId dto))%list
  /\ ((exists event,
         fst (processTelemetry env dto w) = Ok (RawEvent.event_id event)
         /\ RawEvent.device_id event = TelemetryDto.deviceId dto
         /\ RawEvent.event_id event = "evt_" ++ uuid env (uuids_drawn w)
         /\ published (snd (processTelemetry env dto w)) =
              (published w ++ [event])%list)
      \/ (resolved (fst (processTelemetry env dto w)) = false
          /\ published (snd (processTelemetry env dto w)) = published w)).
Proof.
  pose proof (verify_lookups (TelemetryDto.deviceId dto) w) as Hl.
  destruct (GatewayFacts.verifyDevice_frame env (TelemetryDto.deviceId dto) w)
    as (_ & U1 & _ & _ & _ & P1).
  destruct (GatewayFacts.verifyDevice_resolves env (TelemetryDto.deviceId dto) w)
    as ([|] & Hv).
  - rewrite (GatewayFacts.process_verified env dto w Hv).
    destruct (accept_outcome dto (snd (verifyDevice env (TelemetryDto.deviceId dto) w)))
      as (L2 & Hcase).
    split; [congruence|]. rewrite U1, P1 in Hcase. exact Hcase.
  - rewrite (GatewayFacts.process_rejected env dto w Hv). cbn [fst snd].
    split; [exact Hl|]. right. split; [reflexivity | exact P1].
Qed.

(** [transformGrpcToDto] always resolves; it reads the clock at most. *)
Lemma grpc_dto (data : SendMeasurementsRequest.t) (w : World) :
  exists dto w0,
    transformGrpcToDto env data w = (Ok dto, w0)
    /\ TelemetryDto.deviceId dto = SendMeasurementsRequest.device_id data
    /\ TelemetryDto.metrics dto =
         fold_left set_metric (requested data) (MetricsDto.mk None None None)
    /\ registry_connected w0 = registry_connected w
    /\ kafka_connected w0 = kafka_connected w
    /\ lookups w0 = lookups w
    /\ uuids_drawn w0 = uuids_drawn w
    /\ timers w0 = timers w
    /\ sends w0 = sends w
    /\ published w0 = published w.
Proof.
  unfold transformGrpcToDto, bind, requested.
  destruct (SendMeasurementsRequest.measurements data);
    destruct (Js.truthy_opt (SendMeasurementsRequest.timestamp data)); cbn;
    eexists; eexists; repeat split.
Qed.

Lemma status_of_range (error : Js.Error) :
  status_of error = STATUS_VALIDATION_ERROR
  \/ status_of error = STATUS_DEVICE_NOT_FOUND
  \/ status_of error = STATUS_INTERNAL_ERROR.
Proof.
  unfold status_of.
  destruct (Js.includes "not found" (Js.message error)); [auto|].
  destruct (Js.includes "validation" (Js.message error)); auto.
Qed.

Lemma lookups_of_frame (w w0 : World) (deviceId : string) :
  registry_connected w0 = registry_connected w ->
  lookups_of env w0 deviceId = lookups_of env w deviceId.
Proof.
  intros H. unfold lookups_of. rewrite H. reflexivity.
Qed.

(** X12. The HTTP surface never lets a failure out as anything but an
    answer, and acknowledges exactly what was published: it answers 200
    with the event id of the one event this request added to the raw
    topic, an event of the request's device, or 400 without an event id,
    and then the request has published nothing. Either way the Registry
    was asked at most once: once when verification is enabled and the
    client connected, never otherwise (the Gateway does not retry). *)
Theorem acknowledged_iff_published (dto : TelemetryDto.t) (w : World) :
  exists response,
    fst (receiveTelemetry env dto w) = Ok response
    /\ lookups (snd (receiveTelemetry env dto w)) =
         (lookups w ++ lookups_of env w (TelemetryDto.deviceId dto))%list
    /\ ((HttpResponse.statusCode response = 200
         /\ HttpResponse.success response = true
         /\ exists event,
              HttpResponse.eventId response = Some (RawEvent.event_id event)
              /\ RawEvent.device_id event = TelemetryDto.deviceId dto
              /\ published (snd (receiveTelemetry env dto w)) =
                   (published w ++ [event])%list)
        \/ (HttpResponse.statusCode response = 400
            /\ HttpResponse.success response = false
            /\ HttpResponse.eventId response = None
            /\ published (snd (receiveTelemetry env dto w)) = published w)).
Proof.
  destruct (process_outcome dto w) as (Hl & Hcase).
  unfold receiveTelemetry, try_catch, bind, ret.
  destruct (processTelemetry env dto w) as [r w1]. cbn [fst snd] in *.
  destruct Hcase as [(event & -> & Hdev & _ & Hp) | (Hr & Hp)].
  - eexists. split; [reflexivity|]. split; [exact Hl|]. left. cbn.
    split; [reflexivity|]. split; [reflexivity|]. exists event. auto.
  - destruct r as [eventId|error]; [discriminate Hr|].
    eexists. split; [reflexivity|]. split; [exact Hl|]. right. cbn. auto.
Qed.

(** X13. The RPC surface always answers, and with status 1 exactly for
    what was published: status 1 comes with the id of the one event this
    request added to the raw topic; every other answer has status 2, 3 or
    4 and an empty [event_id], and then nothing was published. Either way
    the Registry was asked at most once, and only before anything else. *)
Theorem rpc_status_tells_publication (data : SendMeasurementsRequest.t)
  (w : World) :
  exists response,
    fst (sendMeasurements env data w) = Ok response
    /\ lookups (snd (sendMeasurements env data w)) =
         (lookups w
          ++ lookups_of env w (SendMeasurementsRequest.device_id data))%list
    /\ ((SendMeasurementsResponse.status response = STATUS_SUCCESS
         /\ exists event,
              SendMeasurementsResponse.event_id response = RawEvent.event_id event
              /\ RawEvent.event_id event = "evt_" ++ uuid env (uuids_drawn w)
              /\ RawEvent.device_id event = SendMeasurementsRequest.device_id data
              /\ published (snd (sendMeasurements env data w)) =
                   (published w ++ [event])%list)
        \/ (SendMeasurementsResponse.status response <> STATUS_SUCCESS
            /\ (SendMeasurementsResponse.status response = STATUS_VALIDATION_ERROR
                \/ SendMeasurementsResponse.status response = STATUS_DEVICE_NOT_FOUND
                \/ SendMeasurementsResponse.status response = STATUS_INTERNAL_ERROR)
            /\ SendMeasurementsResponse.event_id response = ""
            /\ published (snd (sendMeasurements env data w)) = published w)).
Proof.
  destruct (grpc_dto data w)
    as (dto & w0 & Hdto & Hid & _ & R0 & _ & L0 & U0 & _ & _ & P0).
  destruct (process_outcome dto w0) as (Hl & Hcase).
  rewrite Hid, L0, (lookups_of_frame w w0 _ R0) in Hl.
  rewrite Hid, U0, P0 in Hcase.
  unfold sendMeasurements, try_catch, bind, now, log, effect, ret.
  rewrite Hdto.
  destruct (processTelemetry env dto w0) as [r w1]. cbn [fst snd] in *.
  destruct Hcase as [(event & -> & Hdev & He & Hp) | (Hr & Hp)].
  - cbn [fst snd lookups published add_clock_read add_log].
    eexists. split; [reflexivity|]. split; [exact Hl|]. left.
    cbn [SendMeasurementsResponse.status SendMeasurementsResponse.event_id].
    split; [reflexivity|]. exists event. auto.
  - destruct r as [eventId|error]; [discriminate Hr|].
    cbn [fst snd lookups published add_clock_read add_log].
    eexists. split; [reflexivity|]. split; [exact Hl|]. right.
    cbn [SendMeasurementsResponse.status SendMeasurementsResponse.event_id].
    pose proof (status_of_range error) as Hrange.
    split; [|auto].
    unfold STATUS_SUCCESS, STATUS_VALIDATION_ERROR, STATUS_DEVICE_NOT_FOUND,
      STATUS_INTERNAL_ERROR in *. lia.
Qed.

Lemma accept_down (dto : TelemetryDto.t) (w : World) :
  kafka_connected w = false ->
  exists msg w',
    accept env dto w = (Throw (Js.newError msg), w')
    /\ sends w' = sends w
    /\ timers w' = timers w
    /\ (msg = no_metric \/ msg = not_connected).
Proof.
  intros Hdown.
  destruct (transform_outcome dto w) as (_ & S1 & _ & T1 & K1 & Hcase).
  unfold accept, bind, log, effect, ret.
  destruct (transformToKafkaEvent env dto w) as [r w1]. cbn [fst snd] in *.
  destruct Hcase as [(event & -> & _) | (-> & _)].
  - unfold produceRawTelemetry. rewrite K1, Hdown. cbn [negb].
    exists not_connected, w1. auto.
  - exists no_metric, w1. auto.
Qed.

(** X14. With the Kafka producer disconnected no request is accepted and
    the retry loop is never entered: the HTTP surface answers 400 with
    "Device ... not found in registry", "At least one metric must be
    provided" or "Kafka producer is not connected", and no send was made
    and no timer awaited. *)
Theorem producer_down_refuses (dto : TelemetryDto.t) (w : World) :
  kafka_connected w = false ->
  exists msg,
    fst (receiveTelemetry env dto w) = Ok (HttpResponse.mk 400 false None msg)
    /\ (msg = notFoundMessage (TelemetryDto.deviceId dto)
        \/ msg = no_metric \/ msg = not_connected)
    /\ sends (snd (receiveTelemetry env dto w)) = sends w
    /\ published (snd (receiveTelemetry env dto w)) = published w
    /\ timers (snd (receiveTelemetry env dto w)) = timers w.
Proof.
  intros Hdown.
  destruct (GatewayFacts.verifyDevice_frame env (TelemetryDto.deviceId dto) w)
    as (K1 & _ & _ & T1 & S1 & P1).
  destruct (process_outcome dto w) as (_ & Hcase).
  assert (Hproc : exists msg w',
             processTelemetry env dto w = (Throw (Js.newError msg), w')
             /\ sends w' = sends w /\ timers w' = timers w
             /\ (msg = notFoundMessage (TelemetryDto.deviceId dto)
                 \/ msg = no_metric \/ msg = not_connected)).
  { destruct (GatewayFacts.verifyDevice_resolves env (TelemetryDto.deviceId dto) w)
      as ([|] & Hv).
    - rewrite (GatewayFacts.process_verified env dto w Hv).
      destruct (accept_down dto (snd (verifyDevice env (TelemetryDto.deviceId dto) w)))
        as (msg & w' & Heq & S2 & T2 & Hmsg); [congruence|].
      exists msg, w'. split; [exact Heq|]. split; [congruence|].
      split; [congruence | tauto].
    - rewrite (GatewayFacts.process_rejected env dto w Hv).
      eexists. eexists. split; [reflexivity|]. auto. }
  destruct Hproc as (msg & w' & Heq & S2 & T2 & Hmsg).
  rewrite Heq in Hcase. cbn [fst snd] in Hcase.
  destruct Hcase as [(event & Habs & _) | (_ & P2)]; [discriminate Habs|].
  rewrite (GatewayFacts.receive_failure env dto w _ w' Heq).
  exists msg. cbn [fst snd Js.message Js.newError]. auto.
Qed.

Lemma transform_no_metric (dto : TelemetryDto.t) (w : World) :
  TelemetryDto.metrics dto = MetricsDto.mk None None None ->
  fst (transformToKafkaEvent env dto w) = Throw (Js.newError no_metric).
Proof.
  destruct dto as [deviceId timestamp metrics meta]. cbn. intros ->.
  unfold transformToKafkaEvent, bind, uuidv4. cbn.
  destruct (Js.truthy timestamp); reflexivity.
Qed.

Lemma set_metric_unrecognised (metrics : MetricsDto.t) (m : GrpcMeasurement.t) :
  recognised m = false -> set_metric metrics m = metrics.
Proof.
  unfold recognised, named, set_metric.
  destruct (option_map Js.toLowerCase (GrpcMeasurement.metric m)) as [n|];
    [|reflexivity].
  cbn [existsb app heart_rate_names oxygen_names temperature_names].
  intros H. repeat (apply orb_false_elim in H; destruct H as (? & H)).
  repeat match goal with E : (n =? _)%string = false |- _ => rewrite E; clear E end.
  reflexivity.
Qed.

Lemma fold_unrecognised (ms : list GrpcMeasurement.t) (metrics : MetricsDto.t) :
  Forall (fun m => recognised m = false) ms ->
  fold_left set_metric ms metrics = metrics.
Proof.
  induction 1 as [|m ms Hm _ IH]; cbn [fold_left]; [reflexivity|].
  rewrite (set_metric_unrecognised metrics m Hm). exact IH.
Qed.

(** The verdict of [verifyDevice] depends on the world through the state
    of the Registry client and the number of lookups made only. *)
Lemma verify_verdict_frame (deviceId : string) (w w0 : World) :
  registry_connected w0 = registry_connected w ->
  lookups w0 = lookups w ->
  fst (verifyDevice env deviceId w0) = fst (verifyDevice env deviceId w).
Proof.
  intros R L. unfold verifyDevice.
  destruct (ConfigService.registryEnabled (config env)); cbn; [|reflexivity].
  rewrite R, L.
  destruct (registry_connected w); cbn; [|reflexivity].
  destruct (GetDevice env deviceId (List.length (lookups w)))
    as [error|status payload]; reflexivity.
Qed.

(** X15. A request on the RPC surface none of whose measurements goes by
    a recognised name is refused without a send, and never as a validation
    error: when the device check passes the answer is status 4
    (internal_error) with "At least one metric must be provided", and when
    the check fails it is status 3 (device_not_found) with "Device ... not
    found in registry". The Registry is asked before the metrics are
    looked at. *)
Theorem unrecognised_metrics_refused (data : SendMeasurementsRequest.t)
  (w : World) :
  Forall (fun m => recognised m = false) (requested data) ->
  exists response,
    fst (sendMeasurements env data w) = Ok response
    /\ SendMeasurementsResponse.event_id response = ""
    /\ sends (snd (sendMeasurements env data w)) = sends w
    /\ published (snd (sendMeasurements env data w)) = published w
    /\ lookups (snd (sendMeasurements env data w)) =
         (lookups w
          ++ lookups_of env w (SendMeasurementsRequest.device_id data))%list
    /\ (fst (verifyDevice env (SendMeasurementsRequest.device_id data) w) = Ok true ->
        SendMeasurementsResponse.status response = STATUS_INTERNAL_ERROR
        /\ SendMeasurementsResponse.message response = no_metric)
    /\ (fst (verifyDevice env (SendMeasurementsRequest.device_id data) w) = Ok false ->
        SendMeasurementsResponse.status response = STATUS_DEVICE_NOT_FOUND
        /\ SendMeasurementsResponse.message response =
             notFoundMessage (SendMeasurementsRequest.device_id data))
    /\ SendMeasurementsResponse.status response <> STATUS_VALIDATION_ERROR
    /\ SendMeasurementsResponse.status response <> STATUS_SUCCESS.
Proof.
  intros Hnone.
  destruct (grpc_dto data w)
    as (dto & w0 & Hdto & Hid & Hmet & R0 & _ & L0 & _ & _ & S0 & P0).
  rewrite (fold_unrecognised _ _ Hnone) in Hmet.
  destruct (GatewayFacts.verifyDevice_frame env (TelemetryDto.deviceId dto) w0)
    as (_ & _ & _ & _ & S1 & P1).
  pose proof (verify_lookups (TelemetryDto.deviceId dto) w0) as L1.
  rewrite Hid, L0, (lookups_of_frame w w0 _ R0) in L1.
  pose proof (verify_verdict_frame (SendMeasurementsRequest.device_id data) w w0
                R0 L0) as Hverdict.
  assert (Hproc : exists error w1,
             processTelemetry env dto w0 = (Throw error, w1)
             /\ sends w1 = sends w
             /\ published w1 = published w
             /\ lookups w1 =
                  (lookups w
                   ++ lookups_of env w (SendMeasurementsRequest.device_id data))%list
             /\ (fst (verifyDevice env (SendMeasurementsRequest.device_id data) w)
                   = Ok false
                 /\ error = Js.newError
                              (notFoundMessage (SendMeasurementsRequest.device_id data))
                 \/ fst (verifyDevice env (SendMeasurementsRequest.device_id data) w)
                      = Ok true
                    /\ error = Js.newError no_metric)).
  { destruct (GatewayFacts.verifyDevice_resolves env (TelemetryDto.deviceId dto) w0)
      as ([|] & Hv).
    - rewrite (GatewayFacts.process_verified env dto w0 Hv).
      destruct (transform_outcome dto (snd (verifyDevice env (TelemetryDto.deviceId dto) w0)))
        as (L2 & S2 & P2 & _).
      pose proof (transform_no_metric dto
                    (snd (verifyDevice env (TelemetryDto.deviceId dto) w0)) Hmet)
        as Hno.
      unfold accept, bind.
      destruct (transformToKafkaEvent env dto _) as [r w1]. cbn [fst snd] in *.
      subst r. eexists. eexists. split; [reflexivity|].
      rewrite Hid in *. split; [congruence|]. split; [congruence|].
      split; [congruence|]. right. split; [congruence | reflexivity].
    - rewrite (GatewayFacts.process_rejected env dto w0 Hv).
      eexists. eexists. split; [reflexivity|].
      rewrite Hid in *. split; [congruence|]. split; [congruence|].
      split; [exact L1|]. left. split; [congruence | reflexivity]. }
  destruct Hproc as (error & w1 & Heq & S2 & P2 & L2 & Herr).
  unfold sendMeasurements, try_catch, bind, now, log, effect, ret.
  rewrite Hdto, Heq.
  cbn [fst snd sends published lookups add_clock_read add_log].
  eexists. split; [reflexivity|].
  cbn [SendMeasurementsResponse.status SendMeasurementsResponse.event_id
       SendMeasurementsResponse.message].
  split; [reflexivity|]. split; [exact S2|]. split; [exact P2|].
  split; [exact L2|].
  destruct Herr as [(Hv & ->) | (Hv & ->)].
  - rewrite GatewayFacts.not_found_status.
    split; [rewrite Hv; discriminate|].
    split; [intros _; split; reflexivity|].
    split; discriminate.
  - change (status_of (Js.newError no_metric)) with STATUS_INTERNAL_ERROR.
    split; [intros _; split; reflexivity|].
    split; [rewrite Hv; discriminate|].
    split; discriminate.
Qed.

Ltac by_name n :=
  repeat match goal with
         | |- context [String.eqb n ?s] =>
             destruct (String.eqb_spec n s); [subst n; reflexivity|]
         end;
  reflexivity.

Lemma set_metric_hr (metrics : MetricsDto.t) (m : GrpcMeasurement.t) :
  MetricsDto.hr (set_metric metrics m) =
    if named heart_rate_names m then Some (GrpcMeasurement.value m)
    else MetricsDto.hr metrics.
Proof.
  unfold set_metric, named.
  destruct (option_map Js.toLowerCase (GrpcMeasurement.metric m)) as [n|];
    [|reflexivity].
  cbn [existsb heart_rate_names]. by_name n.
Qed.

Lemma set_metric_spo2 (metrics : MetricsDto.t) (m : GrpcMeasurement.t) :
  MetricsDto.spo2 (set_metric metrics m) =
    if named oxygen_names m then Some (GrpcMeasurement.value m)
    else MetricsDto.spo2 metrics.
Proof.
  unfold set_metric, named.
  destruct (option_map Js.toLowerCase (GrpcMeasurement.metric m)) as [n|];
    [|reflexivity].
  cbn [existsb oxygen_names]. by_name n.
Qed.

Lemma set_metric_temp (metrics : MetricsDto.t) (m : GrpcMeasurement.t) :
  MetricsDto.temp (set_metric metrics m) =
    if named temperature_names m then Some (GrpcMeasurement.value m)
    else MetricsDto.temp metrics.
Proof.
  unfold set_metric, named.
  destruct (option_map Js.toLowerCase (GrpcMeasurement.metric m)) as [n|];
    [|reflexivity].
  cbn [existsb temperature_names]. by_name n.
Qed.

(** A field that each measurement either overwrites or leaves alone ends
    up with the value of the last measurement that overwrites it. *)
Lemma fold_last (field : MetricsDto.t -> option Q) (names : list string) :
  (forall metrics m,
     field (set_metric metrics m) =
       if named names m then Some (GrpcMeasurement.value m) else field metrics) ->
  forall ms metrics,
    field (fold_left set_metric ms metrics) =
      match last_named names ms with
      | Some v => Some v
      | None => field metrics
      end.
Proof.
  intros Hset ms metrics. induction ms as [|m ms IH] using rev_ind.
  - reflexivity.
  - rewrite fold_left_app. cbn [fold_left]. rewrite Hset.
    unfold last_named in *. rewrite rev_app_distr. cbn [rev app find].
    destruct (named names m); [reflexivity | exact IH].
Qed.

(** X16. How the RPC surface reads the measurements of a request: each of
    the three metrics gets the value of the last measurement that goes by
    one of its two names (heart_rate or hr, oxygen_saturation or spo2,
    temperature or temp), whatever the case of the letters; measurements
    under any other name, or without a name, change nothing. *)
Theorem last_measurement_wins (data : SendMeasurementsRequest.t) (w : World) :
  exists dto,
    fst (transformGrpcToDto env data w) = Ok dto
    /\ MetricsDto.hr (TelemetryDto.metrics dto) =
         last_named heart_rate_names (requested data)
    /\ MetricsDto.spo2 (TelemetryDto.metrics dto) =
         last_named oxygen_names (requested data)
    /\ MetricsDto.temp (TelemetryDto.metrics dto) =
         last_named temperature_names (requested data)
    /\ (forall before after m,
          requested data = (before ++ m :: after)%list ->
          recognised m = false ->
          TelemetryDto.metrics dto =
            fold_left set_metric (before ++ after) (MetricsDto.mk None None None)).
Proof.
  destruct (grpc_dto data w) as (dto & w0 & Hdto & _ & Hmet & _).
  exists dto. rewrite Hdto, Hmet. split; [reflexivity|].
  split; [|split; [|split]].
  - rewrite (fold_last MetricsDto.hr heart_rate_names set_metric_hr).
    cbn [MetricsDto.hr]. now destruct (last_named _ _).
  - rewrite (fold_last MetricsDto.spo2 oxygen_names set_metric_spo2).
    cbn [MetricsDto.spo2]. now destruct (last_named _ _).
  - rewrite (fold_last MetricsDto.temp temperature_names set_metric_temp).
    cbn [MetricsDto.temp]. now destruct (last_named _ _).
  - intros before after m -> Hm.
    rewrite !fold_left_app. cbn [fold_left].
    rewrite (set_metric_unrecognised _ m Hm). reflexivity.
Qed.

(** X17. The loop of [produceRawTelemetry] stops at the first send the
    broker acknowledges: after [j] failed sends, [j < 3], an acknowledged
    one ends the call, which resolves having called [producer.send]
    [j + 1] times, published the event once, and waited 1000 ms, then
    2000 ms, after the failures. *)
Theorem publication_stops_at_first_ack (event : RawEvent.t) (w : World)
  (j : nat) :
  kafka_connected w = true ->
  (j < 3)%nat ->
  (forall i, (i < j)%nat ->
     producer_send env event (List.length (sends w) + i)%nat <> None) ->
  producer_send env event (List.length (sends w) + j)%nat = None ->
  fst (produceRawTelemetry env event w) = Ok tt
  /\ sends (snd (produceRawTelemetry env event w)) =
       (sends w ++ repeat event (S j))%list
  /\ published (snd (produceRawTelemetry env event w)) =
       (published w ++ [event])%list
  /\ timers (snd (produceRawTelemetry env event w)) =
       (timers w ++ firstn j [delay 1; delay 2])%list.
Proof.
  intros Hcon Hj Hfail Hack.
  unfold produceRawTelemetry. rewrite Hcon. cbn [negb].
  change (Z.to_nat maxRetries) with 3%nat.
  cbn [produce_from]. unfold try_catch, bind, send.
  destruct j as [|[|[|j]]]; [| | |lia].
  - rewrite Nat.add_0_r in Hack. rewrite Hack. cbn.
    rewrite app_nil_r. repeat split.
  - pose proof (Hfail 0%nat ltac:(lia)) as H0. rewrite Nat.add_0_r in H0.
    destruct (producer_send env event (List.length (sends w))) as [e0|];
      [|now elim H0].
    cbn. rewrite length_app. cbn [List.length]. rewrite Hack. cbn.
    rewrite <- app_assoc. repeat split.
  - pose proof (Hfail 0%nat ltac:(lia)) as H0. rewrite Nat.add_0_r in H0.
    pose proof (Hfail 1%nat ltac:(lia)) as H1.
    destruct (producer_send env event (List.length (sends w))) as [e0|];
      [|now elim H0].
    cbn. rewrite length_app. cbn [List.length].
    destruct (producer_send env event (List.length (sends w) + 1)) as [e1|];
      [|now elim H1].
    cbn. rewrite !length_app. cbn [List.length].
    replace (List.length (sends w) + 1 + 1)%nat with (List.length (sends w) + 2)%nat
      by lia.
    rewrite Hack. cbn. rewrite <- !app_assoc. repeat split.
Qed.

End Ingest.

Import GatewayScenario IngestScenario.

(** X14 on a Gateway whose producer is not connected. *)
Lemma producer_down_refuses_witness :
  exists msg,
    fst (receiveTelemetry broker_down reading disconnected)
      = Ok (HttpResponse.mk 400 false None msg)
    /\ (msg = notFoundMessage "D1" \/ msg = no_metric \/ msg = not_connected)
    /\ sends (snd (receiveTelemetry broker_down reading disconnected)) = []
    /\ published (snd (receiveTelemetry broker_down reading disconnected)) = []
    /\ timers (snd (receiveTelemetry broker_down reading disconnected)) = [].
Proof.
  exact (producer_down_refuses broker_down reading disconnected eq_refl).
Defined.

(** X15 on a request that reports a blood pressure only, with the Registry
    out of reach: the check passes and the answer is internal_error. *)
Lemma unrecognised_metrics_refused_witness :
  exists response,
    fst (sendMeasurements registry_unreachable pressure_rpc initial) = Ok response
    /\ SendMeasurementsResponse.event_id response = ""
    /\ sends (snd (sendMeasurements registry_unreachable pressure_rpc initial)) = []
    /\ lookups (snd (sendMeasurements registry_unreachable pressure_rpc initial))
         = ["D1"]
    /\ SendMeasurementsResponse.status response = STATUS_INTERNAL_ERROR
    /\ SendMeasurementsResponse.message response = no_metric.
Proof.
  destruct (unrecognised_metrics_refused registry_unreachable pressure_rpc initial
              ltac:(repeat constructor))
    as (response & Hr & Hid & Hs & _ & Hl & Hpass & _).
  exists response. split; [exact Hr|]. split; [exact Hid|]. split; [exact Hs|].
  split; [exact Hl|]. exact (Hpass eq_refl).
Defined.

(** X17 on a broker that refuses the first send. *)
Lemma publication_stops_at_first_ack_witness :
  fst (produceRawTelemetry broker_flaky raw_reading initial) = Ok tt
  /\ sends (snd (produceRawTelemetry broker_flaky raw_reading initial))
       = [raw_reading; raw_reading]
  /\ published (snd (produceRawTelemetry broker_flaky raw_reading initial))
       = [raw_reading]
  /\ timers (snd (produceRawTelemetry broker_flaky raw_reading initial)) = [1000].
Proof.
  exact (publication_stops_at_first_ack broker_flaky raw_reading initial 1
           eq_refl ltac:(cbn; lia)
           ltac:(intros [|i] Hi; [discriminate | lia]) eq_refl).
Defined.

End IngestFacts.

(** * The alert consumer of the incident service *)

Module AlertConsumerFacts.
Import AlertConsumer.

Section Connection.
Variable env : Env.

(** [subscribe] swallows whatever the kafkajs consumer throws. *)
Lemma subscribe_spec (w : World) :
  exists w',
    subscribe env w = (Ok tt, w')
    /\ isConnected w' = isConnected w
    /\ handler_set w' = handler_set w
    /\ connectionRetryAttempts w' = connectionRetryAttempts w
    /\ connects w' = connects w
    /\ timers w' = timers w
    /\ subscribes w' =
         if isConnected w then S (subscribes w) else subscribes w.
Proof.
  unfold subscribe. destruct (isConnected w) eqn:Hc; cbn [negb].
  - unfold try_catch, bind, call, log, effect.
    destruct (consumer_subscribe env (subscribes w)) as [e1|]; cbn.
    + eexists. split; [reflexivity|]. cbn. auto 10.
    + destruct (consumer_run env (runs w)) as [e2|]; cbn;
        eexists; (split; [reflexivity|]); cbn; auto 10.
  - exists w. rewrite Hc. auto 10.
Qed.

Lemma connect_connected (w : World) :
  isConnected w = true -> connect env w = (Ok tt, w).
Proof.
  intros H. unfold connect. rewrite H. reflexivity.
Qed.

Lemma connect_ok (w : World) :
  isConnected w = false ->
  consumer_connect env (connects w) = None ->
  exists w',
    connect env w = (Ok tt, w')
    /\ isConnected w' = true
    /\ handler_set w' = handler_set w
    /\ connectionRetryAttempts w' = connectionRetryAttempts w
    /\ connects w' = S (connects w)
    /\ timers w' = timers w
    /\ subscribes w' =
         if handler_set w then S (subscribes w) else subscribes w.
Proof.
  intros Hc Hok. unfold connect. rewrite Hc.
  unfold bind, call, log, effect.
  cbn [connects add_log]. rewrite Hok.
  cbn [handler_set add_log set_connected add_connect].
  destruct (handler_set w) eqn:Hh.
  - destruct (subscribe_spec
                (add_log (LLog, "Successfully connected to Kafka")
                   (set_connected true
                      (add_connect (add_log (LLog, "Connecting to Kafka...") w)))))
      as (w' & Heq & H1 & H2 & H3 & H4 & H5 & H6).
    exists w'. rewrite Heq. cbn in H1, H2, H3, H4, H5, H6.
    repeat split; congruence.
  - eexists. split; [reflexivity|]. cbn. repeat split; congruence.
Qed.

Lemma connect_fails (w : World) (error : Js.Error) :
  isConnected w = false ->
  consumer_connect env (connects w) = Some error ->
  connect env w =
    (Throw error, add_connect (add_log (LLog, "Connecting to Kafka...") w)).
Proof.
  intros Hc Hfail. unfold connect. rewrite Hc.
  unfold bind, call, log, effect. cbn. rewrite Hfail. reflexivity.
Qed.

Lemma connect_resolves_or_counts (w : World) :
  (exists w', connect env w = (Ok tt, w'))
  \/ (exists error,
        connect env w =
          (Throw error, add_connect (add_log (LLog, "Connecting to Kafka...") w))).
Proof.
  destruct (isConnected w) eqn:Hc.
  - left. exists w. now apply connect_connected.
  - destruct (consumer_connect env (connects w)) as [error|] eqn:Ho.
    + right. exists error. now apply connect_fails.
    + left. destruct (connect_ok w Hc Ho) as (w' & Heq & _). now exists w'.
Qed.

(** One turn of the loop whose [connect] fails. *)
Lemma loop_turn_fails (rest : nat) (w : World) (error : Js.Error) :
  connectionRetryAttempts w < (ConfigService.kafkaConnectionRetryAttempts (config env)) ->
  connect env w =
    (Throw error, add_connect (add_log (LLog, "Connecting to Kafka...") w)) ->
  let w1 :=
    add_log
      (LWarn,
       "Failed to connect to Kafka (attempt "
       ++ Js.show (connectionRetryAttempts w + 1) ++ "/"
       ++ Js.show (ConfigService.kafkaConnectionRetryAttempts (config env)) ++ ")")
      (set_attempts (connectionRetryAttempts w + 1)
         (add_connect (add_log (LLog, "Connecting to Kafka...") w))) in
  connect_loop env (S rest) w =
    if connectionRetryAttempts w + 1 <? (ConfigService.kafkaConnectionRetryAttempts (config env))
    then connect_loop env rest
           (add_timer (ConfigService.kafkaConnectionRetryDelay (config env))
              (add_log
                 (LLog, "Retrying connection in " ++ Js.show (ConfigService.kafkaConnectionRetryDelay (config env)) ++ "ms...")
                 w1))
    else (Ok tt,
          add_log
            (LError,
             "Max retry attempts reached. Service will continue without Kafka connection.")
            w1).
Proof.
  intros Hlt Hfail. cbv zeta. cbn [connect_loop].
  apply Z.ltb_lt in Hlt. rewrite Hlt.
  unfold try_catch, bind at 1. rewrite Hfail.
  unfold bind, log, sleep, effect.
  cbn [connectionRetryAttempts set_attempts add_connect add_log].
  destruct (connectionRetryAttempts w + 1 <? (ConfigService.kafkaConnectionRetryAttempts (config env))); reflexivity.
Qed.

(** One turn of the loop whose [connect] resolves. *)
Lemma loop_turn_resolves (rest : nat) (w w' : World) :
  connectionRetryAttempts w < (ConfigService.kafkaConnectionRetryAttempts (config env)) ->
  connect env w = (Ok tt, w') ->
  connect_loop env (S rest) w = (Ok tt, set_attempts 0 w').
Proof.
  intros Hlt Hok. cbn [connect_loop].
  apply Z.ltb_lt in Hlt. rewrite Hlt.
  unfold try_catch, bind. rewrite Hok. reflexivity.
Qed.

Lemma loop_resolves (n : nat) (w : World) : fst (connect_loop env n w) = Ok tt.
Proof.
  revert w. induction n as [|n IH]; intros w; [reflexivity|].
  destruct (Z.ltb_spec (connectionRetryAttempts w)
              (ConfigService.kafkaConnectionRetryAttempts (config env)))
    as [Hlt|Hge].
  - destruct (connect_resolves_or_counts w) as [(w' & Hok) | (error & Hfail)].
    + rewrite (loop_turn_resolves n w w' Hlt Hok). reflexivity.
    + rewrite (loop_turn_fails n w error Hlt Hfail).
      destruct (_ <? _); [apply IH | reflexivity].
  - cbn [connect_loop]. apply Z.ltb_ge in Hge. rewrite Hge. reflexivity.
Qed.

(** The turns the loop is given are all it can take: more change nothing. *)
Lemma loop_turns_suffice (extra n : nat) (w : World) :
  Z.of_nat n =
    Z.max 0 (ConfigService.kafkaConnectionRetryAttempts (config env)
             - connectionRetryAttempts w) ->
  connect_loop env (n + extra) w = connect_loop env n w.
Proof.
  revert w. induction n as [|n IH]; intros w Hn.
  - destruct extra as [|extra]; [reflexivity|]. cbn [Nat.add connect_loop].
    destruct (Z.ltb_spec (connectionRetryAttempts w)
                (ConfigService.kafkaConnectionRetryAttempts (config env)));
      [lia | reflexivity].
  - assert (Hlt : connectionRetryAttempts w
                  < ConfigService.kafkaConnectionRetryAttempts (config env))
      by lia.
    cbn [Nat.add].
    destruct (connect_resolves_or_counts w) as [(w' & Hok) | (error & Hfail)].
    + rewrite !(loop_turn_resolves _ w w' Hlt Hok). reflexivity.
    + rewrite !(loop_turn_fails _ w error Hlt Hfail).
      destruct (Z.ltb_spec (connectionRetryAttempts w + 1)
                  (ConfigService.kafkaConnectionRetryAttempts (config env)));
        [|reflexivity].
      apply IH. cbn. lia.
Qed.

(** When every [connect] fails, the loop uses up the attempts that are
    left. *)
Lemma loop_all_fail (n : nat) (w : World) :
  isConnected w = false ->
  (forall k, consumer_connect env k <> None) ->
  Z.of_nat (S n) = (ConfigService.kafkaConnectionRetryAttempts (config env)) - connectionRetryAttempts w ->
  exists w',
    connect_loop env (S n) w = (Ok tt, w')
    /\ isConnected w' = false
    /\ handler_set w' = handler_set w
    /\ connectionRetryAttempts w' = (ConfigService.kafkaConnectionRetryAttempts (config env))
    /\ connects w' = (connects w + S n)%nat
    /\ subscribes w' = subscribes w
    /\ timers w' = (timers w ++ repeat (ConfigService.kafkaConnectionRetryDelay (config env)) n)%list.
Proof.
  intros Hc Hfail. revert w Hc. induction n as [|n IH]; intros w Hc Hn.
  - destruct (consumer_connect env (connects w)) as [error|] eqn:Ho;
      [|now elim (Hfail (connects w))].
    rewrite (loop_turn_fails 0 w error ltac:(lia) (connect_fails w error Hc Ho)).
    destruct (Z.ltb_spec (connectionRetryAttempts w + 1) (ConfigService.kafkaConnectionRetryAttempts (config env))); [lia|].
    eexists. split; [reflexivity|]. cbn. rewrite app_nil_r.
    repeat split; try assumption; lia.
  - destruct (consumer_connect env (connects w)) as [error|] eqn:Ho;
      [|now elim (Hfail (connects w))].
    rewrite (loop_turn_fails (S n) w error ltac:(lia) (connect_fails w error Hc Ho)).
    destruct (Z.ltb_spec (connectionRetryAttempts w + 1) (ConfigService.kafkaConnectionRetryAttempts (config env))); [|lia].
    match goal with
    | |- context [connect_loop env (S n) ?w1] =>
        destruct (IH w1) as (w' & Heq & H1 & H2 & H3 & H4 & H5 & H6);
          [exact Hc | cbn; lia |]
    end.
    exists w'. split; [exact Heq|]. cbn in *.
    repeat (split; [assumption || lia|]).
    rewrite H6, <- app_assoc. reflexivity.
Qed.

(** After [j] refused connections the next one, if it is accepted within
    the attempts that are left, ends the loop. *)
Lemma connect_loop_recovers (j n : nat) (w : World) :
  isConnected w = false ->
  (forall i, (i < j)%nat -> consumer_connect env (connects w + i)%nat <> None) ->
  consumer_connect env (connects w + j)%nat = None ->
  (j < n)%nat ->
  Z.of_nat n = (ConfigService.kafkaConnectionRetryAttempts (config env)) - connectionRetryAttempts w ->
  exists w',
    connect_loop env n w = (Ok tt, w')
    /\ isConnected w' = true
    /\ handler_set w' = handler_set w
    /\ connectionRetryAttempts w' = 0
    /\ connects w' = (connects w + S j)%nat
    /\ subscribes w' =
         (if handler_set w then S (subscribes w) else subscribes w)
    /\ timers w' = (timers w ++ repeat (ConfigService.kafkaConnectionRetryDelay (config env)) j)%list.
Proof.
  revert n w. induction j as [|j IH]; intros n w Hc Hfail Hok Hj Hn.
  - destruct n as [|n]; [lia|]. rewrite Nat.add_0_r in Hok.
    destruct (connect_ok w Hc Hok) as (w' & Heq & H1 & H2 & H3 & H4 & H5 & H6).
    rewrite (loop_turn_resolves n w w' ltac:(lia) Heq).
    eexists. split; [reflexivity|]. cbn. rewrite app_nil_r.
    repeat (split; [assumption || lia|]). exact H5.
  - destruct n as [|n]; [lia|].
    pose proof (Hfail 0%nat ltac:(lia)) as H0. rewrite Nat.add_0_r in H0.
    destruct (consumer_connect env (connects w)) as [error|] eqn:Ho;
      [|now elim H0].
    rewrite (loop_turn_fails n w error ltac:(lia) (connect_fails w error Hc Ho)).
    destruct (Z.ltb_spec (connectionRetryAttempts w + 1) (ConfigService.kafkaConnectionRetryAttempts (config env))); [|lia].
    match goal with
    | |- context [connect_loop env n ?w1] =>
        destruct (IH n w1) as (w' & Heq & H1 & H2 & H3 & H4 & H5 & H6)
    end.
    + exact Hc.
    + intros i Hi. cbn. replace (S (connects w + i))%nat with (connects w + S i)%nat by lia.
      apply Hfail. lia.
    + cbn. replace (S (connects w + j))%nat with (connects w + S j)%nat by lia.
      exact Hok.
    + lia.
    + cbn. lia.
    + exists w'. split; [exact Heq|]. cbn in *.
      repeat (split; [assumption || lia|]).
      rewrite H6, <- app_assoc. reflexivity.
Qed.

Lemma connection_recovers_at (w : World) :
  isConnected w = false ->
  connectionRetryAttempts w
    < ConfigService.kafkaConnectionRetryAttempts (config env) ->
  consumer_connect env (connects w + 0)%nat = None ->
  exists w',
    connectWithRetry env w = (Ok tt, w')
    /\ isConnected w' = true
    /\ handler_set w' = handler_set w
    /\ connects w' = S (connects w)
    /\ subscribes w' =
         (if handler_set w then S (subscribes w) else subscribes w).
Proof.
  intros Hc Hlt Hok. unfold connectWithRetry.
  destruct (connect_loop_recovers 0
              (Z.to_nat (ConfigService.kafkaConnectionRetryAttempts (config env)
                         - connectionRetryAttempts w)) w Hc
              ltac:(intros i Hi; lia) Hok ltac:(lia) ltac:(lia))
    as (w' & Heq & H1 & H2 & H3 & H4 & H5 & H6).
  exists w'. rewrite Nat.add_1_r in H4. auto 10.
Qed.

(** X18. Connecting never rejects: [connectWithRetry] resolves whatever
    the broker does, so the [catch] clauses of its callers are never
    entered; [retryConnection] resolves with the connection state it
    leaves, and [startConsuming] rejects exactly when no handler is set. *)
Theorem connecting_never_rejects (w : World) :
  fst (connectWithRetry env w) = Ok tt
  /\ fst (retryConnection env w) = Ok (isConnected (snd (retryConnection env w)))
  /\ resolved (fst (startConsuming env w)) = handler_set w.
Proof.
  split; [apply loop_resolves|]. split.
  - unfold retryConnection. destruct (isConnected w) eqn:Hc.
    + cbn. now rewrite Hc.
    + unfold try_catch, bind.
      pose proof (loop_resolves
                    (Z.to_nat (ConfigService.kafkaConnectionRetryAttempts (config env)
                               - connectionRetryAttempts w)) w) as Hr.
      unfold connectWithRetry.
      destruct (connect_loop env _ w) as [r w1]. cbn in Hr. subst r. reflexivity.
  - unfold startConsuming. destruct (handler_set w); cbn [negb]; [|reflexivity].
    unfold bind.
    assert (Hfirst : exists w1,
               (if negb (isConnected w) then connectWithRetry env w else (Ok tt, w))
               = (Ok tt, w1)).
    { destruct (isConnected w); cbn [negb]; [now exists w|].
      pose proof (loop_resolves
                    (Z.to_nat (ConfigService.kafkaConnectionRetryAttempts (config env)
                               - connectionRetryAttempts w)) w) as Hr.
      unfold connectWithRetry.
      destruct (connect_loop env _ w) as [r w1]. cbn in Hr. subst r.
      now exists w1. }
    destruct Hfirst as (w1 & ->).
    destruct (isConnected w1); [|reflexivity].
    destruct (subscribe_spec w1) as (w2 & -> & _). reflexivity.
Qed.

(** X19. When the broker refuses every connection, [connectWithRetry]
    uses up the attempts that are left and resolves all the same: it has
    called [consumer.connect] [maxAttempts - connectionRetryAttempts]
    times, waited the configured delay between two calls (not after the
    last), and leaves the service unconnected with its counter at
    [maxAttempts]. *)
Theorem connection_attempts_run_out (w : World) :
  isConnected w = false ->
  connectionRetryAttempts w
    < ConfigService.kafkaConnectionRetryAttempts (config env) ->
  (forall k, consumer_connect env k <> None) ->
  exists w',
    connectWithRetry env w = (Ok tt, w')
    /\ isConnected w' = false
    /\ connectionRetryAttempts w' =
         ConfigService.kafkaConnectionRetryAttempts (config env)
    /\ connects w' =
         (connects w
          + Z.to_nat (ConfigService.kafkaConnectionRetryAttempts (config env)
                      - connectionRetryAttempts w))%nat
    /\ subscribes w' = subscribes w
    /\ timers w' =
         (timers w
          ++ repeat (ConfigService.kafkaConnectionRetryDelay (config env))
               (Z.to_nat (ConfigService.kafkaConnectionRetryAttempts (config env)
                          - connectionRetryAttempts w) - 1))%list.
Proof.
  intros Hc Hlt Hfail. unfold connectWithRetry.
  destruct (Z.to_nat (ConfigService.kafkaConnectionRetryAttempts (config env)
                      - connectionRetryAttempts w)) as [|n] eqn:Hn; [lia|].
  destruct (loop_all_fail n w Hc Hfail ltac:(lia))
    as (w' & Heq & H1 & _ & H3 & H4 & H5 & H6).
  exists w'. cbn [Nat.sub]. rewrite Nat.sub_0_r. auto 10.
Qed.

(** X20. Giving up is for good: the counter is reset only by a successful
    connection, so once it has reached [maxAttempts] on an unconnected
    service, [connectWithRetry], [retryConnection] and [startConsuming] no
    longer call [consumer.connect] at all, whatever the broker would
    answer now; [retryConnection] just resolves with [false]. *)
Theorem given_up_for_good (w : World) :
  isConnected w = false ->
  ConfigService.kafkaConnectionRetryAttempts (config env)
    <= connectionRetryAttempts w ->
  connectWithRetry env w = (Ok tt, w)
  /\ retryConnection env w = (Ok false, w)
  /\ (handler_set w = true ->
      fst (startConsuming env w) = Ok tt
      /\ isConnected (snd (startConsuming env w)) = false
      /\ connects (snd (startConsuming env w)) = connects w
      /\ subscribes (snd (startConsuming env w)) = subscribes w).
Proof.
  intros Hc Hge.
  assert (Hloop : connectWithRetry env w = (Ok tt, w)).
  { unfold connectWithRetry.
    replace (Z.to_nat (ConfigService.kafkaConnectionRetryAttempts (config env)
                       - connectionRetryAttempts w)) with 0%nat by lia.
    reflexivity. }
  split; [exact Hloop|]. split.
  - unfold retryConnection, try_catch, bind. rewrite Hc, Hloop, Hc. reflexivity.
  - intros Hh. unfold startConsuming, bind. rewrite Hh, Hc. cbn [negb].
    rewrite Hloop, Hc. cbn. auto.
Qed.

(** X21. A connection that is accepted after [j] refusals, within the
    attempts that are left, ends the loop: the service is connected after
    [j + 1] calls of [consumer.connect] and [j] waits, its counter is back
    at zero, and it has subscribed once if a handler was set and not at
    all otherwise. *)
Theorem connection_recovers (w : World) (j : nat) :
  isConnected w = false ->
  connectionRetryAttempts w + Z.of_nat j
    < ConfigService.kafkaConnectionRetryAttempts (config env) ->
  (forall i, (i < j)%nat -> consumer_connect env (connects w + i)%nat <> None) ->
  consumer_connect env (connects w + j)%nat = None ->
  exists w',
    connectWithRetry env w = (Ok tt, w')
    /\ isConnected w' = true
    /\ connectionRetryAttempts w' = 0
    /\ connects w' = (connects w + S j)%nat
    /\ subscribes w' =
         (if handler_set w then S (subscribes w) else subscribes w)
    /\ timers w' =
         (timers w
          ++ repeat (ConfigService.kafkaConnectionRetryDelay (config env)) j)%list.
Proof.
  intros Hc Hlt Hfail Hok. unfold connectWithRetry.
  destruct (connect_loop_recovers j
              (Z.to_nat (ConfigService.kafkaConnectionRetryAttempts (config env)
                         - connectionRetryAttempts w)) w Hc Hfail Hok
              ltac:(lia) ltac:(lia))
    as (w' & Heq & H1 & _ & H3 & H4 & H5 & H6).
  exists w'. auto 10.
Qed.

(** X22. [startConsuming] on a service that is not yet connected
    subscribes twice when the connection is accepted: once inside
    [connect], because the handler is set, and once more after
    [connectWithRetry] has returned. On a service that is already
    connected it subscribes once. *)
Theorem startConsuming_subscribes_twice (w : World) :
  handler_set w = true ->
  connectionRetryAttempts w
    < ConfigService.kafkaConnectionRetryAttempts (config env) ->
  consumer_connect env (connects w) = None ->
  fst (startConsuming env w) = Ok tt
  /\ isConnected (snd (startConsuming env w)) = true
  /\ subscribes (snd (startConsuming env w)) =
       (if isConnected w then S (subscribes w) else S (S (subscribes w)))
  /\ connects (snd (startConsuming env w)) =
       (if isConnected w then connects w else S (connects w)).
Proof.
  intros Hh Hlt Hok. unfold startConsuming, bind. rewrite Hh. cbn [negb].
  destruct (isConnected w) eqn:Hc; cbn [negb].
  - rewrite Hc.
    destruct (subscribe_spec w) as (w2 & -> & H1 & _ & _ & H4 & _ & H6).
    cbn. rewrite Hc in *. auto.
  - rewrite <- (Nat.add_0_r (connects w)) in Hok.
    destruct (connection_recovers_at w Hc Hlt Hok)
      as (w1 & -> & H1 & H2 & H4 & H5).
    rewrite H1.
    destruct (subscribe_spec w1) as (w2 & -> & K1 & _ & _ & K4 & _ & K6).
    cbn. rewrite H1 in *. rewrite Hh in H5. repeat split; congruence.
Qed.

End Connection.

(** X19 on a broker that is never reached: ten calls, nine waits. *)
Lemma connection_attempts_run_out_witness :
  exists w',
    connectWithRetry no_broker ready = (Ok tt, w')
    /\ isConnected w' = false
    /\ connectionRetryAttempts w' = 10
    /\ connects w' = 10%nat
    /\ subscribes w' = 0%nat
    /\ timers w' = repeat 5000 9.
Proof.
  exact (connection_attempts_run_out no_broker ready eq_refl ltac:(cbn; lia)
           ltac:(intros k; discriminate)).
Defined.

(** X20 on a service that gave up, although the broker is back. *)
Lemma given_up_for_good_witness :
  connectWithRetry (broker_from 0) exhausted = (Ok tt, exhausted)
  /\ retryConnection (broker_from 0) exhausted = (Ok false, exhausted)
  /\ connects (snd (startConsuming (broker_from 0) exhausted)) = 10%nat
  /\ subscribes (snd (startConsuming (broker_from 0) exhausted)) = 0%nat.
Proof.
  destruct (given_up_for_good (broker_from 0) exhausted eq_refl ltac:(cbn; lia))
    as (Hloop & Hretry & Hstart).
  destruct (Hstart eq_refl) as (_ & _ & Hc & Hs).
  split; [exact Hloop|]. split; [exact Hretry|]. split; [exact Hc | exact Hs].
Defined.

(** X21 on a broker that accepts the fourth connection. *)
Lemma connection_recovers_witness :
  exists w',
    connectWithRetry (broker_from 3) ready = (Ok tt, w')
    /\ isConnected w' = true
    /\ connectionRetryAttempts w' = 0
    /\ connects w' = 4%nat
    /\ subscribes w' = 1%nat
    /\ timers w' = [5000; 5000; 5000].
Proof.
  exact (connection_recovers (broker_from 3) ready 3 eq_refl ltac:(cbn; lia)
           ltac:(intros [|[|[|i]]] Hi; cbn; (discriminate || lia))
           eq_refl).
Defined.

(** X22 on a broker that accepts the first connection. *)
Lemma startConsuming_subscribes_twice_witness :
  fst (startConsuming (broker_from 0) ready) = Ok tt
  /\ isConnected (snd (startConsuming (broker_from 0) ready)) = true
  /\ subscribes (snd (startConsuming (broker_from 0) ready)) = 2%nat
  /\ connects (snd (startConsuming (broker_from 0) ready)) = 1%nat.
Proof.
  exact (startConsuming_subscribes_twice (broker_from 0) ready eq_refl
           ltac:(cbn; lia) eq_refl).
Defined.

End AlertConsumerFacts.

(** * The rate limiter of the notification service *)

Module RateLimitFacts.
Import RateLimit.

Lemma is_key_refl (key : string) (entry : Entry.t) :
  is_key key (key, entry) = true.
Proof. unfold is_key. cbn. apply String.eqb_refl. Qed.

Lemma get_set_same (key : string) (entry : Entry.t) (store : Store) :
  get key (set key entry store) = Some entry.
Proof.
  unfold get, set.
  destruct (existsb (is_key key) store) eqn:Hex.
  - induction store as [|kv store IH]; [discriminate Hex|].
    cbn [map find]. cbn [existsb] in Hex.
    destruct (is_key key kv) eqn:Hk.
    + rewrite is_key_refl. reflexivity.
    + rewrite Hk. apply IH. exact Hex.
  - induction store as [|kv store IH]; cbn [app find].
    + rewrite is_key_refl. reflexivity.
    + cbn [existsb] in Hex. apply orb_false_elim in Hex.
      destruct Hex as (Hk & Hex). rewrite Hk. apply IH, Hex.
Qed.

Lemma get_set_other (key other : string) (entry : Entry.t) (store : Store) :
  other <> key ->
  get other (set key entry store) = get other store.
Proof.
  intros Hne. unfold get, set.
  assert (Hnew : is_key other (key, entry) = false).
  { unfold is_key. cbn. apply String.eqb_neq. congruence. }
  destruct (existsb (is_key key) store).
  - induction store as [|kv store IH]; [reflexivity|].
    cbn [map find].
    destruct (is_key key kv) eqn:Hk.
    + rewrite Hnew.
      assert (Hkv : is_key other kv = false).
      { unfold is_key in *. apply String.eqb_eq in Hk. apply String.eqb_neq.
        congruence. }
      rewrite Hkv. exact IH.
    + destruct (is_key other kv); [reflexivity | exact IH].
  - induction store as [|kv store IH]; cbn [app find].
    + now rewrite Hnew.
    + destruct (is_key other kv); [reflexivity | exact IH].
Qed.

Lemma get_delete_same (key : string) (store : Store) :
  get key (delete key store) = None.
Proof.
  unfold get, delete.
  induction store as [|kv store IH]; [reflexivity|].
  cbn [filter]. destruct (is_key key kv) eqn:Hk; cbn [negb]; [exact IH|].
  cbn [find]. rewrite Hk. exact IH.
Qed.

(** An entry that is kept is still found after the others were cleaned. *)
Lemma get_filter (key : string) (entry : Entry.t) (keep : string * Entry.t -> bool)
  (store : Store) :
  get key store = Some entry ->
  (forall k, keep (k, entry) = true) ->
  get key (filter keep store) = Some entry.
Proof.
  unfold get. intros Hget Hkeep.
  induction store as [|[k e] store IH]; [discriminate Hget|].
  cbn [find] in Hget. cbn [filter].
  destruct (is_key key (k, e)) eqn:Hk.
  - cbn in Hget. injection Hget as ->.
    rewrite Hkeep. cbn [find]. rewrite Hk. reflexivity.
  - destruct (keep (k, e)); [cbn [find]; rewrite Hk|]; apply IH, Hget.
Qed.

Section Limiter.
Variable env : Env.

(** The call that opens a window: no entry, or one whose window is over. *)
Lemma memory_opens_window (patientId : string) (w : World) :
  match get patientId (inMemoryStore w) with
  | Some entry => Entry.resetAt entry < clock env (clock_reads w)
  | None => True
  end ->
  isRateLimitedInMemory env patientId w =
    (Ok false,
     set_store
       (filter (live (clock env (S (clock_reads w))))
          (set patientId
             (Entry.mk 1
                (clock env (clock_reads w)
                 + ConfigService.rateLimitWindowMs (config env)))
             (inMemoryStore w)))
       (add_clock_read (add_clock_read w))).
Proof.
  intros Hstart. unfold isRateLimitedInMemory, bind at 1, now at 1.
  cbn [inMemoryStore add_clock_read].
  destruct (get patientId (inMemoryStore w)) as [entry|].
  - apply Z.ltb_lt in Hstart. rewrite Hstart. reflexivity.
  - reflexivity.
Qed.

(** A call inside the window counts, and leaves every other entry alone. *)
Lemma memory_counts (patientId : string) (w : World) (entry : Entry.t) :
  get patientId (inMemoryStore w) = Some entry ->
  clock env (clock_reads w) <= Entry.resetAt entry ->
  isRateLimitedInMemory env patientId w =
    (Ok (ConfigService.rateLimitMaxNotifications (config env)
         <? Entry.count entry + 1),
     set_store
       (set patientId
          (Entry.mk (Entry.count entry + 1) (Entry.resetAt entry))
          (inMemoryStore w))
       (add_clock_read w)).
Proof.
  intros Hget Hlive. unfold isRateLimitedInMemory, bind at 1, now at 1.
  cbn [inMemoryStore add_clock_read]. rewrite Hget.
  destruct (Z.ltb_spec (Entry.resetAt entry) (clock env (clock_reads w)));
    [lia | reflexivity].
Qed.

Lemma without_redis (patientId : string) (w : World) :
  redis w = false ->
  isRateLimited env patientId w =
    isRateLimitedInMemory env patientId (add_clock_read w).
Proof.
  intros Hoff. unfold isRateLimited, bind, now.
  cbn [redis add_clock_read]. rewrite Hoff. reflexivity.
Qed.

(** Inside a window the answers follow the count, every call adds one to
    it, and the end of the window stays where it is. Each call reads the
    clock twice. *)
Lemma calls_in_window (n : nat) (patientId : string) (w : World)
  (count resetAt : Z) :
  redis w = false ->
  get patientId (inMemoryStore w) = Some (Entry.mk count resetAt) ->
  (forall i, (i < clock_reads w + 2 * n)%nat -> clock env i <= resetAt) ->
  fst (calls env n patientId w) =
    Ok (map (fun k =>
               ConfigService.rateLimitMaxNotifications (config env)
               <? count + Z.of_nat k)
          (seq 1 n))
  /\ get patientId (inMemoryStore (snd (calls env n patientId w))) =
       Some (Entry.mk (count + Z.of_nat n) resetAt).
Proof.
  revert w count. induction n as [|n IH]; intros w count Hoff Hget Hclock.
  - split; [reflexivity|]. cbn. rewrite Z.add_0_r. exact Hget.
  - remember (calls env (S n) patientId w) as outcome eqn:Hout.
    cbn [calls] in Hout. unfold bind at 1 in Hout.
    rewrite (without_redis patientId w Hoff) in Hout.
    rewrite (memory_counts patientId (add_clock_read w) _ Hget
               (Hclock (S (clock_reads w)) ltac:(lia))) in Hout.
    cbn [Entry.count Entry.resetAt] in Hout. unfold bind at 1 in Hout.
    match type of Hout with
    | context [calls env n patientId ?w1] =>
        specialize (IH w1 (count + 1) Hoff (get_set_same _ _ _));
          destruct (calls env n patientId w1) as [r w2]
    end.
    cbn [fst snd clock_reads set_store add_clock_read] in IH.
    destruct IH as (IHa & IHs); [intros i Hi; apply Hclock; lia|].
    cbn [fst] in IHa. subst r. cbv beta iota delta [ret] in Hout. subst outcome.
    cbn [fst snd seq map].
    split.
    + rewrite <- (seq_shift n 1), map_map. do 2 f_equal.
      apply map_ext. intros k. f_equal. lia.
    + rewrite IHs. do 2 f_equal. lia.
Qed.

Lemma memory_keeps_others (patientId other : string) (w : World)
  (entry : Entry.t) :
  other <> patientId ->
  get other (inMemoryStore w) = Some entry ->
  clock env (S (clock_reads w)) <= Entry.resetAt entry ->
  get other (inMemoryStore (snd (isRateLimitedInMemory env patientId w)))
    = Some entry.
Proof.
  intros Hne Hget Hclock.
  assert (Hfresh :
            get other
              (filter (live (clock env (S (clock_reads w))))
                 (set patientId
                    (Entry.mk 1
                       (clock env (clock_reads w)
                        + ConfigService.rateLimitWindowMs (config env)))
                    (inMemoryStore w))) = Some entry).
  { apply get_filter.
    - rewrite (get_set_other _ _ _ _ Hne). exact Hget.
    - intros k. unfold live. cbn [snd].
      destruct (Z.ltb_spec (Entry.resetAt entry) (clock env (S (clock_reads w))));
        [lia | reflexivity]. }
  unfold isRateLimitedInMemory, bind at 1, now at 1.
  cbn [inMemoryStore add_clock_read].
  destruct (get patientId (inMemoryStore w)) as [mine|]; [|exact Hfresh].
  destruct (Entry.resetAt mine <? clock env (clock_reads w)); [exact Hfresh|].
  cbn [snd inMemoryStore set_store].
  rewrite (get_set_other _ _ _ _ Hne). exact Hget.
Qed.

Lemma get_delete_other (key other : string) (store : Store) :
  other <> key -> get other (delete key store) = get other store.
Proof.
  intros Hne. unfold get, delete.
  induction store as [|kv store IH]; [reflexivity|].
  cbn [filter find]. destruct (is_key key kv) eqn:Hk; cbn [negb].
  - assert (Hkv : is_key other kv = false).
    { unfold is_key in *. apply String.eqb_eq in Hk. apply String.eqb_neq.
      congruence. }
    rewrite Hkv. exact IH.
  - cbn [find]. destruct (is_key other kv); [reflexivity | exact IH].
Qed.

(** X23. Without Redis the limiter counts per fixed window: the call
    that opens a window (no entry for the patient, or one whose window is
    over) is never limited, whatever the configured maximum, and as long
    as the clock stays inside the window the k-th call is limited exactly
    when k exceeds the maximum. Limited calls are counted too, and no call
    moves the end of the window: after the calls the patient's entry holds
    the number of all calls made, and the end the opening call gave the
    window, its reading of the clock plus the configured length. *)
Theorem window_counts (n : nat) (patientId : string) (w : World) :
  redis w = false ->
  match get patientId (inMemoryStore w) with
  | Some entry => Entry.resetAt entry < clock env (S (clock_reads w))
  | None => True
  end ->
  (forall i,
     (i < clock_reads w + 2 * n + 3)%nat ->
     clock env i
     <= clock env (S (clock_reads w))
        + ConfigService.rateLimitWindowMs (config env)) ->
  fst (calls env (S n) patientId w) =
    Ok (false
        :: map (fun k =>
                  ConfigService.rateLimitMaxNotifications (config env)
                  <? Z.of_nat k)
             (seq 2 n))
  /\ get patientId (inMemoryStore (snd (calls env (S n) patientId w))) =
       Some (Entry.mk (Z.of_nat (S n))
               (clock env (S (clock_reads w))
                + ConfigService.rateLimitWindowMs (config env))).
Proof.
  intros Hoff Hstart Hclock.
  remember (calls env (S n) patientId w) as outcome eqn:Hout.
  cbn [calls] in Hout. unfold bind at 1 in Hout.
  rewrite (without_redis patientId w Hoff) in Hout.
  rewrite (memory_opens_window patientId (add_clock_read w) Hstart) in Hout.
  unfold bind at 1 in Hout. cbn [clock_reads add_clock_read] in Hout.
  match type of Hout with
  | context [calls env n patientId ?w1] =>
      pose proof (calls_in_window n patientId w1 1
                    (clock env (S (clock_reads w))
                     + ConfigService.rateLimitWindowMs (config env))) as Hrest;
        destruct (calls env n patientId w1) as [r w2]
  end.
  cbn [fst snd redis inMemoryStore clock_reads set_store add_clock_read] in Hrest.
  destruct Hrest as (Hanswers & Hstore); [exact Hoff | | |].
  - apply get_filter; [apply get_set_same|].
    intros k. unfold live. cbn [snd Entry.resetAt].
    destruct (Z.ltb_spec
                (clock env (S (clock_reads w))
                 + ConfigService.rateLimitWindowMs (config env))
                (clock env (S (S (clock_reads w))))); [|reflexivity].
    pose proof (Hclock (S (S (clock_reads w))) ltac:(lia)). lia.
  - intros i Hi. apply Hclock. lia.
  - cbn [fst] in Hanswers. subst r. cbv beta iota delta [ret] in Hout.
    subst outcome. cbn [fst snd]. split.
    + rewrite <- (seq_shift n 1), map_map. do 2 f_equal.
      apply map_ext. intros k. f_equal. lia.
    + rewrite Hstore. do 2 f_equal. lia.
Qed.

(** X24. The counters of different patients do not interfere: a call
    for one patient, with or without Redis, leaves the entry of any other
    patient as it is, as long as that entry's window is not over when the
    call cleans the store. *)
Theorem patients_independent (patientId other : string) (w : World)
  (entry : Entry.t) :
  other <> patientId ->
  get other (inMemoryStore w) = Some entry ->
  clock env (S (S (clock_reads w))) <= Entry.resetAt entry ->
  get other (inMemoryStore (snd (isRateLimited env patientId w))) = Some entry.
Proof.
  intros Hne Hget Hclock.
  unfold isRateLimited, bind at 1, now at 1.
  cbn [redis add_clock_read].
  destruct (redis w).
  - unfold try_catch, bind, incr, pexpire, log, effect, ret.
    cbn [redis_calls add_clock_read].
    destruct (redis_incr env _ (redis_calls w)) as [count|error].
    + destruct (count =? 1).
      * cbn [redis_calls add_redis_call add_clock_read].
        destruct (redis_pexpire env _ _ _) as [error|].
        -- apply memory_keeps_others; assumption.
        -- exact Hget.
      * exact Hget.
    + apply memory_keeps_others; assumption.
  - apply memory_keeps_others; assumption.
Qed.

(** X25. [resetRateLimit] never rejects, even when Redis fails; it
    removes the patient's entry and no other, and without Redis the
    patient's next call is not limited, however many came before. *)
Theorem reset_opens_a_window (patientId : string) (w : World) :
  fst (resetRateLimit env patientId w) = Ok tt
  /\ get patientId (inMemoryStore (snd (resetRateLimit env patientId w))) = None
  /\ (forall other,
        other <> patientId ->
        get other (inMemoryStore (snd (resetRateLimit env patientId w)))
          = get other (inMemoryStore w))
  /\ (redis w = false ->
      fst (isRateLimited env patientId (snd (resetRateLimit env patientId w)))
        = Ok false).
Proof.
  assert (Hreset : exists w1,
             resetRateLimit env patientId w =
               (Ok tt, set_store (delete patientId (inMemoryStore w)) w1)
             /\ redis w1 = redis w).
  { unfold resetRateLimit, bind, try_catch, del, log, effect.
    destruct (redis w) eqn:Hr.
    - destruct (redis_del env _ (redis_calls w));
        eexists; (split; [reflexivity|]); exact Hr.
    - exists w. split; [reflexivity | exact Hr]. }
  destruct Hreset as (w1 & -> & Hr).
  cbn [fst snd inMemoryStore set_store].
  split; [reflexivity|]. split; [apply get_delete_same|].
  split; [intros other Hne; apply get_delete_other, Hne|].
  intros Hoff.
  rewrite without_redis; [|cbn; congruence].
  rewrite memory_opens_window; [reflexivity|].
  cbn [inMemoryStore set_store add_clock_read].
  now rewrite get_delete_same.
Qed.

End Limiter.

(** X23 with a limit of two a minute: the third and fourth call of a
    patient within the minute are limited, and counted; the window still
    ends a minute after the first call read the clock. *)
Lemma window_counts_witness :
  fst (calls strict 4 "P1" initial) = Ok [false; false; true; true]
  /\ get "P1" (inMemoryStore (snd (calls strict 4 "P1" initial))) =
       Some (Entry.mk 4 61000).
Proof.
  exact (window_counts strict 3 "P1" initial eq_refl I
           ltac:(intros i Hi; cbn in Hi;
                 change (1000 * Z.of_nat i <= 1000 * 1 + 60000); lia)).
Defined.

(** X24: a call for P1 leaves the live entry of P2 alone. *)
Lemma patients_independent_witness :
  get "P2"
    (inMemoryStore
       (snd (isRateLimited ticking "P1"
               (mkWorld false [("P2", Entry.mk 4 60000)] 0 0 []))))
  = Some (Entry.mk 4 60000).
Proof.
  exact (patients_independent ticking "P1" "P2"
           (mkWorld false [("P2", Entry.mk 4 60000)] 0 0 []) (Entry.mk 4 60000)
           ltac:(discriminate) eq_refl ltac:(cbn; lia)).
Defined.

End RateLimitFacts.

(** * The incident service *)

Module IncidentFacts.
Import Incident.

Section Alerts.
Variable Row : Type.
Variable env : Env Row.

(** What [create] hands to Prisma. *)
Lemma create_issues (dto : CreateIncidentDto.t) (w : World) :
  creates (snd (create env dto w)) =
    (creates w
     ++ [IncidentData.mk (CreateIncidentDto.patientId dto)
           (CreateIncidentDto.deviceId dto) (CreateIncidentDto.severity dto)
           (CreateIncidentDto.type dto) IncidentStatus_OPEN
           match CreateIncidentDto.details dto with
           | Some details => details
           | None => Details.empty
           end])%list.
Proof.
  unfold create, bind, log, effect. cbn [creates].
  destruct (incident_create env _ _); reflexivity.
Qed.

Lemma severityMap_other (k : string) :
  existsb (String.eqb k) severities = false ->
  k <> "constructor" -> k <> "__proto__" ->
  severityMap (Some k) = None.
Proof.
  unfold severities. cbn [existsb severityMap]. intros H Hc Hp.
  repeat (apply orb_false_elim in H; destruct H as (? & H)).
  repeat match goal with E : (k =? _)%string = false |- _ => rewrite E; clear E end.
  apply String.eqb_neq in Hc, Hp. rewrite Hc, Hp. reflexivity.
Qed.

Lemma severityMap_own (k : string) :
  existsb (String.eqb k) severities = true ->
  severityMap (Some k) = Some (Named k).
Proof.
  unfold severities. cbn [existsb severityMap].
  destruct (String.eqb_spec k "low") as [->|_]; [reflexivity|].
  destruct (String.eqb_spec k "medium") as [->|_]; [reflexivity|].
  destruct (String.eqb_spec k "high") as [->|_]; [reflexivity|].
  destruct (String.eqb_spec k "critical") as [->|_]; [reflexivity|].
  discriminate.
Qed.

(** X26. What severity an incident gets from an alert. A severity that
    is a string gives, whatever its case, the severity of that name when
    it is low, medium, high or critical, and medium otherwise, the two
    names "constructor" and "__proto__" apart, for which the lookup finds
    what every object inherits and hands that to the database instead of
    a string. A missing or [null] severity gives medium. In all these
    cases exactly one incident is created, with status OPEN. A severity
    that is neither a string nor missing makes [createFromAlert] reject
    before anything is created. *)
Theorem incident_severity (alertEvent : AlertEvent.t) (w : World) :
  match AlertEvent.severity alertEvent with
  | Some (JString s) =>
      exists data,
        creates (snd (createFromAlert env alertEvent w)) = (creates w ++ [data])%list
        /\ IncidentData.status data = "OPEN"
        /\ IncidentData.patientId data = AlertEvent.patient_id alertEvent
        /\ IncidentData.severity data =
             if existsb (String.eqb (Js.toLowerCase s)) severities
             then Named (Js.toLowerCase s)
             else if existsb (String.eqb (Js.toLowerCase s))
                       ["constructor"; "__proto__"]
                  then Inherited (Js.toLowerCase s)
                  else Named "medium"
  | None | Some JNull =>
      exists data,
        creates (snd (createFromAlert env alertEvent w)) = (creates w ++ [data])%list
        /\ IncidentData.status data = "OPEN"
        /\ IncidentData.patientId data = AlertEvent.patient_id alertEvent
        /\ IncidentData.severity data = Named "medium"
  | Some _ =>
      resolved (fst (createFromAlert env alertEvent w)) = false
      /\ creates (snd (createFromAlert env alertEvent w)) = creates w
  end.
Proof.
  unfold createFromAlert. unfold bind, log, effect, lowered, ret, throw.
  destruct (AlertEvent.severity alertEvent) as [[| | |s| |]|];
    cbv beta iota;
    try (split; reflexivity);
    try (rewrite create_issues; eexists; split; [reflexivity|];
         repeat split; fail).
  rewrite create_issues. eexists. split; [reflexivity|].
  cbn [IncidentData.status IncidentData.patientId IncidentData.severity
       CreateIncidentDto.severity CreateIncidentDto.patientId].
  split; [reflexivity|]. split; [reflexivity|].
  destruct (existsb (String.eqb (Js.toLowerCase s)) severities) eqn:Hown.
  - now rewrite (severityMap_own _ Hown).
  - cbn [existsb].
    destruct (String.eqb_spec (Js.toLowerCase s) "constructor") as [->|Hc];
      [reflexivity|].
    destruct (String.eqb_spec (Js.toLowerCase s) "__proto__") as [->|Hp];
      [reflexivity|].
    now rewrite (severityMap_other _ Hown Hc Hp).
Qed.

End Alerts.

Section Listing.
Variable Row : Type.

Lemma ceil_div_spec (total limit : Z) :
  0 < limit ->
  total <= limit * ceil_div total limit < total + limit.
Proof.
  intros Hl. unfold ceil_div.
  pose proof (Z.div_mod (- total) limit ltac:(lia)) as Hdm.
  pose proof (Z.mod_pos_bound (- total) limit Hl) as Hb.
  nia.
Qed.

(** Pages of [size] rows, taken one after the other, give the rows back. *)
Lemma chunks (size : nat) (pages : nat) (rows : list Row) :
  (0 < size)%nat ->
  (List.length rows <= pages * size)%nat ->
  List.concat (map (fun i => firstn size (skipn (i * size) rows)) (seq 0 pages))
    = rows.
Proof.
  intros Hsize. revert rows. induction pages as [|pages IH]; intros rows Hlen.
  - destruct rows; [reflexivity | cbn in Hlen; lia].
  - cbn [seq map List.concat]. rewrite <- seq_shift, map_map.
    cbn [Nat.mul skipn].
    rewrite (map_ext _ (fun i => firstn size (skipn (i * size) (skipn size rows)))).
    + rewrite IH; [apply firstn_skipn|].
      rewrite length_skipn. lia.
    + intros i. rewrite skipn_skipn. f_equal. f_equal. lia.
Qed.

Variable table : Where.t -> list Row.

(** One page of a listing read from [table]. *)
Lemma findAll_reading (filters : Filters.t) (page : nat) (w : World) :
  (1 <= page)%nat ->
  0 < limit_of filters ->
  findAll (reading table) (page_of filters (Z.of_nat page)) w =
    (Ok (firstn (Z.to_nat (limit_of filters))
           (skipn ((page - 1) * Z.to_nat (limit_of filters))
              (table (where_of filters))),
         Pagination.mk (Z.of_nat page) (limit_of filters)
           (Z.of_nat (List.length (table (where_of filters))))
           (ceil_div (Z.of_nat (List.length (table (where_of filters))))
              (limit_of filters))), w).
Proof.
  intros Hpage Hlimit. unfold findAll, reading, page_of, limit_of, where_of in *.
  cbn [incident_findMany incident_count Filters.page Filters.limit
       Filters.status Filters.severity Filters.patientId or_number].
  destruct (Z.eqb_spec (Z.of_nat page) 0); [lia|].
  set (limit := Z.min (or_number (Filters.limit filters) 20) 100) in *.
  assert (Hskip : Z.to_nat ((Z.of_nat page - 1) * limit)
                  = ((page - 1) * Z.to_nat limit)%nat).
  { rewrite Z2Nat.inj_mul by lia. f_equal. lia. }
  rewrite Hskip. reflexivity.
Qed.

(** X27. Listing incidents page by page. With [limit] rows a page, the
    [limit] of the request capped at 100 and 20 when none is given, every
    page holds at most [limit] rows and reports the same
    [totalPages = ceil(total / limit)]; the pages 1 to [totalPages], one
    after the other, are exactly the rows that match, each once and in
    order; and any page after the last is empty. *)
Theorem pages_partition_the_listing (filters : Filters.t) (w : World) :
  0 < limit_of filters ->
  let rows := table (where_of filters) in
  let totalPages :=
    ceil_div (Z.of_nat (List.length rows)) (limit_of filters) in
  limit_of filters <= 100
  /\ (forall page,
        (1 <= page)%nat ->
        exists data,
          fst (findAll (reading table) (page_of filters (Z.of_nat page)) w)
            = Ok (data,
                  Pagination.mk (Z.of_nat page) (limit_of filters)
                    (Z.of_nat (List.length rows)) totalPages)
          /\ Z.of_nat (List.length data) <= limit_of filters
          /\ (totalPages < Z.of_nat page -> data = []))
  /\ List.concat
       (map (fun page => page_rows (reading table) filters page w)
          (seq 1 (Z.to_nat totalPages)))
     = rows.
Proof.
  intros Hlimit rows totalPages.
  pose proof (ceil_div_spec (Z.of_nat (List.length rows)) (limit_of filters) Hlimit)
    as Hceil.
  fold totalPages in Hceil.
  split; [unfold limit_of; lia|]. split.
  - intros page Hpage.
    rewrite (findAll_reading filters page w Hpage Hlimit).
    eexists. split; [reflexivity|]. split.
    + rewrite length_firstn. lia.
    + intros Hbeyond. fold rows.
      rewrite skipn_all2; [apply firstn_nil|]. nia.
  - rewrite <- seq_shift, map_map.
    rewrite (map_ext _
               (fun i => firstn (Z.to_nat (limit_of filters))
                           (skipn (i * Z.to_nat (limit_of filters)) rows))).
    + apply chunks; [lia | nia].
    + intros i. unfold page_rows.
      rewrite (findAll_reading filters (S i) w ltac:(lia) Hlimit).
      cbn [fst]. fold rows. do 2 f_equal. lia.
Qed.

End Listing.

(** X27 on five incidents listed two a page: three pages. *)
Lemma pages_partition_the_listing_witness :
  List.concat
    (map (fun page =>
            page_rows (reading (fun _ => [5; 4; 3; 2; 1]%nat))
              (Filters.mk None None None None (Some 2)) page
              (mkWorld [] []))
       [1; 2; 3]%nat)
  = [5; 4; 3; 2; 1]%nat.
Proof.
  exact (proj2 (proj2 (pages_partition_the_listing nat
                         (fun _ => [5; 4; 3; 2; 1]%nat)
                         (Filters.mk None None None None (Some 2))
                         (mkWorld [] []) ltac:(cbn; lia)))).
Defined.

End IncidentFacts.
